(** * Islamic Widget: next-prayer resolution, countdown and daily timer

    A shallow embedding of the prayer-time logic of [SalahWidget.py]
    (class [IslamicWidget]) and the properties of its specification.

    The widget is a PyQt5 object whose methods read the wall clock, call a
    REST provider and mutate attributes of [self].  The embedding threads an
    explicit [World] (the attributes of [self], the number of clock readings
    made so far and the log of HTTP requests) through a small state and
    exception monad.  The clock and the provider are oracles collected in an
    environment [Env]: every call of [QDateTime.currentDateTime()],
    [QDate.currentDate()] or [QTime.currentTime()] takes the next reading
    of the clock, every [requests.get] the next answer of the provider.

    Left out: what [print] writes, the style sheets of the theme, the
    settings dialog and the tray icon. *)

From Stdlib Require Import ZArith List String Ascii Lia.
From Stdlib Require Import Decimal DecimalString DecimalPos DecimalZ.
From stdpp Require Import base option gmap strings list fin_maps.

Local Open Scope string_scope.
Local Open Scope list_scope.
Local Open Scope Z_scope.

(** ** Qt date and time values

    [QDate] is a Julian day number and [QTime] a number of milliseconds since
    midnight, as in Qt; an invalid [QTime] is [NullTime].  Date-times are
    local times; the offset to UTC is taken as constant over the days a run
    looks at, so that comparing and subtracting two date-times is comparing
    and subtracting their local millisecond counts. *)

Module Qt.

Abbreviation QDate := Z (only parsing).
Abbreviation QTime := Z (only parsing).

Definition MSECS_PER_DAY : Z := 86400000.
Definition NullTime : Z := -1.

Definition QTime_isValid (t : QTime) : bool :=
  (NullTime <? t) && (t <? MSECS_PER_DAY).

(** [QTime(h, m, s)] *)
Definition QTime_hms (h m s : Z) : QTime :=
  if (0 <=? h) && (h <? 24) && (0 <=? m) && (m <? 60) && (0 <=? s) && (s <? 60)
  then (h * 3600 + m * 60 + s) * 1000
  else NullTime.

(** [a.secsTo(b)] on times: milliseconds are dropped on both sides. *)
Definition QTime_secsTo (a b : QTime) : Z :=
  if QTime_isValid a && QTime_isValid b then b / 1000 - a / 1000 else 0.

Definition digit_of (c : ascii) : option Z :=
  let n := Z.of_N (N_of_ascii c) in
  if (48 <=? n) && (n <=? 57) then Some (n - 48) else None.

(** A two-character numeric field as Qt reads it, with
    [QLocale::toUInt]: two digits, or a plus sign and one digit. *)
Definition field_of (a b : ascii) : option Z :=
  match digit_of a, digit_of b with
  | Some x, Some y => Some (10 * x + y)
  | None, Some y => if Ascii.eqb a "+"%char then Some y else None
  | _, None => None
  end.

(** [QTime.fromString(s, "HH:mm")]: a two-character hour, a colon, a
    two-character minute, the hour below 24 and the minute below 60;
    anything else is an invalid time. *)
Definition QTime_fromString (s : string) : QTime :=
  match s with
  | String a (String b (String c (String d (String e EmptyString)))) =>
      match field_of a b, field_of d e with
      | Some h, Some m =>
          if Ascii.eqb c ":"%char then QTime_hms h m 0 else NullTime
      | _, _ => NullTime
      end
  | _ => NullTime
  end.

Record QDateTime := mkQDateTime { date : QDate; time : QTime }.

(** [QDateTime(d, t)]: an invalid time is replaced by midnight. *)
Definition QDateTime_make (d : QDate) (t : QTime) : QDateTime :=
  mkQDateTime d (if QTime_isValid t then t else 0).

Definition toMSecs (dt : QDateTime) : Z := date dt * MSECS_PER_DAY + time dt.

Definition fromMSecs (ms : Z) : QDateTime :=
  mkQDateTime (ms / MSECS_PER_DAY) (ms mod MSECS_PER_DAY).

Definition QDateTime_lt (a b : QDateTime) : bool := toMSecs a <? toMSecs b.
Definition QDateTime_gt (a b : QDateTime) : bool := QDateTime_lt b a.

(** [a.secsTo(b)] on date-times is [a.msecsTo(b) / 1000] in C++, a
    division that truncates towards zero. *)
Definition secsTo (a b : QDateTime) : Z := Z.quot (toMSecs b - toMSecs a) 1000.

Definition addSecs (dt : QDateTime) (s : Z) : QDateTime :=
  fromMSecs (toMSecs dt + s * 1000).

Definition addDays (d : QDate) (n : Z) : QDate := d + n.

End Qt.
Export Qt.

(** ** Python string formatting *)

(** [str(n)] for an integer. *)
Definition str (n : Z) : string := NilZero.string_of_int (Z.to_int n).

(** [f"{n:02d}"]: at least two characters, padded with a zero on the left. *)
Definition format_02d (n : Z) : string :=
  let s := str n in
  if (String.length s <? 2)%nat then String.append "0" s else s.

(** [dt.toString('hh:mm')] *)
Definition toString_hhmm (dt : QDateTime) : string :=
  format_02d (time dt / 3600000) +:+ ":" +:+ format_02d ((time dt / 60000) mod 60).

(** ** The widget and its environment *)

(** [self.config], the parts the methods below read. *)
Record Config := {
  city : string;
  country : string;
  timezone : string;
  prayer_api : string;
  quran_api : string;
  hadith_api : string;
  show_arabic : bool;
  show_translation : bool;
  show_hadith : bool
}.

Record QLabel := { text : string; styleSheet : string }.

Definition setText (s : string) (l : QLabel) : QLabel :=
  {| text := s; styleSheet := styleSheet l |}.
Definition setStyleSheet (s : string) (l : QLabel) : QLabel :=
  {| text := text l; styleSheet := s |}.

(** The attributes of [self].  An attribute that is created after
    [__init__] ([prayer_times], [next_prayer], [next_prayer_time]) is [None]
    until its first assignment; so is a timer until [setup_timers]
    creates it, and then it holds the interval, in milliseconds, of its
    last [start].  A Python dict that is iterated
    ([prayer_times]) is an association list in insertion order. *)
Record Widget := {
  config : Config;
  prayer_times : option (list (string * QDateTime));
  next_prayer : option string;
  next_prayer_time : option QDateTime;
  next_prayer_label : string;
  countdown_label : string;
  prayer_labels : gmap string QLabel;
  quran_arabic : string;
  quran_translation : string;
  verse_reference : string;
  hadith_text : string;
  hadith_source : string;
  countdown_timer : option Z;
  daily_timer : option Z
}.

Definition set_prayer_times (v : option (list (string * QDateTime))) (s : Widget) : Widget :=
  Build_Widget (config s) v (next_prayer s) (next_prayer_time s)
    (next_prayer_label s) (countdown_label s) (prayer_labels s)
    (quran_arabic s) (quran_translation s) (verse_reference s) (hadith_text s)
    (hadith_source s) (countdown_timer s) (daily_timer s).
Definition set_next_prayer (v : option string) (s : Widget) : Widget :=
  Build_Widget (config s) (prayer_times s) v (next_prayer_time s)
    (next_prayer_label s) (countdown_label s) (prayer_labels s)
    (quran_arabic s) (quran_translation s) (verse_reference s) (hadith_text s)
    (hadith_source s) (countdown_timer s) (daily_timer s).
Definition set_next_prayer_time (v : option QDateTime) (s : Widget) : Widget :=
  Build_Widget (config s) (prayer_times s) (next_prayer s) v
    (next_prayer_label s) (countdown_label s) (prayer_labels s)
    (quran_arabic s) (quran_translation s) (verse_reference s) (hadith_text s)
    (hadith_source s) (countdown_timer s) (daily_timer s).
Definition set_next_prayer_label (v : string) (s : Widget) : Widget :=
  Build_Widget (config s) (prayer_times s) (next_prayer s)
    (next_prayer_time s) v (countdown_label s) (prayer_labels s)
    (quran_arabic s) (quran_translation s) (verse_reference s) (hadith_text s)
    (hadith_source s) (countdown_timer s) (daily_timer s).
Definition set_countdown_label (v : string) (s : Widget) : Widget :=
  Build_Widget (config s) (prayer_times s) (next_prayer s)
    (next_prayer_time s) (next_prayer_label s) v (prayer_labels s)
    (quran_arabic s) (quran_translation s) (verse_reference s) (hadith_text s)
    (hadith_source s) (countdown_timer s) (daily_timer s).
Definition set_prayer_labels (v : gmap string QLabel) (s : Widget) : Widget :=
  Build_Widget (config s) (prayer_times s) (next_prayer s)
    (next_prayer_time s) (next_prayer_label s) (countdown_label s) v
    (quran_arabic s) (quran_translation s) (verse_reference s) (hadith_text s)
    (hadith_source s) (countdown_timer s) (daily_timer s).
Definition set_quran_arabic (v : string) (s : Widget) : Widget :=
  Build_Widget (config s) (prayer_times s) (next_prayer s)
    (next_prayer_time s) (next_prayer_label s) (countdown_label s)
    (prayer_labels s) v (quran_translation s) (verse_reference s)
    (hadith_text s) (hadith_source s) (countdown_timer s) (daily_timer s).
Definition set_quran_translation (v : string) (s : Widget) : Widget :=
  Build_Widget (config s) (prayer_times s) (next_prayer s)
    (next_prayer_time s) (next_prayer_label s) (countdown_label s)
    (prayer_labels s) (quran_arabic s) v (verse_reference s) (hadith_text s)
    (hadith_source s) (countdown_timer s) (daily_timer s).
Definition set_verse_reference (v : string) (s : Widget) : Widget :=
  Build_Widget (config s) (prayer_times s) (next_prayer s)
    (next_prayer_time s) (next_prayer_label s) (countdown_label s)
    (prayer_labels s) (quran_arabic s) (quran_translation s) v (hadith_text s)
    (hadith_source s) (countdown_timer s) (daily_timer s).
Definition set_hadith_text (v : string) (s : Widget) : Widget :=
  Build_Widget (config s) (prayer_times s) (next_prayer s)
    (next_prayer_time s) (next_prayer_label s) (countdown_label s)
    (prayer_labels s) (quran_arabic s) (quran_translation s)
    (verse_reference s) v (hadith_source s) (countdown_timer s)
    (daily_timer s).
Definition set_hadith_source (v : string) (s : Widget) : Widget :=
  Build_Widget (config s) (prayer_times s) (next_prayer s)
    (next_prayer_time s) (next_prayer_label s) (countdown_label s)
    (prayer_labels s) (quran_arabic s) (quran_translation s)
    (verse_reference s) (hadith_text s) v (countdown_timer s) (daily_timer s).
Definition set_countdown_timer (v : option Z) (s : Widget) : Widget :=
  Build_Widget (config s) (prayer_times s) (next_prayer s)
    (next_prayer_time s) (next_prayer_label s) (countdown_label s)
    (prayer_labels s) (quran_arabic s) (quran_translation s)
    (verse_reference s) (hadith_text s) (hadith_source s) v (daily_timer s).
Definition set_daily_timer (v : option Z) (s : Widget) : Widget :=
  Build_Widget (config s) (prayer_times s) (next_prayer s)
    (next_prayer_time s) (next_prayer_label s) (countdown_label s)
    (prayer_labels s) (quran_arabic s) (quran_translation s)
    (verse_reference s) (hadith_text s) (hadith_source s) (countdown_timer s)
    v.


(** HTTP requests.  The query parameters of the prayer API are kept as a
    record; the date travels as a [QDate] (the program sends it formatted
    as dd-MM-yyyy). *)
Record Params := {
  p_city : string;
  p_country : string;
  p_method : Z;
  p_date : QDate;
  p_timezone : option string
}.

Record Request := { url : string; params : option Params }.

(** What [requests.get(...).json()] gives, at the shapes the three
    providers answer with.  A field a response does not have is absent:
    reading it raises [KeyError]. *)
Inductive Response :=
| ConnectionError
    (* requests.get or .json() raises *)
| Timings (code : Z) (timings : gmap string string)
    (* data['code'], data['data']['timings'] *)
| Verse (code : Z) (text englishName : string) (numberInSurah number : Z)
    (* data['code'], data['data'][...] *)
| Translation (code : Z) (text : string)
    (* data['code'], data['data']['text'] *)
| Hadith (data : gmap string string).
    (* data['data'], an empty dict when missing or falsy *)

Definition response_code (r : Response) : option Z :=
  match r with
  | Timings c _ | Verse c _ _ _ _ | Translation c _ => Some c
  | _ => None
  end.

Definition response_timings (r : Response) : option (gmap string string) :=
  match r with Timings _ tm => Some tm | _ => None end.

(** The environment: the [k]-th reading of the wall clock, in local
    milliseconds, and the answer of the network to the [k]-th request. *)
Record Env := {
  clock : nat -> Z;
  provider : nat -> Request -> Response
}.

(** The state a run threads: [self], the number of clock readings taken,
    the requests sent so far and the number of times
    [update_prayer_times] has been entered. *)
Record World := {
  self : Widget;
  reads : nat;
  sent : list Request;
  refreshes : nat
}.

(** ** A state and exception monad *)

(** A computation ends normally with a value, or with a Python exception
    on its way to the next handler (the mutations made so far stay). *)
Inductive Outcome (A : Type) : Type :=
| Ret (a : A) (w : World)
| Exn (w : World).
Arguments Ret {A} a w.
Arguments Exn {A} w.

Definition M (A : Type) : Type := World -> Outcome A.

#[global] Instance M_ret : MRet M := fun A a w => Ret a w.
#[global] Instance M_bind : MBind M := fun A B f m w =>
  match m w with
  | Ret a w' => f a w'
  | Exn w' => Exn w'
  end.

Definition raise {A} : M A := fun w => Exn w.

(** [try: body except Exception: handler] *)
Definition try_except {A} (body handler : M A) : M A := fun w =>
  match body w with
  | Exn w' => handler w'
  | r => r
  end.

Definition get_self : M Widget := fun w => Ret (self w) w.

Definition modify (f : Widget -> Widget) : M unit := fun w =>
  Ret tt {| self := f (self w); reads := reads w; sent := sent w;
            refreshes := refreshes w |}.

(** [d[k]] and [self.attr]: [KeyError] or [AttributeError] when absent. *)
Definition subscript {A} (o : option A) : M A :=
  match o with Some a => mret a | None => raise end.

Fixpoint for_each {A} (l : list A) (body : A -> M unit) : M unit :=
  match l with
  | [] => mret tt
  | x :: l' => body x ;; for_each l' body
  end.

(** Python dicts as association lists: [d.get(k)] and [d[k] = v]. *)
Fixpoint dict_get {V} (d : list (string * V)) (k : string) : option V :=
  match d with
  | [] => None
  | (k', v) :: d' => if String.eqb k k' then Some v else dict_get d' k
  end.

Fixpoint dict_set {V} (k : string) (v : V) (d : list (string * V))
  : list (string * V) :=
  match d with
  | [] => [(k, v)]
  | (k', v') :: d' =>
      if String.eqb k k' then (k', v) :: d' else (k', v') :: dict_set k v d'
  end.

(** ** The methods of [IslamicWidget] *)

Definition prayer_names : list string :=
  ["Fajr"; "Sunrise"; "Dhuhr"; "Asr"; "Maghrib"; "Isha"; "Midnight"].

(** The loop body of [update_next_prayer]: [acc] is the pair
    [(next_prayer, next_prayer_time)], [None] while both are [None]. *)
Definition scan_step (now : QDateTime) (acc : option (string * QDateTime))
    (item : string * QDateTime) : option (string * QDateTime) :=
  let '(prayer, time) := item in
  if QDateTime_gt time now then
    match acc with
    | None => Some (prayer, time)
    | Some (_, next_prayer_time) =>
        if QDateTime_lt time next_prayer_time then Some (prayer, time) else acc
    end
  else acc.

Definition scan (now : QDateTime) (items : list (string * QDateTime))
  : option (string * QDateTime) :=
  fold_left (scan_step now) items None.

(** The text [update_countdown] shows for a positive number of seconds. *)
Definition countdown_text (seconds_remaining : Z) : string :=
  let hours := seconds_remaining / 3600 in
  let minutes := (seconds_remaining mod 3600) / 60 in
  let seconds := seconds_remaining mod 60 in
  format_02d hours +:+ ":" +:+ format_02d minutes +:+ ":" +:+ format_02d seconds.

(** The [params] dict of a prayer request: [update_prayer_times] sends the
    timezone, the fetch of [update_next_prayer] does not. *)
Definition prayer_params (c : Config) (tz : bool) (d : QDate) : Request :=
  {| url := prayer_api c;
     params := Some {| p_city := city c; p_country := country c;
                       p_method := 2; p_date := d;
                       p_timezone :=
                         if tz then Some (timezone c) else None |} |}.

Section Methods.

Variable E : Env.

(** Every reading of the wall clock takes the next value of the oracle. *)
Definition QDateTime_currentDateTime : M QDateTime := fun w =>
  Ret (fromMSecs (clock E (reads w)))
      {| self := self w; reads := S (reads w); sent := sent w;
         refreshes := refreshes w |}.

Definition QDate_currentDate : M QDate :=
  now ← QDateTime_currentDateTime; mret (date now).

Definition QTime_currentTime : M QTime :=
  now ← QDateTime_currentDateTime; mret (time now).

(** [requests.get(url, params=params).json()] *)
Definition requests_get (r : Request) : M Response := fun w =>
  let w' := {| self := self w; reads := reads w; sent := sent w ++ [r];
               refreshes := refreshes w |} in
  match provider E (length (sent w)) r with
  | ConnectionError => Exn w'
  | data => Ret data w'
  end.

Definition note_refresh : M unit := fun w =>
  Ret tt {| self := self w; reads := reads w; sent := sent w;
            refreshes := S (refreshes w) |}.

Definition time_to_datetime (time_str : string) : M QDateTime :=
  today ← QDate_currentDate;
  let time := QTime_fromString time_str in
  mret (QDateTime_make today time).

Definition prayer_request (tz : bool) (d : QDate) : M Request :=
  s ← get_self; mret (prayer_params (config s) tz d).

(** The dict literal assigned to [self.prayer_times]. *)
Definition extract_prayer_times (tm : gmap string string)
  : M (list (string * QDateTime)) :=
  mapM (fun name =>
          time_str ← subscript (tm !! name);
          t ← time_to_datetime time_str;
          mret (name, t)) prayer_names.

Definition update_prayer_displays : M unit :=
  s ← get_self;
  match prayer_times s with
  | None => mret tt
  | Some items =>
      for_each items (fun '(prayer, time) =>
        s ← get_self;
        match prayer_labels s !! prayer with
        | None => mret tt
        | Some _ =>
            let time_str := toString_hhmm time in
            modify (fun s => set_prayer_labels
                       (alter (setText time_str) prayer (prayer_labels s)) s);;
            s ← get_self;
            np ← subscript (next_prayer s);
            let style :=
              if String.eqb prayer np
              then "font-weight: bold; color: #2196F3;" else "" in
            modify (fun s => set_prayer_labels
                       (alter (setStyleSheet style) prayer (prayer_labels s)) s)
        end)
  end.

(** The [except Exception] handler of [update_prayer_times]. *)
Definition prayer_times_failed : M unit :=
  modify (set_next_prayer_label "Error: Could not update prayer times");;
  modify (set_countdown_label "--:--:--").

Section Knot.

(** [self.update_prayer_times], one level deeper in the call stack. *)
Variable refresh : M unit.

Definition update_countdown_with : M unit :=
  s ← get_self;
  match next_prayer_time s with
  | None => mret tt
  | Some next_prayer_time =>
      now ← QDateTime_currentDateTime;
      let seconds_remaining := secsTo now next_prayer_time in
      if 0 <? seconds_remaining then
        modify (set_countdown_label
                  ("Time Remaining: " +:+ countdown_text seconds_remaining))
      else
        refresh
  end.

(** The branch of [update_next_prayer] taken when the scan finds
    nothing: [Some] is the pair to store, [None] is the early return. *)
Definition fetch_tomorrow_fajr : M (option (string * QDateTime)) :=
  today ← QDate_currentDate;
  let tomorrow := addDays today 1 in
  let next_prayer := "Fajr (Tomorrow)" in
  req ← prayer_request false tomorrow;
  try_except
    (data ← requests_get req;
     c ← subscript (response_code data);
     if c =? 200 then
       tm ← subscript (response_timings data);
       fajr_time ← subscript (tm !! "Fajr");
       let time := QTime_fromString fajr_time in
       mret (Some (next_prayer, QDateTime_make tomorrow time))
     else
       modify (set_next_prayer_label
                 "Could not fetch tomorrow's prayer times");;
       mret None)
    (modify (set_next_prayer_label
               "Error fetching tomorrow's prayer times");;
     mret None).

(** The end of [update_next_prayer]: the early [return] of the failed
    fetch, or the assignments, the label and the countdown. *)
Definition store_next_prayer (found : option (string * QDateTime))
  : M unit :=
  match found with
  | None => mret tt
  | Some (next_prayer, next_prayer_time) =>
      modify (set_next_prayer (Some next_prayer));;
      modify (set_next_prayer_time (Some next_prayer_time));;
      modify (set_next_prayer_label ("Next: " +:+ next_prayer));;
      update_countdown_with
  end.

Definition update_next_prayer_with : M unit :=
  now ← QDateTime_currentDateTime;
  s ← get_self;
  items ← subscript (prayer_times s);
  found ← match scan now items with
          | Some r => mret (Some r)
          | None => fetch_tomorrow_fajr
          end;
  store_next_prayer found.

(** Midnight as the midpoint between Isha and tomorrow's Fajr. *)
Definition adjust_midnight (isha_time : QDateTime) (tomorrow : QDate)
    (tm : gmap string string) : M unit :=
  fajr ← subscript (tm !! "Fajr");
  tomorrow_fajr ← time_to_datetime fajr;
  let tomorrow_fajr := QDateTime_make tomorrow (time tomorrow_fajr) in
  let seconds_between := secsTo isha_time tomorrow_fajr in
  let midnight_seconds := seconds_between / 2 in
  s ← get_self;
  items ← subscript (prayer_times s);
  modify (set_prayer_times
            (Some (dict_set "Midnight"
                     (addSecs isha_time midnight_seconds) items))).

Definition update_prayer_times_with : M unit :=
  note_refresh;;
  try_except
    (today ← QDate_currentDate;
     req ← prayer_request true today;
     data ← requests_get req;
     c ← subscript (response_code data);
     if c =? 200 then
       timings ← subscript (response_timings data);
       items ← extract_prayer_times timings;
       modify (set_prayer_times (Some items));;
       isha_time ← subscript (dict_get items "Isha");
       today' ← QDate_currentDate;
       let tomorrow := addDays today' 1 in
       req' ← prayer_request true tomorrow;
       tomorrow_data ← requests_get req';
       c' ← subscript (response_code tomorrow_data);
       (if c' =? 200 then
          tm ← subscript (response_timings tomorrow_data);
          adjust_midnight isha_time tomorrow tm
        else mret tt);;
       update_next_prayer_with;;
       update_prayer_displays
     else
       modify (set_next_prayer_label "Prayer API Error: Try again later");;
       modify (set_countdown_label "--:--:--"))
    prayer_times_failed.

End Knot.

Definition update_quran_verse : M unit :=
  try_except
    (s ← get_self;
     data ← requests_get {| url := quran_api (config s); params := None |};
     c ← subscript (response_code data);
     if c =? 200 then
       match data with
       | Verse _ arabic_text surah_name verse_number number =>
           translation_data ←
             requests_get
               {| url := "https://api.alquran.cloud/v1/ayah/" +:+ str number
                           +:+ "/en.sahih";
                  params := None |};
           c' ← subscript (response_code translation_data);
           if c' =? 200 then
             translation_text ←
               match translation_data with
               | Translation _ t | Verse _ t _ _ _ => mret t
               | _ => raise
               end;
             s ← get_self;
             (if show_arabic (config s)
              then modify (set_quran_arabic arabic_text) else mret tt);;
             (if show_translation (config s)
              then modify (set_quran_translation translation_text)
              else mret tt);;
             modify (set_verse_reference
                       ("Surah " +:+ surah_name +:+ " (" +:+ str verse_number
                          +:+ ")"))
           else
             modify (set_quran_translation "Could not load translation")
       | _ => raise
       end
     else
       modify (set_quran_arabic "Could not load verse");;
       modify (set_quran_translation "API error"))
    (modify (set_quran_arabic "Error loading verse");;
     modify (set_quran_translation "Please check your internet connection")).

(** [data['data']] of the hadith API when it is present and truthy; the
    other shapes carry a non-empty [data] without hadith fields. *)
Definition hadith_data (r : Response) : option (gmap string string) :=
  match r with
  | Hadith d => if decide (d = ∅) then None else Some d
  | _ => Some ∅
  end.

Definition update_hadith : M unit :=
  try_except
    (s ← get_self;
     data ← requests_get {| url := hadith_api (config s); params := None |};
     match hadith_data data with
     | Some hadith =>
         let hadith_text := default "" (hadith !! "hadith_english") in
         let hadith_source :=
           "Sahih al-Bukhari " +:+ default "" (hadith !! "hadith_number") in
         modify (set_hadith_text hadith_text);;
         modify (set_hadith_source ("Source: " +:+ hadith_source))
     | None =>
         modify (set_hadith_text "Could not load hadith");;
         modify (set_hadith_source "API error")
     end)
    (modify (set_hadith_text "Error loading hadith");;
     modify (set_hadith_source "Please check your internet connection")).

(** [update_prayer_times] entered where the stack has no room left for
    [requests.get]: the call raises [RecursionError], an [Exception],
    inside the [try], and the handler of the method catches it. *)
Definition update_prayer_times_at_limit : M unit :=
  note_refresh;;
  try_except
    (today ← QDate_currentDate;
     req ← prayer_request true today;
     raise)
    prayer_times_failed.

(** The methods call each other in a cycle ([update_countdown] calls
    [update_prayer_times], which calls [update_next_prayer], which calls
    [update_countdown]), and CPython bounds the nesting by its recursion
    limit: [fuel] is the number of further entries of [update_prayer_times]
    that the stack has room for below the one being made.  [requests.get]
    needs far more frames than one round of the cycle, so the limit is
    met inside the first request of the deepest entry. *)
Fixpoint update_prayer_times (fuel : nat) : M unit :=
  match fuel with
  | O => update_prayer_times_at_limit
  | S fuel' => update_prayer_times_with (update_prayer_times fuel')
  end.

Definition update_countdown (fuel : nat) : M unit :=
  update_countdown_with (update_prayer_times fuel).

Definition update_next_prayer (fuel : nat) : M unit :=
  update_next_prayer_with (update_prayer_times fuel).

Definition update_data (fuel : nat) : M unit :=
  update_prayer_times fuel;;
  update_quran_verse;;
  s ← get_self;
  if show_hadith (config s) then update_hadith else mret tt.

(** [self.daily_timer.start(...)]: [AttributeError] while [setup_timers]
    has not created the timer. *)
Definition daily_update (fuel : nat) : M unit :=
  update_data fuel;;
  s ← get_self;
  _ ← subscript (daily_timer s);
  modify (set_daily_timer (Some (24 * 60 * 60 * 1000))).

(** The delay of the first shot of the daily timer, in seconds. *)
Definition secs_until_midnight (current_time : QTime) : Z :=
  let target_time := QTime_hms 0 0 0 in
  let secs_until_midnight := QTime_secsTo current_time target_time in
  if secs_until_midnight <? 0
  then secs_until_midnight + 24 * 60 * 60
  else secs_until_midnight.

Definition setup_timers : M unit :=
  modify (set_countdown_timer (Some 1000));;
  current_time ← QTime_currentTime;
  modify (set_daily_timer (Some (secs_until_midnight current_time * 1000))).

End Methods.

(** ** Worlds *)

Definition stored (p : string) (t : QDateTime) (s : Widget) : Widget :=
  set_next_prayer_label ("Next: " +:+ p)
    (set_next_prayer_time (Some t) (set_next_prayer (Some p) s)).

(** The world after [n] more clock readings. *)
Definition advance (n : nat) (w : World) : World :=
  {| self := self w; reads := n + reads w; sent := sent w;
     refreshes := refreshes w |}.

Definition with_self (s : Widget) (w : World) : World :=
  {| self := s; reads := reads w; sent := sent w; refreshes := refreshes w |}.

(** ** Running the model on a concrete day *)

Module Sample.

Definition cfg : Config :=
  {| city := "New York"; country := "United States";
     timezone := "America/New_York";
     prayer_api := "https://api.aladhan.com/v1/timingsByCity";
     quran_api := "https://api.alquran.cloud/v1/ayah/random";
     hadith_api := "https://random-hadith-generator.vercel.app/bukhari";
     show_arabic := true; show_translation := true; show_hadith := true |}.

Definition label0 : QLabel := {| text := "--:--"; styleSheet := "" |}.

(** The widget as [init_ui] leaves it. *)
Definition widget0 : Widget :=
  {| config := cfg;
     prayer_times := None; next_prayer := None; next_prayer_time := None;
     next_prayer_label := "Next Prayer: Calculating...";
     countdown_label := "Time Remaining: --:--:--";
     prayer_labels := list_to_map (map (fun n => (n, label0)) prayer_names);
     quran_arabic := "Loading verse..."; quran_translation := "Loading translation...";
     verse_reference := "Surah --:--";
     hadith_text := "Loading hadith..."; hadith_source := "Source: --";
     countdown_timer := None; daily_timer := None |}.

Definition world0 : World :=
  {| self := widget0; reads := 0; sent := []; refreshes := 0 |}.

Definition timings_of (fajr sunrise dhuhr asr maghrib isha midnight : string)
  : gmap string string :=
  list_to_map
    [("Fajr", fajr); ("Sunrise", sunrise); ("Dhuhr", dhuhr); ("Asr", asr);
     ("Maghrib", maghrib); ("Isha", isha); ("Midnight", midnight)].

Definition day_timings : gmap string string :=
  timings_of "05:00" "06:30" "13:00" "16:30" "19:00" "20:00" "00:30".

(** A provider that answers every prayer request with the same day, a
    verse and a hadith. *)
Definition good_provider (k : nat) (r : Request) : Response :=
  if String.eqb (url r) (prayer_api cfg) then Timings 200 day_timings
  else if String.eqb (url r) (quran_api cfg) then Verse 200 "text" "Al-Fatiha" 1 1
  else if String.eqb (url r) (hadith_api cfg)
       then Hadith {[ "hadith_english" := "hadith"; "hadith_number" := "1" ]}
       else Translation 200 "translation".

Definition failing_provider (k : nat) (r : Request) : Response :=
  Timings 500 ∅.

(** Local milliseconds of [hh:mm:ss.ms] on day [d]. *)
Definition at_ (d hh mm ss ms : Z) : Z :=
  d * MSECS_PER_DAY + ((hh * 60 + mm) * 60 + ss) * 1000 + ms.

Definition frozen (now : Z) : nat -> Z := fun _ => now.

(** A clock that shows [a] for the first [k] readings and [b] after. *)
Definition stepped (k : nat) (a b : Z) : nat -> Z :=
  fun i => if (i <? k)%nat then a else b.

(** Noon during the first refresh (twelve readings), then half a second
    after Dhuhr. *)
Definition expiry_clock : nat -> Z :=
  stepped 12 (at_ 100 12 0 0 250) (at_ 100 13 0 0 500).

(** The provider answers the first two requests and fails afterwards. *)
Definition outage_provider (k : nat) (r : Request) : Response :=
  if (k <? 2)%nat then good_provider k r else failing_provider k r.

(** Noon during the first refresh, half a second before Dhuhr for the
    tick and the refresh it starts (thirteen readings), a tenth of a
    second after Dhuhr from then on. *)
Definition boundary_clock : nat -> Z := fun i =>
  if (i <? 12)%nat then at_ 100 12 0 0 250
  else if (i <? 25)%nat then at_ 100 12 59 59 500
  else at_ 100 13 0 0 100.

(** The entries of day [d] as parsed, and with Midnight moved to the
    midpoint between Isha and the next Fajr. *)
Definition raw_items (d : Z) : list (string * QDateTime) :=
  map (fun '(n, hh, mm) => (n, mkQDateTime d ((hh * 60 + mm) * 60000)))
    [("Fajr", 5, 0); ("Sunrise", 6, 30); ("Dhuhr", 13, 0); ("Asr", 16, 30);
     ("Maghrib", 19, 0); ("Isha", 20, 0); ("Midnight", 0, 30)].

Definition items (d : Z) : list (string * QDateTime) :=
  dict_set "Midnight" (mkQDateTime (d + 1) 1800000) (raw_items d).

Definition world_with (l : list (string * QDateTime)) : World :=
  {| self := set_prayer_times (Some l) widget0; reads := 0; sent := [];
     refreshes := 0 |}.

(** The environments of the examples. *)
Definition at_noon : Env :=
  {| clock := frozen (at_ 100 12 0 0 250); provider := good_provider |}.

Definition at_evening : Env :=
  {| clock := frozen (at_ 100 21 0 0 250); provider := good_provider |}.

Definition before_noon : Env :=
  {| clock := frozen (at_ 100 11 58 58 250); provider := good_provider |}.

Definition before_midnight : Env :=
  {| clock := frozen (at_ 100 23 59 50 250); provider := good_provider |}.

Definition provider_down : Env :=
  {| clock := frozen (at_ 100 12 0 0 250); provider := failing_provider |}.

Definition outage_at_dhuhr : Env :=
  {| clock := expiry_clock; provider := outage_provider |}.

Definition tick_before_dhuhr : Env :=
  {| clock := boundary_clock; provider := good_provider |}.

Definition down_after_dhuhr : Env :=
  {| clock := frozen (at_ 100 13 0 0 500); provider := failing_provider |}.

(** Nine tenths of a second into day 100. *)
Definition after_midnight : Env :=
  {| clock := frozen (at_ 100 0 0 0 900); provider := good_provider |}.

(** The widget after [setup_timers] ten seconds before midnight. *)
Definition timers_started : World :=
  with_self (set_daily_timer (Some 10000)
               (set_countdown_timer (Some 1000) widget0)) world0.

(** The widget with Dhuhr of day 100 stored as next prayer. *)
Definition dhuhr_stored : World :=
  with_self (stored "Dhuhr" (mkQDateTime 100 46800000)
               (self (world_with (items 100)))) world0.

(** No network: every request raises. *)
Definition unreachable_provider (k : nat) (r : Request) : Response :=
  ConnectionError.

Definition down_at_night : Env :=
  {| clock := frozen (at_ 100 21 0 0 250);
     provider := failing_provider |}.

Definition offline_at_noon : Env :=
  {| clock := frozen (at_ 100 12 0 0 250);
     provider := unreachable_provider |}.

End Sample.


(** ** The configuration file *)

Module ConfigFile.

(** A JSON value as [json.load] returns it: [None], a bool, an int, a
    float, a str, a list, or a dict in the order of its keys. *)
#[warnings="-register-all"] Inductive Json :=
| JNull
| JBool (b : bool)
| JInt (n : Z)
| JFloat (mantissa exponent : Z)
| JStr (s : string)
| JArr (items : list Json)
| JObj (fields : list (string * Json)).

(** [bool(j)] *)
Definition truthy (j : Json) : bool :=
  match j with
  | JNull => false
  | JBool b => b
  | JInt n => negb (n =? 0)
  | JFloat m _ => negb (m =? 0)
  | JStr s => negb (String.eqb s "")
  | JArr items => match items with [] => false | _ => true end
  | JObj fields => match fields with [] => false | _ => true end
  end.

(** [j[k]] for a str [k]: a dict that has the key, or an exception. *)
Definition getitem (j : Json) (k : string) : option Json :=
  match j with JObj fields => dict_get fields k | _ => None end.

(** [CONFIG_FILE]: absent, present but not JSON, or the text of a value. *)
Inductive File := Missing | Garbled | Holds (j : Json).

(** The file and [self.config], [None] before its first assignment. *)
Record State := { file : File; config : option Json }.

(** How a method ends: normally, or with an exception on its way out. *)
Inductive Result := Done (s : State) | Raised (s : State).

Section Host.

(** What [tzlocal.get_localzone()] prints, [None] when it raises, and the
    two coordinates that [get_user_location] gave when the module was
    loaded. *)
Variables (localzone : option string) (latitude longitude : Json).

Definition get_local_timezone : string :=
  match localzone with
  | Some tz => tz
  | None => "America/New_York"
  end.

Definition DEFAULT_CONFIG : Json :=
  JObj
    [("location",
      JObj [("city", JStr "New York"); ("country", JStr "United States");
            ("latitude", latitude); ("longitude", longitude);
            ("timezone", JStr get_local_timezone)]);
     ("appearance",
      JObj [("theme", JStr "light"); ("font_size", JInt 12);
            ("show_arabic", JBool true); ("show_translation", JBool true);
            ("show_hadith", JBool true)]);
     ("api",
      JObj [("prayer_api", JStr "https://api.aladhan.com/v1/timingsByCity");
            ("quran_api", JStr "https://api.alquran.cloud/v1/ayah/random");
            ("hadith_api",
             JStr "https://random-hadith-generator.vercel.app/bukhari")]);
     ("update_interval",
      JObj [("quran_verse", JStr "daily"); ("hadith", JStr "daily")])].

(** [open(CONFIG_FILE, 'w')] empties the file before [self.config] is
    read. *)
Definition save_config (s : State) : Result :=
  match config s with
  | None => Raised {| file := Garbled; config := None |}
  | Some c => Done {| file := Holds c; config := Some c |}
  end.

(** The two directories are taken to be creatable and the file to be
    readable and writable. *)
Definition load_config (s : State) : Result :=
  match file s with
  | Missing =>
      Done {| file := Holds DEFAULT_CONFIG; config := Some DEFAULT_CONFIG |}
  | Garbled => Raised s
  | Holds j =>
      let s := {| file := file s; config := Some j |} in
      match j, getitem j "location" with
      | JObj fields, Some (JObj location) =>
          if match dict_get location "timezone" with
             | None => true
             | Some tz => negb (truthy tz)
             end
          then
            let location :=
              dict_set "timezone" (JStr get_local_timezone) location in
            save_config
              {| file := file s;
                 config :=
                   Some (JObj (dict_set "location" (JObj location) fields)) |}
          else Done s
      | _, _ => Raised s
      end
  end.

End Host.

End ConfigFile.

(** ** Notions used in the statements *)

(** [earliest now seen r]: [r] is what the scan holds after the entries
    [seen]: nothing when no entry is later than [now], otherwise an entry
    later than [now] that no other such entry precedes. *)
Definition earliest (now : QDateTime) (seen : list (string * QDateTime))
    (r : option (string * QDateTime)) : Prop :=
  match r with
  | None => forall q u, (q, u) ∈ seen -> toMSecs u <= toMSecs now
  | Some (p, t) =>
      (p, t) ∈ seen /\ toMSecs now < toMSecs t /\
      forall q u, (q, u) ∈ seen -> toMSecs now < toMSecs u ->
                  toMSecs t <= toMSecs u
  end.

(** The "HH:mm" string of hour [h] and minute [m]. *)
Definition clock_string (h m : Z) : string :=
  format_02d h +:+ ":" +:+ format_02d m.

(** What [time_to_datetime] makes of [s] at the [i]-th clock reading from
    [w] on. *)
Definition parsed (E : Env) (w : World) (i : nat) (s : string) : QDateTime :=
  QDateTime_make (date (fromMSecs (clock E (i + reads w)))) (QTime_fromString s).

(** The decimal digit [d] as a character, and the two-digit numeral of
    [n]. *)
Definition digit_char (d : Z) : ascii := ascii_of_N (Z.to_N (48 + d)).

Definition two_digits (n : Z) : string :=
  String (digit_char (n / 10)) (String (digit_char (n mod 10)) EmptyString).

(** [int(s)] for a decimal numeral. *)
Definition int_of_str (s : string) : option Z :=
  Z.of_int <$> NilZero.int_of_string s.

(** What [update_prayer_displays] does to the labels for one entry and
    for all of them, [np] being [self.next_prayer]. *)
Definition paint_one (np : string) (labels : gmap string QLabel)
    (item : string * QDateTime) : gmap string QLabel :=
  let '(prayer, time) := item in
  alter (setStyleSheet (if String.eqb prayer np
                        then "font-weight: bold; color: #2196F3;" else ""))
    prayer (alter (setText (toString_hhmm time)) prayer labels).

Definition paint (items : list (string * QDateTime)) (np : string)
    (labels : gmap string QLabel) : gmap string QLabel :=
  fold_left (paint_one np) items labels.

(** The attributes of [self] by the method that writes them. *)
Definition prayer_part (s : Widget) :=
  (prayer_times s, next_prayer s, next_prayer_time s, next_prayer_label s,
   countdown_label s, prayer_labels s).

Definition quran_part (s : Widget) :=
  (quran_arabic s, quran_translation s, verse_reference s).

Definition hadith_part (s : Widget) := (hadith_text s, hadith_source s).

Definition fixed_part (s : Widget) :=
  (config s, countdown_timer s, daily_timer s).

(** [s'] differs from [s] at most in the attributes one method writes. *)
Definition same_but_prayer (s s' : Widget) : Prop :=
  quran_part s' = quran_part s /\ hadith_part s' = hadith_part s /\
  fixed_part s' = fixed_part s.

Definition same_but_quran (s s' : Widget) : Prop :=
  prayer_part s' = prayer_part s /\ hadith_part s' = hadith_part s /\
  fixed_part s' = fixed_part s.

Definition same_but_hadith (s s' : Widget) : Prop :=
  prayer_part s' = prayer_part s /\ quran_part s' = quran_part s /\
  fixed_part s' = fixed_part s.

(** [m] relates the world it starts in to the world it ends in, whether
    it returns or raises, by [R]. *)
Definition respects {A} (R : World -> World -> Prop) (m : M A) : Prop :=
  forall w,
    match m w with
    | Ret _ w' => R w w'
    | Exn w' => R w w'
    end.

(** [first_earliest now seen r]: as [earliest], and among the entries with
    the timestamp of [r] the first of [seen] is the one held. *)
Definition first_earliest (now : QDateTime) (seen : list (string * QDateTime))
    (r : option (string * QDateTime)) : Prop :=
  match r with
  | None => forall q u, (q, u) ∈ seen -> toMSecs u <= toMSecs now
  | Some (p, t) =>
      toMSecs now < toMSecs t /\
      exists before after,
        seen = before ++ (p, t) :: after /\
        (forall q u, (q, u) ∈ before -> toMSecs now < toMSecs u ->
                     toMSecs t < toMSecs u) /\
        (forall q u, (q, u) ∈ after -> toMSecs now < toMSecs u ->
                     toMSecs t <= toMSecs u)
  end.

(** The texts the prayer methods leave on the next-prayer label when a
    fetch fails. *)
Definition error_texts : list string :=
  ["Prayer API Error: Try again later";
   "Error: Could not update prayer times";
   "Could not fetch tomorrow's prayer times";
   "Error fetching tomorrow's prayer times"].

(** [p] is stored as next prayer of the dict [items], and announced. *)
Definition next_stored (s : Widget) (p : string)
    (items : list (string * QDateTime)) : Prop :=
  next_prayer s = Some p /\
  prayer_times s = Some items /\
  items.*1 = prayer_names /\
  next_prayer_label s = "Next: " +:+ p /\
  exists t, next_prayer_time s = Some t /\
            (dict_get items p = Some t \/ p = "Fajr (Tomorrow)").

(** Every time label whose name is a key of [items] shows that entry, and
    is highlighted when the name is [p] and only then. *)
Definition labels_show (s : Widget) (p : string)
    (items : list (string * QDateTime)) : Prop :=
  forall k l u,
    prayer_labels s !! k = Some l -> dict_get items k = Some u ->
    l = {| text := toString_hhmm u;
           styleSheet := if String.eqb k p
                         then "font-weight: bold; color: #2196F3;" else "" |}.

(** * Properties *)

#[global] Arguments fromMSecs : simpl never.
#[global] Arguments toMSecs : simpl never.
#[global] Arguments secsTo : simpl never.
#[global] Arguments addSecs : simpl never.
#[global] Arguments addDays : simpl never.
#[global] Arguments QDateTime_make : simpl never.
#[global] Arguments QDateTime_gt : simpl never.
#[global] Arguments QDateTime_lt : simpl never.
#[global] Arguments QTime_fromString : simpl never.
#[global] Arguments QTime_secsTo : simpl never.
#[global] Arguments QTime_hms : simpl never.
#[global] Arguments scan : simpl never.
#[global] Arguments countdown_text : simpl never.
#[global] Arguments toString_hhmm : simpl never.
#[global] Arguments prayer_params : simpl never.
#[global] Arguments String.append : simpl never.
#[global] Arguments Z.ltb : simpl never.
#[global] Arguments Z.div : simpl never.
#[global] Arguments Z.mul : simpl never.

(** ** Date-time arithmetic *)

Lemma toMSecs_fromMSecs (ms : Z) : toMSecs (fromMSecs ms) = ms.
Proof.
  unfold toMSecs, fromMSecs, MSECS_PER_DAY; simpl date; simpl time.
  pose proof (Z.div_mod ms 86400000 ltac:(lia)); lia.
Qed.

Lemma QDateTime_gt_spec (a b : QDateTime) :
  QDateTime_gt a b = true <-> toMSecs b < toMSecs a.
Proof. unfold QDateTime_gt, QDateTime_lt. apply Z.ltb_lt. Qed.

Lemma QDateTime_lt_spec (a b : QDateTime) :
  QDateTime_lt a b = true <-> toMSecs a < toMSecs b.
Proof. unfold QDateTime_lt. apply Z.ltb_lt. Qed.

Lemma toMSecs_addSecs (dt : QDateTime) (s : Z) :
  toMSecs (addSecs dt s) = toMSecs dt + s * 1000.
Proof. unfold addSecs. apply toMSecs_fromMSecs. Qed.

(** ** The scan of [update_next_prayer] *)

Lemma earliest_step now seen acc item :
  earliest now seen acc ->
  earliest now (seen ++ [item]) (scan_step now acc item).
Proof.
  destruct item as [prayer time]. unfold scan_step.
  destruct (QDateTime_gt time now) eqn:Hgt.
  - apply QDateTime_gt_spec in Hgt.
    destruct acc as [[p t]|]; simpl.
    + intros (Hin & Hlt & Hmin).
      destruct (QDateTime_lt time t) eqn:Hlt'.
      * apply QDateTime_lt_spec in Hlt'. simpl.
        split; [set_solver|]. split; [done|].
        intros q u [Hq|Hq]%elem_of_app Hu.
        -- specialize (Hmin q u Hq Hu). lia.
        -- apply list_elem_of_singleton in Hq. injection Hq as -> ->. lia.
      * assert (toMSecs t <= toMSecs time).
        { destruct (Z.ltb_spec (toMSecs time) (toMSecs t)); [|done].
          apply QDateTime_lt_spec in H. congruence. }
        simpl. split; [set_solver|]. split; [done|].
        intros q u [Hq|Hq]%elem_of_app Hu.
        -- by apply Hmin with q.
        -- apply list_elem_of_singleton in Hq. by injection Hq as -> ->.
    + intros Hnone. split; [set_solver|]. split; [done|].
      intros q u [Hq|Hq]%elem_of_app Hu.
      * specialize (Hnone q u Hq). lia.
      * apply list_elem_of_singleton in Hq. injection Hq as -> ->. lia.
  - assert (toMSecs time <= toMSecs now).
    { destruct (Z.ltb_spec (toMSecs now) (toMSecs time)); [|done].
      apply QDateTime_gt_spec in H. congruence. }
    destruct acc as [[p t]|]; simpl.
    + intros (Hin & Hlt & Hmin). split; [set_solver|]. split; [done|].
      intros q u [Hq|Hq]%elem_of_app Hu.
      * by apply Hmin with q.
      * apply list_elem_of_singleton in Hq. injection Hq as -> ->. lia.
    + intros Hnone q u [Hq|Hq]%elem_of_app.
      * by apply Hnone with q.
      * apply list_elem_of_singleton in Hq. by injection Hq as -> ->.
Qed.

Lemma earliest_fold now items : forall seen acc,
  earliest now seen acc ->
  earliest now (seen ++ items) (fold_left (scan_step now) items acc).
Proof.
  induction items as [|item items IH]; intros seen acc Hacc; simpl.
  - by rewrite app_nil_r.
  - replace (seen ++ item :: items) with ((seen ++ [item]) ++ items)
      by (by rewrite <- app_assoc).
    apply IH. by apply earliest_step.
Qed.

Lemma scan_earliest now items : earliest now items (scan now items).
Proof.
  unfold scan. apply (earliest_fold now items [] None).
  intros q u Hin. by apply elem_of_nil in Hin.
Qed.

(** ** Parsing clock strings *)

Lemma QTime_fromString_clock_string (h m : Z) :
  0 <= h < 24 -> 0 <= m < 60 ->
  QTime_fromString (clock_string h m) = (h * 60 + m) * 60000.
Proof.
  intros Hh Hm.
  assert (Hall : forallb (fun h => forallb (fun m =>
            QTime_fromString (clock_string h m) =? (h * 60 + m) * 60000)
            (seqZ 0 60)) (seqZ 0 24) = true) by (vm_compute; reflexivity).
  rewrite forallb_forall in Hall.
  specialize (Hall h). rewrite forallb_forall in Hall.
  apply Z.eqb_eq, Hall.
  - apply list_elem_of_In, elem_of_seqZ. lia.
  - apply list_elem_of_In, elem_of_seqZ. lia.
Qed.

(** ** The next prayer *)

(** Unfolds the primitives of the monad and the small methods. *)
Ltac run :=
  unfold update_next_prayer, update_countdown, update_next_prayer_with,
    update_countdown_with, store_next_prayer, QDate_currentDate,
    QTime_currentTime, QDateTime_currentDateTime, get_self, modify, subscript,
    raise, try_except, note_refresh, time_to_datetime, prayer_request,
    mbind, M_bind, mret, M_ret; cbn.

(** C1. When some stored timestamp is later than [now], the scan of
    [update_next_prayer] picks an entry later than [now] that no other such
    entry precedes, and the method stores its name and timestamp as the
    next prayer before it refreshes the countdown; the stored pair is what
    the method leaves when the countdown still has a second to show. *)
Theorem update_next_prayer_earliest (E : Env) (fuel : nat) (w : World)
    (items : list (string * QDateTime)) :
  prayer_times (self w) = Some items ->
  let now := fromMSecs (clock E (reads w)) in
  (exists q u, (q, u) ∈ items /\ toMSecs now < toMSecs u) ->
  exists p t,
    scan now items = Some (p, t) /\
    (p, t) ∈ items /\ toMSecs now < toMSecs t /\
    (forall q u, (q, u) ∈ items -> toMSecs now < toMSecs u ->
                 toMSecs t <= toMSecs u) /\
    update_next_prayer E fuel w =
      update_countdown E fuel (with_self (stored p t (self w)) (advance 1 w)) /\
    (0 < secsTo (fromMSecs (clock E (S (reads w)))) t ->
     exists w',
       update_next_prayer E fuel w = Ret tt w' /\
       next_prayer (self w') = Some p /\
       next_prayer_time (self w') = Some t).
Proof.
  intros Hitems now (q & u & Hin & Hfuture).
  pose proof (scan_earliest now items) as Hscan.
  destruct (scan now items) as [[p t]|] eqn:Hfound; simpl in Hscan.
  2:{ specialize (Hscan q u Hin). lia. }
  destruct Hscan as (Hp & Hlt & Hmin).
  exists p, t. do 4 (split; [done|]).
  assert (Heq : update_next_prayer E fuel w =
    update_countdown E fuel (with_self (stored p t (self w)) (advance 1 w))).
  { run. rewrite Hitems. cbn. fold now. rewrite Hfound. reflexivity. }
  split; [exact Heq|].
  intros Hpos. rewrite Heq. run.
  apply Z.ltb_lt in Hpos. rewrite Hpos.
  eexists. split; [reflexivity|]. by cbn.
Qed.

Lemma scan_none now items :
  scan now items = None <->
  forall q u, (q, u) ∈ items -> toMSecs u <= toMSecs now.
Proof.
  pose proof (scan_earliest now items) as Hscan. split.
  - intros Hnone. by rewrite Hnone in Hscan.
  - intros Hall. destruct (scan now items) as [[p t]|]; [|done].
    destruct Hscan as (Hin & Hlt & _). specialize (Hall p t Hin). lia.
Qed.

Lemma update_next_prayer_fallback (E : Env) (fuel : nat) (w : World)
    (items : list (string * QDateTime)) :
  prayer_times (self w) = Some items ->
  scan (fromMSecs (clock E (reads w))) items = None ->
  update_next_prayer E fuel w =
    (found ← fetch_tomorrow_fajr E;
     store_next_prayer E (update_prayer_times E fuel) found) (advance 1 w).
Proof.
  intros Hitems Hnone. unfold update_next_prayer, update_next_prayer_with.
  run. rewrite Hitems. cbn. rewrite Hnone. reflexivity.
Qed.

(** The request of the fallback of [update_next_prayer]: the URL of the
    prayer API with city, country, method 2 and the date [d], and no
    timezone. *)
Lemma prayer_params_fallback (c : Config) (d : Z) :
  prayer_params c false d =
    {| url := prayer_api c;
       params := Some {| p_city := city c; p_country := country c;
                         p_method := 2; p_date := d; p_timezone := None |} |}.
Proof. reflexivity. Qed.

(** C2. When no stored timestamp is later than [now], [update_next_prayer]
    asks the provider for the times of tomorrow's date (city, country,
    method 2 and that date, no timezone) and, given an answer with status
    200 and a Fajr time, stores the name "Fajr (Tomorrow)" with the
    timestamp made of tomorrow's date and that clock time. *)
Theorem update_next_prayer_tomorrow_fajr (E : Env) (fuel : nat) (w : World)
    (items : list (string * QDateTime)) (tm : gmap string string)
    (fajr_time : string) :
  prayer_times (self w) = Some items ->
  (forall q u, (q, u) ∈ items ->
               toMSecs u <= toMSecs (fromMSecs (clock E (reads w)))) ->
  let tomorrow := date (fromMSecs (clock E (S (reads w)))) + 1 in
  let req := {| url := prayer_api (config (self w));
                params := Some {| p_city := city (config (self w));
                                  p_country := country (config (self w));
                                  p_method := 2;
                                  p_date := tomorrow;
                                  p_timezone := None |} |} in
  provider E (length (sent w)) req = Timings 200 tm ->
  tm !! "Fajr" = Some fajr_time ->
  let t := QDateTime_make tomorrow (QTime_fromString fajr_time) in
  let w1 := {| self := stored "Fajr (Tomorrow)" t (self w);
               reads := 2 + reads w; sent := sent w ++ [req];
               refreshes := refreshes w |} in
  update_next_prayer E fuel w = update_countdown E fuel w1 /\
  date t = tomorrow /\
  (forall h m, 0 <= h < 24 -> 0 <= m < 60 -> fajr_time = clock_string h m ->
               time t = (h * 60 + m) * 60000) /\
  (0 < secsTo (fromMSecs (clock E (2 + reads w))) t ->
   exists w',
     update_next_prayer E fuel w = Ret tt w' /\
     next_prayer (self w') = Some "Fajr (Tomorrow)" /\
     next_prayer_time (self w') = Some t /\
     sent w' = sent w ++ [req]).
Proof.
  intros Hitems Hpast tomorrow req Hresp Hfajr t w1.
  assert (Hreq : req = prayer_params (config (self w)) false tomorrow)
    by (symmetry; apply prayer_params_fallback).
  apply scan_none in Hpast.
  assert (Heq : update_next_prayer E fuel w = update_countdown E fuel w1).
  { rewrite (update_next_prayer_fallback E fuel w items Hitems Hpast).
    unfold fetch_tomorrow_fajr, requests_get. run.
    fold tomorrow. change (addDays tomorrow 0 + 1) with tomorrow.
    change (addDays (date (fromMSecs (clock E (S (reads w))))) 1)
      with tomorrow.
    rewrite <- Hreq, Hresp. cbn. rewrite Hfajr. reflexivity. }
  split; [exact Heq|].
  split; [reflexivity|].
  split.
  { intros h m Hh Hm ->. subst t.
    rewrite (QTime_fromString_clock_string h m Hh Hm).
    unfold QDateTime_make.
    replace (QTime_isValid ((h * 60 + m) * 60000)) with true; [reflexivity|].
    symmetry. unfold QTime_isValid, NullTime, MSECS_PER_DAY.
    apply andb_true_intro. split; apply Z.ltb_lt; lia. }
  intros Hpos. rewrite Heq. subst w1. run.
  apply Z.ltb_lt in Hpos. cbn in Hpos. rewrite Hpos.
  eexists. split; [reflexivity|]. by cbn.
Qed.

Lemma update_next_prayer_earliest_witness :
  exists w',
    update_next_prayer Sample.at_noon 1 (Sample.world_with (Sample.items 100))
      = Ret tt w' /\
    next_prayer (self w') = Some "Dhuhr" /\
    next_prayer_time (self w') = Some (mkQDateTime 100 46800000).
Proof.
  destruct (update_next_prayer_earliest Sample.at_noon 1
              (Sample.world_with (Sample.items 100)) (Sample.items 100)
              eq_refl)
    as (p & t & Hscan & _ & _ & _ & _ & Hfinal).
  - exists "Dhuhr", (mkQDateTime 100 46800000).
    split; [|vm_compute; reflexivity].
    apply list_elem_of_In. vm_compute. tauto.
  - vm_compute in Hscan. injection Hscan as <- <-.
    destruct Hfinal as (w' & Hrun & Hname & Htime);
      [vm_compute; reflexivity|].
    exists w'. repeat split; assumption.
Defined.

Lemma update_next_prayer_tomorrow_fajr_witness :
  exists w',
    update_next_prayer Sample.at_evening 1
      (Sample.world_with (Sample.raw_items 100)) = Ret tt w' /\
    next_prayer (self w') = Some "Fajr (Tomorrow)" /\
    next_prayer_time (self w') = Some (mkQDateTime 101 18000000).
Proof.
  destruct (update_next_prayer_tomorrow_fajr Sample.at_evening 1
              (Sample.world_with (Sample.raw_items 100))
              (Sample.raw_items 100) Sample.day_timings "05:00" eq_refl)
    as (_ & _ & _ & Hfinal).
  - apply scan_none. vm_compute. reflexivity.
  - vm_compute. reflexivity.
  - vm_compute. reflexivity.
  - destruct Hfinal as (w' & Hrun & Hname & Htime & _);
      [vm_compute; reflexivity|].
    exists w'. repeat split; assumption.
Defined.

(** The fetch of tomorrow's Fajr always sends its request, for the day
    after the clock's date and without timezone, and comes back; what it
    hands over lies on that day and is never an entry of today's set. *)
Lemma fetch_tomorrow_fajr_sends (E : Env) (w : World) :
  let tomorrow := date (fromMSecs (clock E (reads w))) + 1 in
  exists r w',
    fetch_tomorrow_fajr E w = Ret r w' /\
    sent w' = sent w ++
      [{| url := prayer_api (config (self w));
          params := Some {| p_city := city (config (self w));
                            p_country := country (config (self w));
                            p_method := 2;
                            p_date := tomorrow;
                            p_timezone := None |} |}] /\
    (r = None \/
     exists t, r = Some ("Fajr (Tomorrow)", t) /\ date t = tomorrow).
Proof.
  intros tomorrow.
  unfold fetch_tomorrow_fajr, requests_get. run.
  rewrite prayer_params_fallback.
  change (addDays (date (fromMSecs (clock E (reads w)))) 1) with tomorrow.
  destruct (provider E _ _) as [|c tm|c ? ? ? ?|c ?|?]; cbn;
    try (eexists _, _; split; [reflexivity|]; split; [reflexivity|]; by left).
  - destruct (c =? 200); cbn.
    + destruct (tm !! "Fajr"); cbn;
        eexists _, _; (split; [reflexivity|]); (split; [reflexivity|]);
        [right; eauto | by left].
    + eexists _, _; split; [reflexivity|]; split; [reflexivity|]; by left.
  - destruct (c =? 200); cbn;
      eexists _, _; (split; [reflexivity|]); (split; [reflexivity|]); by left.
  - destruct (c =? 200); cbn;
      eexists _, _; (split; [reflexivity|]); (split; [reflexivity|]); by left.
Qed.

(** C3, amended.  When [now] is at or after every stored timestamp of
    today, Isha and the stored Midnight included, [update_next_prayer]
    sends the request for tomorrow's date and goes on with what that fetch
    hands over, which lies on tomorrow's date.  When some stored timestamp
    is later than [now], it stores an entry of today's set without having
    sent a request; with a whole second left to that entry it returns
    with no request sent at all. *)
Theorem update_next_prayer_after_all (E : Env) (fuel : nat) (w : World)
    (items : list (string * QDateTime)) :
  prayer_times (self w) = Some items ->
  let now := fromMSecs (clock E (reads w)) in
  let tomorrow := date (fromMSecs (clock E (S (reads w)))) + 1 in
  ((forall q u, (q, u) ∈ items -> toMSecs u <= toMSecs now) ->
   exists r w1,
     fetch_tomorrow_fajr E (advance 1 w) = Ret r w1 /\
     sent w1 = sent w ++
       [{| url := prayer_api (config (self w));
           params := Some {| p_city := city (config (self w));
                             p_country := country (config (self w));
                             p_method := 2;
                             p_date := tomorrow;
                             p_timezone := None |} |}] /\
     (r = None \/
      exists t, r = Some ("Fajr (Tomorrow)", t) /\ date t = tomorrow) /\
     update_next_prayer E fuel w =
       store_next_prayer E (update_prayer_times E fuel) r w1) /\
  ((exists q u, (q, u) ∈ items /\ toMSecs now < toMSecs u) ->
   exists p t,
     (p, t) ∈ items /\ toMSecs now < toMSecs t /\
     update_next_prayer E fuel w =
       store_next_prayer E (update_prayer_times E fuel) (Some (p, t))
         {| self := self w; reads := S (reads w); sent := sent w;
            refreshes := refreshes w |} /\
     (0 < secsTo (fromMSecs (clock E (S (reads w)))) t ->
      exists w',
        update_next_prayer E fuel w = Ret tt w' /\
        next_prayer (self w') = Some p /\
        next_prayer_time (self w') = Some t /\
        sent w' = sent w)).
Proof.
  intros Hitems now tomorrow. split.
  - intros Hpast. apply scan_none in Hpast.
    destruct (fetch_tomorrow_fajr_sends E (advance 1 w))
      as (r & w1 & Hrun & Hsent & Hr).
    exists r, w1. do 3 (split; [done|]).
    rewrite (update_next_prayer_fallback E fuel w items Hitems Hpast).
    unfold mbind, M_bind. by rewrite Hrun.
  - intros (q & u & Hin & Hfuture).
    pose proof (scan_earliest now items) as Hscan.
    destruct (scan now items) as [[p t]|] eqn:Hfound; simpl in Hscan.
    2:{ specialize (Hscan q u Hin). lia. }
    destruct Hscan as (Hp & Hlt & _).
    exists p, t. do 2 (split; [done|]).
    assert (Heq : update_next_prayer E fuel w =
      store_next_prayer E (update_prayer_times E fuel) (Some (p, t))
        {| self := self w; reads := S (reads w); sent := sent w;
           refreshes := refreshes w |}).
    { unfold update_next_prayer, update_next_prayer_with,
        QDateTime_currentDateTime, get_self, subscript, mbind, M_bind, mret,
        M_ret.
      cbn [self reads]. rewrite Hitems. fold now. rewrite Hfound.
      reflexivity. }
    split; [exact Heq|].
    intros Hpos. rewrite Heq. run. run.
    apply Z.ltb_lt in Hpos. rewrite Hpos.
    eexists. split; [reflexivity|]. by cbn.
Qed.

Lemma update_next_prayer_after_all_witness :
  (exists r w1,
     fetch_tomorrow_fajr Sample.at_evening
       (advance 1 (Sample.world_with (Sample.raw_items 100))) = Ret r w1 /\
     length (sent w1) = 1%nat) /\
  (exists w',
     update_next_prayer Sample.at_evening 1
       (Sample.world_with (Sample.items 100)) = Ret tt w' /\
     next_prayer (self w') = Some "Midnight" /\
     sent w' = []).
Proof.
  split.
  - destruct (update_next_prayer_after_all Sample.at_evening 1
                (Sample.world_with (Sample.raw_items 100))
                (Sample.raw_items 100) eq_refl) as (Hpast & _).
    destruct Hpast as (r & w1 & Hfetch & Hsent & _ & _).
    + apply scan_none. vm_compute. reflexivity.
    + exists r, w1. split; [exact Hfetch|]. rewrite Hsent. reflexivity.
  - destruct (update_next_prayer_after_all Sample.at_evening 1
                (Sample.world_with (Sample.items 100))
                (Sample.items 100) eq_refl) as (_ & Hfound).
    destruct Hfound as (p & t & Hin & _ & Heq & Hfinal).
    + exists "Midnight", (mkQDateTime 101 1800000).
      split; [|vm_compute; reflexivity].
      apply list_elem_of_In. vm_compute. tauto.
    + assert (Hrun : exists w',
                update_next_prayer Sample.at_evening 1
                  (Sample.world_with (Sample.items 100)) = Ret tt w' /\
                next_prayer (self w') = Some "Midnight" /\
                sent w' = []).
      { eexists. split; [vm_compute; reflexivity|]. by split. }
      exact Hrun.
Defined.

(** C3 as stated fails: at 21:00, an hour after Isha, a refresh against a
    provider that answers finds the recomputed Midnight (00:30 of the next
    day) still ahead and selects it; no fallback request is sent. *)
Lemma isha_passed_selects_midnight :
  exists w' items isha,
    update_prayer_times Sample.at_evening 1 Sample.world0 = Ret tt w' /\
    prayer_times (self w') = Some items /\
    dict_get items "Isha" = Some isha /\
    toMSecs isha <= clock Sample.at_evening (reads Sample.world0) /\
    scan (fromMSecs (Sample.at_ 100 21 0 0 250)) items
      = Some ("Midnight", mkQDateTime 101 1800000) /\
    next_prayer (self w') = Some "Midnight" /\
    sent w' = [prayer_params Sample.cfg true 100;
               prayer_params Sample.cfg true 101].
Proof.
  eexists _, _, _.
  split; [vm_compute; reflexivity|].
  split; [vm_compute; reflexivity|].
  split; [vm_compute; reflexivity|].
  split; [vm_compute; discriminate|].
  split; [vm_compute; reflexivity|].
  split; vm_compute; reflexivity.
Qed.

(** ** Parsed times *)

Lemma QTime_fromString_range (s : string) :
  let t := QTime_fromString s in
  QTime_isValid t = true -> 0 <= t < MSECS_PER_DAY.
Proof.
  intros t. unfold QTime_isValid, NullTime. intros [H1 H2]%andb_prop.
  apply Z.ltb_lt in H1. apply Z.ltb_lt in H2. lia.
Qed.

Lemma time_to_datetime_run (E : Env) (s : string) (w : World) :
  time_to_datetime E s w = Ret (parsed E w 0 s) (advance 1 w).
Proof. reflexivity. Qed.

Lemma extract_prayer_times_run (E : Env) (tm : gmap string string) (w : World)
    (fajr sunrise dhuhr asr maghrib isha midnight : string) :
  tm !! "Fajr" = Some fajr -> tm !! "Sunrise" = Some sunrise ->
  tm !! "Dhuhr" = Some dhuhr -> tm !! "Asr" = Some asr ->
  tm !! "Maghrib" = Some maghrib -> tm !! "Isha" = Some isha ->
  tm !! "Midnight" = Some midnight ->
  extract_prayer_times E tm w =
    Ret [("Fajr", parsed E w 0 fajr); ("Sunrise", parsed E w 1 sunrise);
         ("Dhuhr", parsed E w 2 dhuhr); ("Asr", parsed E w 3 asr);
         ("Maghrib", parsed E w 4 maghrib); ("Isha", parsed E w 5 isha);
         ("Midnight", parsed E w 6 midnight)] (advance 7 w).
Proof.
  intros H1 H2 H3 H4 H5 H6 H7.
  unfold extract_prayer_times, prayer_names. cbn. run.
  rewrite H1; cbn. rewrite H2; cbn. rewrite H3; cbn. rewrite H4; cbn.
  rewrite H5; cbn. rewrite H6; cbn. rewrite H7; cbn. reflexivity.
Qed.

Lemma extract_prayer_times_inv (E : Env) (tm : gmap string string)
    (w w' : World) (items : list (string * QDateTime)) :
  extract_prayer_times E tm w = Ret items w' ->
  exists fajr sunrise dhuhr asr maghrib isha midnight,
    tm !! "Fajr" = Some fajr /\ tm !! "Sunrise" = Some sunrise /\
    tm !! "Dhuhr" = Some dhuhr /\ tm !! "Asr" = Some asr /\
    tm !! "Maghrib" = Some maghrib /\ tm !! "Isha" = Some isha /\
    tm !! "Midnight" = Some midnight.
Proof.
  unfold extract_prayer_times, prayer_names. cbn. run.
  destruct (tm !! "Fajr") as [fajr|]; cbn; [|done].
  destruct (tm !! "Sunrise") as [sunrise|]; cbn; [|done].
  destruct (tm !! "Dhuhr") as [dhuhr|]; cbn; [|done].
  destruct (tm !! "Asr") as [asr|]; cbn; [|done].
  destruct (tm !! "Maghrib") as [maghrib|]; cbn; [|done].
  destruct (tm !! "Isha") as [isha|]; cbn; [|done].
  destruct (tm !! "Midnight") as [midnight|]; cbn; [|done].
  intros _. by eexists _, _, _, _, _, _, _.
Qed.

(** C10. [time_to_datetime] attaches the date of the clock reading it
    makes, whatever the string; an "HH:mm" string lands at that hour and
    minute of today, inside today's twenty-four hours.  Hence, while the
    date does not change under the seven readings, every entry of the
    parsed set, the provider's Midnight included, lies on today's date. *)
Theorem time_to_datetime_today (E : Env) (w : World) (s : string) :
  let today := date (fromMSecs (clock E (reads w))) in
  (exists dt,
     time_to_datetime E s w = Ret dt (advance 1 w) /\ date dt = today /\
     forall h m, 0 <= h < 24 -> 0 <= m < 60 -> s = clock_string h m ->
       time dt = (h * 60 + m) * 60000 /\
       today * MSECS_PER_DAY <= toMSecs dt < (today + 1) * MSECS_PER_DAY) /\
  (forall tm items w',
     (forall i, (i < 7)%nat ->
                date (fromMSecs (clock E (i + reads w))) = today) ->
     extract_prayer_times E tm w = Ret items w' ->
     forall n dt, (n, dt) ∈ items ->
       date dt = today /\ toMSecs dt < (today + 1) * MSECS_PER_DAY).
Proof.
  intros today. split.
  - exists (parsed E w 0 s). split; [apply time_to_datetime_run|].
    split; [reflexivity|].
    intros h m Hh Hm ->.
    unfold parsed, QDateTime_make, toMSecs. cbn [date time].
    rewrite (QTime_fromString_clock_string h m Hh Hm).
    assert (Hvalid : QTime_isValid ((h * 60 + m) * 60000) = true).
    { unfold QTime_isValid, NullTime, MSECS_PER_DAY.
      apply andb_true_intro. split; apply Z.ltb_lt; lia. }
    rewrite Hvalid. cbn [Nat.add]. fold today. unfold MSECS_PER_DAY. lia.
  - intros tm items w' Hday Hrun n dt Hin.
    destruct (extract_prayer_times_inv E tm w w' items Hrun)
      as (s1 & s2 & s3 & s4 & s5 & s6 & s7 & H1 & H2 & H3 & H4 & H5 & H6 & H7).
    rewrite (extract_prayer_times_run E tm w s1 s2 s3 s4 s5 s6 s7) in Hrun
      by assumption.
    injection Hrun as <- _.
    assert (Hparsed : forall i str, (i < 7)%nat ->
              date (parsed E w i str) = today /\
              toMSecs (parsed E w i str) < (today + 1) * MSECS_PER_DAY).
    { intros i str Hi. specialize (Hday i Hi).
      unfold parsed, QDateTime_make, toMSecs. cbn [date time].
      rewrite Hday. split; [reflexivity|].
      destruct (QTime_isValid (QTime_fromString str)) eqn:Hv.
      - apply QTime_fromString_range in Hv. lia.
      - unfold MSECS_PER_DAY. lia. }
    repeat (apply elem_of_cons in Hin as [Hin|Hin];
            [injection Hin as -> ->; apply Hparsed; lia|]).
    by apply elem_of_nil in Hin.
Qed.

Lemma time_to_datetime_today_witness :
  exists dt,
    time_to_datetime Sample.at_evening "00:30" Sample.world0
      = Ret dt (advance 1 Sample.world0) /\
    toMSecs dt = Sample.at_ 100 0 30 0 0 /\
    toMSecs dt < Sample.at_ 100 21 0 0 250.
Proof.
  destruct (time_to_datetime_today Sample.at_evening Sample.world0 "00:30")
    as ((dt & Hrun & Hdate & Hclock) & _).
  destruct (Hclock 0 30) as (Htime & _); [lia | lia | reflexivity |].
  exists dt. split; [exact Hrun|].
  assert (Hms : toMSecs dt = Sample.at_ 100 0 30 0 0).
  { unfold toMSecs. rewrite Hdate, Htime. vm_compute. reflexivity. }
  split; [exact Hms|]. rewrite Hms. vm_compute. reflexivity.
Defined.

(** ** Formatting *)

Lemma format_02d_two_digits (n : Z) :
  0 <= n < 100 -> format_02d n = two_digits n.
Proof.
  intros Hn.
  assert (Hall : forallb (fun n => String.eqb (format_02d n) (two_digits n))
                   (seqZ 0 100) = true) by (vm_compute; reflexivity).
  rewrite forallb_forall in Hall.
  apply String.eqb_eq, Hall, list_elem_of_In, elem_of_seqZ. lia.
Qed.

Lemma str_readback (n : Z) : NilZero.int_of_string (str n) = Some (Z.to_int n).
Proof.
  unfold str. apply NilZero.isi.
  - destruct n; simpl; try discriminate.
    intros [= H]. by apply DecimalPos.Unsigned.to_uint_nonnil in H.
  - destruct n; simpl; try discriminate.
    intros [= H]. by apply DecimalPos.Unsigned.to_uint_nonnil in H.
Qed.

Lemma format_02d_readback (n : Z) : int_of_str (format_02d n) = Some n.
Proof.
  pose proof (str_readback n) as Hs.
  unfold int_of_str, format_02d.
  destruct (String.length (str n) <? 2)%nat eqn:Hlen.
  - destruct (str n) as [|c [|c' s']]; [discriminate Hs| |discriminate Hlen].
    change ("0" +:+ String c "") with (String "0"%char (String c "")).
    revert Hs. unfold NilZero.int_of_string.
    destruct (Ascii.eqb c "-"); [discriminate|].
    cbn [NilZero.uint_of_string NilEmpty.uint_of_string Ascii.eqb Bool.eqb].
    destruct (uint_of_char c (Some Decimal.Nil)) as [d|] eqn:Hd; [|discriminate].
    cbn. intros [= Hn]. f_equal.
    rewrite <- (DecimalZ.of_to n), <- Hn. reflexivity.
  - rewrite Hs. cbn. f_equal. apply DecimalZ.of_to.
Qed.

(** C5. With a positive number of whole seconds left, a countdown tick
    shows hours, minutes and seconds of that number, each written with at
    least two digits and separated by colons; 3661 seconds show as
    01:01:01. *)
Theorem update_countdown_format (E : Env) (fuel : nat) (w : World)
    (t : QDateTime) :
  next_prayer_time (self w) = Some t ->
  let remaining := secsTo (fromMSecs (clock E (reads w))) t in
  0 < remaining ->
  let hours := remaining / 3600 in
  let minutes := (remaining mod 3600) / 60 in
  let seconds := remaining mod 60 in
  update_countdown E fuel w =
    Ret tt (with_self
              (set_countdown_label
                 ("Time Remaining: " +:+ format_02d hours +:+ ":" +:+
                  format_02d minutes +:+ ":" +:+ format_02d seconds)
                 (self w))
              (advance 1 w)) /\
  hours * 3600 + minutes * 60 + seconds = remaining /\
  0 <= hours /\ 0 <= minutes < 60 /\ 0 <= seconds < 60 /\
  int_of_str (format_02d hours) = Some hours /\
  (hours < 100 -> format_02d hours = two_digits hours) /\
  format_02d minutes = two_digits minutes /\
  format_02d seconds = two_digits seconds /\
  (remaining = 3661 ->
   countdown_text remaining = "01:01:01").
Proof.
  intros Ht remaining Hpos hours minutes seconds.
  assert (Hm : 0 <= minutes < 60).
  { subst minutes.
    pose proof (Z.mod_pos_bound remaining 3600 ltac:(lia)).
    split; [apply Z.div_pos; lia|].
    apply Z.div_lt_upper_bound; lia. }
  assert (Hs : 0 <= seconds < 60) by (apply Z.mod_pos_bound; lia).
  assert (Hh : 0 <= hours) by (apply Z.div_pos; lia).
  split.
  { run. rewrite Ht. cbn. fold remaining.
    apply Z.ltb_lt in Hpos. rewrite Hpos. reflexivity. }
  split.
  { subst hours minutes seconds.
    pose proof (Z.div_mod remaining 3600 ltac:(lia)).
    pose proof (Z.div_mod (remaining mod 3600) 60 ltac:(lia)).
    assert (remaining mod 60 = (remaining mod 3600) mod 60).
    { symmetry. apply Z.mod_mod_divide. exists 60. reflexivity. }
    lia. }
  do 3 (split; [done|]).
  split; [apply format_02d_readback|].
  split; [intros; apply format_02d_two_digits; lia|].
  split; [apply format_02d_two_digits; lia|].
  split; [apply format_02d_two_digits; lia|].
  intros ->. vm_compute. reflexivity.
Qed.

Lemma update_countdown_format_witness :
  exists w',
    update_countdown Sample.before_noon 0 Sample.dhuhr_stored = Ret tt w' /\
    countdown_label (self w') = "Time Remaining: 01:01:01".
Proof.
  pose proof (update_countdown_format Sample.before_noon 0 Sample.dhuhr_stored
                (mkQDateTime 100 46800000) eq_refl) as H.
  cbv zeta in H. destruct H as (Hrun & _); [vm_compute; reflexivity|].
  eexists. split; [exact Hrun|]. vm_compute. reflexivity.
Defined.

(** ** The daily timer *)

Lemma secs_until_midnight_spec (current_time : Z) :
  0 <= current_time < MSECS_PER_DAY ->
  let s := current_time / 1000 in
  secs_until_midnight current_time = (if s =? 0 then 0 else 86400 - s) /\
  0 <= secs_until_midnight current_time < 86400 /\
  (s + secs_until_midnight current_time) mod 86400 = 0.
Proof.
  unfold MSECS_PER_DAY. intros Hrange. set (s := current_time / 1000).
  assert (Hs : 0 <= s < 86400).
  { subst s. split; [apply Z.div_pos; lia|].
    apply Z.div_lt_upper_bound; lia. }
  assert (Heq : secs_until_midnight current_time
                = if s =? 0 then 0 else 86400 - s).
  { unfold secs_until_midnight, QTime_secsTo.
    change (QTime_hms 0 0 0) with 0.
    change (QTime_isValid 0) with true. rewrite andb_true_r.
    change (0 / 1000) with 0. fold s.
    assert (Hvalid : QTime_isValid current_time = true).
    { unfold QTime_isValid, NullTime, MSECS_PER_DAY.
      apply andb_true_intro. split; apply Z.ltb_lt; lia. }
    rewrite Hvalid.
    destruct (Z.eqb_spec s 0) as [->|Hne]; [reflexivity|].
    replace (0 - s <? 0) with true by (symmetry; apply Z.ltb_lt; lia).
    lia. }
  rewrite Heq. split; [reflexivity|].
  destruct (Z.eqb_spec s 0) as [->|Hne].
  - split; [lia|reflexivity].
  - split; [lia|]. replace (s + (86400 - s)) with 86400 by lia. reflexivity.
Qed.

Lemma setup_timers_run (E : Env) (w : World) :
  setup_timers E w =
    Ret tt (with_self
              (set_daily_timer
                 (Some (secs_until_midnight
                          (time (fromMSecs (clock E (reads w)))) * 1000))
                 (set_countdown_timer (Some 1000) (self w)))
              (advance 1 w)).
Proof. reflexivity. Qed.

Lemma try_except_no_exn {A} (body handler : M A) (w w' : World) :
  (forall v v', handler v <> Exn v') -> try_except body handler w <> Exn w'.
Proof.
  intros Hh. unfold try_except. destruct (body w); [done|apply Hh].
Qed.

Lemma update_prayer_times_no_exn (E : Env) (fuel : nat) (w w' : World) :
  update_prayer_times E fuel w <> Exn w'.
Proof.
  destruct fuel as [|n]; cbn [update_prayer_times];
    unfold update_prayer_times_at_limit, update_prayer_times_with;
    unfold mbind at 1, M_bind at 1; cbn [note_refresh];
    by apply try_except_no_exn.
Qed.

Lemma update_prayer_times_returns (E : Env) (fuel : nat) (w : World) :
  exists w', update_prayer_times E fuel w = Ret tt w'.
Proof.
  pose proof (update_prayer_times_no_exn E fuel w) as Hno.
  destruct (update_prayer_times E fuel w) as [[] w'|w'];
    [by exists w'|by destruct (Hno w')].
Qed.

Lemma update_quran_verse_no_exn (E : Env) (w w' : World) :
  update_quran_verse E w <> Exn w'.
Proof. unfold update_quran_verse. by apply try_except_no_exn. Qed.

Lemma update_hadith_no_exn (E : Env) (w w' : World) :
  update_hadith E w <> Exn w'.
Proof. unfold update_hadith. by apply try_except_no_exn. Qed.

Lemma update_data_no_exn (E : Env) (fuel : nat) (w w' : World) :
  update_data E fuel w <> Exn w'.
Proof.
  unfold update_data, mbind, M_bind.
  pose proof (update_prayer_times_no_exn E fuel w) as H1.
  destruct (update_prayer_times E fuel w) as [[] w1|w1];
    [|by destruct (H1 w1)].
  pose proof (update_quran_verse_no_exn E w1) as H2.
  destruct (update_quran_verse E w1) as [[] w2|w2]; [|by destruct (H2 w2)].
  cbn. destruct (show_hadith (config (self w2))); [|done].
  apply update_hadith_no_exn.
Qed.

(** ** Parsed times are whole minutes *)

Lemma QTime_fromString_cases (s : string) :
  QTime_fromString s = NullTime \/
  exists h m, 0 <= h < 24 /\ 0 <= m < 60 /\
              QTime_fromString s = (h * 60 + m) * 60000.
Proof.
  unfold QTime_fromString.
  destruct s as [|a [|b [|c [|d [|e [|? ?]]]]]]; try (by left).
  destruct (field_of a b) as [h|]; [|by left].
  destruct (field_of d e) as [m|]; [|by left].
  destruct (Ascii.eqb c ":"); [|by left].
  unfold QTime_hms.
  destruct ((0 <=? h) && (h <? 24) && (0 <=? m) && (m <? 60) && (0 <=? 0)
            && (0 <? 60)) eqn:Hc;
    [|by left].
  right. exists h, m.
  repeat (apply andb_prop in Hc as [Hc ?]).
  repeat match goal with
         | H : (_ <=? _) = true |- _ => apply Z.leb_le in H
         | H : (_ <? _) = true |- _ => apply Z.ltb_lt in H
         end.
  repeat split; lia.
Qed.

Lemma parsed_time (d : Z) (s : string) :
  exists k, 0 <= k < 1440 /\
    QDateTime_make d (QTime_fromString s) = mkQDateTime d (k * 60000).
Proof.
  unfold QDateTime_make.
  destruct (QTime_fromString_cases s) as [->|(h & m & Hh & Hm & ->)].
  - exists 0. split; [lia|reflexivity].
  - exists (h * 60 + m). split; [lia|].
    replace (QTime_isValid ((h * 60 + m) * 60000)) with true; [reflexivity|].
    symmetry. unfold QTime_isValid, NullTime, MSECS_PER_DAY.
    apply andb_true_intro. split; apply Z.ltb_lt; lia.
Qed.

Lemma QDateTime_make_valid (d t : Z) :
  0 <= t < MSECS_PER_DAY -> QDateTime_make d t = mkQDateTime d t.
Proof.
  intros Ht. unfold QDateTime_make.
  replace (QTime_isValid t) with true; [reflexivity|].
  symmetry. unfold QTime_isValid, NullTime.
  apply andb_true_intro. split; apply Z.ltb_lt; lia.
Qed.

Lemma QDateTime_make_time (d d' t : Z) :
  QDateTime_make d (time (QDateTime_make d' t)) = QDateTime_make d t.
Proof.
  unfold QDateTime_make. cbn [time].
  destruct (QTime_isValid t) eqn:Hv; [by rewrite Hv|reflexivity].
Qed.

Lemma fromMSecs_unique (d t : Z) :
  0 <= t < MSECS_PER_DAY -> fromMSecs (d * MSECS_PER_DAY + t) = mkQDateTime d t.
Proof.
  unfold MSECS_PER_DAY. intros Ht. unfold fromMSecs, MSECS_PER_DAY. f_equal.
  - symmetry. apply (Z.div_unique _ _ d t); lia.
  - symmetry. apply (Z.mod_unique _ _ d t); lia.
Qed.

(** ** The fetch of [update_prayer_times] *)

#[global] Arguments update_next_prayer_with : simpl never.
#[global] Arguments update_prayer_displays : simpl never.
#[global] Arguments parsed : simpl never.
#[global] Arguments extract_prayer_times : simpl never.
#[global] Arguments dict_set : simpl never.

Section Fetch.

Variables (E : Env) (refresh : M unit) (w : World).
Variables (tm : gmap string string).
Variables (fajr sunrise dhuhr asr maghrib isha midnight : string).

Let today : Z := date (fromMSecs (clock E (reads w))).
Let tomorrow : Z := addDays (date (fromMSecs (clock E (8 + reads w)))) 1.
Let req : Request := prayer_params (config (self w)) true today.
Let req' : Request := prayer_params (config (self w)) true tomorrow.

Hypothesis Htoday : provider E (length (sent w)) req = Timings 200 tm.
Hypothesis Hfajr : tm !! "Fajr" = Some fajr.
Hypothesis Hsunrise : tm !! "Sunrise" = Some sunrise.
Hypothesis Hdhuhr : tm !! "Dhuhr" = Some dhuhr.
Hypothesis Hasr : tm !! "Asr" = Some asr.
Hypothesis Hmaghrib : tm !! "Maghrib" = Some maghrib.
Hypothesis Hisha : tm !! "Isha" = Some isha.
Hypothesis Hmidnight : tm !! "Midnight" = Some midnight.

Let raw : list (string * QDateTime) :=
  [("Fajr", parsed E w 1 fajr); ("Sunrise", parsed E w 2 sunrise);
   ("Dhuhr", parsed E w 3 dhuhr); ("Asr", parsed E w 4 asr);
   ("Maghrib", parsed E w 5 maghrib); ("Isha", parsed E w 6 isha);
   ("Midnight", parsed E w 7 midnight)].

Lemma fetch_adjusted (tm' : gmap string string) (fajr' : string) :
  provider E (S (length (sent w))) req' = Timings 200 tm' ->
  tm' !! "Fajr" = Some fajr' ->
  let isha_time := parsed E w 6 isha in
  let tomorrow_fajr := QDateTime_make tomorrow (time (parsed E w 9 fajr')) in
  let midnight_seconds := secsTo isha_time tomorrow_fajr / 2 in
  update_prayer_times_with E refresh w =
    try_except (update_next_prayer_with E refresh;; update_prayer_displays)
      prayer_times_failed
      {| self := set_prayer_times
                   (Some (dict_set "Midnight"
                            (addSecs isha_time midnight_seconds) raw))
                   (self w);
         reads := 10 + reads w;
         sent := (sent w ++ [req]) ++ [req'];
         refreshes := S (refreshes w) |}.
Proof using All.
  intros Htomorrow Hfajr' isha_time tomorrow_fajr midnight_seconds.
  subst isha_time tomorrow_fajr midnight_seconds.
  unfold raw, req', req, tomorrow, today in *. cbn [Nat.add] in *.
  unfold update_prayer_times_with, requests_get, adjust_midnight.
  run. rewrite Htoday. cbn.
  unfold mbind, M_bind.
  rewrite (extract_prayer_times_run E tm _ fajr sunrise dhuhr asr maghrib
             isha midnight) by assumption.
  cbn. rewrite length_app. cbn [length]. rewrite Nat.add_1_r.
  rewrite Htomorrow. cbn. rewrite Hfajr'. cbn.
  reflexivity.
Qed.

Lemma fetch_raw (data' : Response) (c' : Z) :
  provider E (S (length (sent w))) req' = data' ->
  data' <> ConnectionError ->
  response_code data' = Some c' -> c' <> 200 ->
  update_prayer_times_with E refresh w =
    try_except (update_next_prayer_with E refresh;; update_prayer_displays)
      prayer_times_failed
      {| self := set_prayer_times (Some raw) (self w);
         reads := 9 + reads w;
         sent := (sent w ++ [req]) ++ [req'];
         refreshes := S (refreshes w) |}.
Proof using All.
  intros Htomorrow Hconn Hcode Hc'.
  unfold raw, req', req, tomorrow, today in *. cbn [Nat.add] in *.
  unfold update_prayer_times_with, requests_get.
  run. rewrite Htoday. cbn.
  unfold mbind, M_bind.
  rewrite (extract_prayer_times_run E tm _ fajr sunrise dhuhr asr maghrib
             isha midnight) by assumption.
  cbn. rewrite length_app. cbn [length]. rewrite Nat.add_1_r.
  rewrite Htomorrow.
  apply Z.eqb_neq in Hc'.
  destruct data'; try done; cbn in Hcode; injection Hcode as ->;
    cbn; rewrite Hc'; reflexivity.
Qed.

Lemma fetch_tomorrow_raises :
  provider E (S (length (sent w))) req' = ConnectionError ->
  update_prayer_times_with E refresh w =
    Ret tt {| self := set_countdown_label "--:--:--"
                        (set_next_prayer_label
                           "Error: Could not update prayer times"
                           (set_prayer_times (Some raw) (self w)));
              reads := 9 + reads w;
              sent := (sent w ++ [req]) ++ [req'];
              refreshes := S (refreshes w) |}.
Proof using All.
  intros Htomorrow.
  unfold raw, req', req, tomorrow, today in *. cbn [Nat.add] in *.
  unfold update_prayer_times_with, requests_get.
  run. rewrite Htoday. cbn.
  unfold mbind, M_bind.
  rewrite (extract_prayer_times_run E tm _ fajr sunrise dhuhr asr maghrib
             isha midnight) by assumption.
  cbn. rewrite length_app. cbn [length]. rewrite Nat.add_1_r.
  rewrite Htomorrow. reflexivity.
Qed.

(** C4. With tomorrow's Fajr at hand, the Midnight entry that
    [update_prayer_times] stores before it resolves the next prayer is
    Isha plus half, rounded down, of the whole seconds from Isha to
    tomorrow's Fajr; Isha 20:00 and Fajr 05:00 give 00:30 of the next
    day.  With a non-success answer for tomorrow, or none at all, the
    parsed Midnight of the provider stays. *)
Theorem update_prayer_times_midnight :
  let isha_time := parsed E w 6 isha in
  (forall (tm' : gmap string string) (fajr' : string),
     provider E (S (length (sent w))) req' = Timings 200 tm' ->
     tm' !! "Fajr" = Some fajr' ->
     let tomorrow_fajr := QDateTime_make tomorrow (QTime_fromString fajr') in
     let seconds_between := secsTo isha_time tomorrow_fajr in
     let stored_midnight := addSecs isha_time (seconds_between / 2) in
     update_prayer_times_with E refresh w =
       try_except (update_next_prayer_with E refresh;; update_prayer_displays)
         prayer_times_failed
         {| self := set_prayer_times
                      (Some [("Fajr", parsed E w 1 fajr);
                             ("Sunrise", parsed E w 2 sunrise);
                             ("Dhuhr", parsed E w 3 dhuhr);
                             ("Asr", parsed E w 4 asr);
                             ("Maghrib", parsed E w 5 maghrib);
                             ("Isha", isha_time);
                             ("Midnight", stored_midnight)])
                      (self w);
            reads := 10 + reads w;
            sent := (sent w ++ [req]) ++ [req'];
            refreshes := S (refreshes w) |} /\
     seconds_between * 1000 = toMSecs tomorrow_fajr - toMSecs isha_time /\
     toMSecs stored_midnight
       = toMSecs isha_time + (seconds_between / 2) * 1000 /\
     (isha = "20:00" -> fajr' = "05:00" ->
      date (fromMSecs (clock E (6 + reads w)))
        = date (fromMSecs (clock E (8 + reads w))) ->
      stored_midnight
        = mkQDateTime (date (fromMSecs (clock E (6 + reads w))) + 1)
                      (30 * 60000))) /\
  (forall (data' : Response) (c' : Z),
     provider E (S (length (sent w))) req' = data' ->
     data' <> ConnectionError ->
     response_code data' = Some c' -> c' <> 200 ->
     update_prayer_times_with E refresh w =
       try_except (update_next_prayer_with E refresh;; update_prayer_displays)
         prayer_times_failed
         {| self := set_prayer_times
                      (Some [("Fajr", parsed E w 1 fajr);
                             ("Sunrise", parsed E w 2 sunrise);
                             ("Dhuhr", parsed E w 3 dhuhr);
                             ("Asr", parsed E w 4 asr);
                             ("Maghrib", parsed E w 5 maghrib);
                             ("Isha", isha_time);
                             ("Midnight", parsed E w 7 midnight)])
                      (self w);
            reads := 9 + reads w;
            sent := (sent w ++ [req]) ++ [req'];
            refreshes := S (refreshes w) |}) /\
  (provider E (S (length (sent w))) req' = ConnectionError ->
   exists w',
     update_prayer_times_with E refresh w = Ret tt w' /\
     prayer_times (self w')
       = Some [("Fajr", parsed E w 1 fajr);
               ("Sunrise", parsed E w 2 sunrise);
               ("Dhuhr", parsed E w 3 dhuhr);
               ("Asr", parsed E w 4 asr);
               ("Maghrib", parsed E w 5 maghrib);
               ("Isha", isha_time);
               ("Midnight", parsed E w 7 midnight)] /\
     next_prayer_label (self w') = "Error: Could not update prayer times").
Proof using All.
  intros isha_time. split; [|split].
  - intros tm' fajr' Htomorrow Hfajr' tomorrow_fajr seconds_between
      stored_midnight.
    assert (Hsame : QDateTime_make tomorrow (time (parsed E w 9 fajr'))
                    = tomorrow_fajr).
    { subst tomorrow_fajr. unfold parsed. apply QDateTime_make_time. }
    split.
    { rewrite (fetch_adjusted tm' fajr' Htomorrow Hfajr'). cbv zeta.
      rewrite Hsame. reflexivity. }
    assert (Hexact : seconds_between * 1000
                     = toMSecs tomorrow_fajr - toMSecs isha_time).
    { subst seconds_between tomorrow_fajr isha_time. unfold parsed, secsTo.
      destruct (parsed_time tomorrow fajr') as (k & _ & ->).
      destruct (parsed_time (date (fromMSecs (clock E (6 + reads w)))) isha)
        as (k' & _ & ->).
      unfold toMSecs, MSECS_PER_DAY. cbn [date time].
      set (d := date (fromMSecs (clock E (6 + reads w)))).
      replace (tomorrow * 86400000 + k * 60000 - (d * 86400000 + k' * 60000))
        with (((tomorrow - d) * 86400 + (k - k') * 60) * 1000) by lia.
      rewrite Z.quot_mul by lia. reflexivity. }
    split; [exact Hexact|].
    split; [apply toMSecs_addSecs|].
    intros -> -> Hdate.
    subst stored_midnight seconds_between tomorrow_fajr isha_time.
    unfold parsed, tomorrow, addDays. rewrite <- Hdate.
    set (d := date (fromMSecs (clock E (6 + reads w)))).
    change (QTime_fromString "20:00") with 72000000.
    change (QTime_fromString "05:00") with 18000000.
    rewrite !QDateTime_make_valid by (unfold MSECS_PER_DAY; lia).
    unfold addSecs, secsTo, toMSecs. cbn [date time].
    replace ((d + 1) * MSECS_PER_DAY + 18000000
             - (d * MSECS_PER_DAY + 72000000)) with (32400 * 1000)
      by (unfold MSECS_PER_DAY; lia).
    rewrite Z.quot_mul by lia. change (32400 / 2) with 16200.
    replace (d * MSECS_PER_DAY + 72000000 + 16200 * 1000)
      with ((d + 1) * MSECS_PER_DAY + 30 * 60000)
      by (unfold MSECS_PER_DAY; lia).
    apply fromMSecs_unique. unfold MSECS_PER_DAY. lia.
  - intros data' c' Htomorrow Hconn Hcode Hc'.
    apply (fetch_raw data' c' Htomorrow Hconn Hcode Hc').
  - intros Htomorrow. eexists.
    split; [apply (fetch_tomorrow_raises Htomorrow)|]. by split.
Qed.

End Fetch.

Lemma update_prayer_times_midnight_witness :
  addSecs (parsed Sample.at_noon Sample.world0 6 "20:00")
    (secsTo (parsed Sample.at_noon Sample.world0 6 "20:00")
       (QDateTime_make 101 (QTime_fromString "05:00")) / 2)
  = mkQDateTime 101 1800000.
Proof.
  pose proof (update_prayer_times_midnight Sample.at_noon
                (update_prayer_times Sample.at_noon 0)
                Sample.world0 Sample.day_timings
                "05:00" "06:30" "13:00" "16:30" "19:00" "20:00" "00:30"
                eq_refl eq_refl eq_refl eq_refl eq_refl eq_refl eq_refl
                eq_refl) as H.
  cbv zeta in H. destruct H as (Hadj & _).
  destruct (Hadj Sample.day_timings "05:00" eq_refl eq_refl)
    as (_ & _ & _ & Hex).
  exact (Hex eq_refl eq_refl eq_refl).
Defined.

(** ** Provider failure and the countdown *)

Lemma update_countdown_idle (E : Env) (fuel : nat) (w : World) :
  next_prayer_time (self w) = None -> update_countdown E fuel w = Ret tt w.
Proof. intros Hnone. run. rewrite Hnone. reflexivity. Qed.

(** C8, amended.  When the provider answers today's request with a status
    other than 200, [update_prayer_times] shows the error text and the
    countdown placeholder and leaves the next prayer as it was; if none
    was set, none is set afterwards and a countdown tick changes nothing. *)
Theorem update_prayer_times_api_error (E : Env) (fuel : nat) (w : World)
    (data : Response) (c : Z) :
  provider E (length (sent w))
    (prayer_params (config (self w)) true
       (date (fromMSecs (clock E (reads w))))) = data ->
  data <> ConnectionError ->
  response_code data = Some c -> c <> 200 ->
  exists w',
    update_prayer_times E (S fuel) w = Ret tt w' /\
    self w' = set_countdown_label "--:--:--"
                (set_next_prayer_label "Prayer API Error: Try again later"
                   (self w)) /\
    next_prayer (self w') = next_prayer (self w) /\
    next_prayer_time (self w') = next_prayer_time (self w) /\
    refreshes w' = S (refreshes w) /\
    (next_prayer_time (self w) = None ->
     forall fuel', update_countdown E fuel' w' = Ret tt w').
Proof.
  intros Hresp Hconn Hcode Hc. apply Z.eqb_neq in Hc.
  exists {| self := set_countdown_label "--:--:--"
                      (set_next_prayer_label
                         "Prayer API Error: Try again later" (self w));
            reads := S (reads w);
            sent := sent w ++ [prayer_params (config (self w)) true
                                 (date (fromMSecs (clock E (reads w))))];
            refreshes := S (refreshes w) |}.
  split.
  { cbn [update_prayer_times].
    unfold update_prayer_times_with, requests_get. run.
    rewrite Hresp.
    destruct data; try congruence; try discriminate Hcode;
      cbn in Hcode; injection Hcode as ->; cbn; rewrite Hc; reflexivity. }
  cbn. do 4 (split; [reflexivity|]).
  intros Hnone fuel'. by apply update_countdown_idle.
Qed.

Lemma update_prayer_times_api_error_witness :
  exists w',
    update_prayer_times Sample.provider_down 1 Sample.world0 = Ret tt w' /\
    next_prayer_label (self w') = "Prayer API Error: Try again later" /\
    countdown_label (self w') = "--:--:--" /\
    next_prayer_time (self w') = None /\
    update_countdown Sample.provider_down 1 w' = Ret tt w'.
Proof.
  destruct (update_prayer_times_api_error Sample.provider_down 0
              Sample.world0 (Timings 500 ∅) 500
              eq_refl ltac:(discriminate) eq_refl ltac:(discriminate))
    as (w' & Hrun & Hself & _ & Htime & _ & Hidle).
  exists w'. split; [exact Hrun|].
  rewrite Hself. do 3 (split; [reflexivity|]).
  apply Hidle. reflexivity.
Defined.

(** C8 as stated fails once a next prayer has been set: the first refresh
    stores Dhuhr; half a second after Dhuhr a tick starts a refresh that the
    provider answers with status 500; the stored next prayer stays, and the
    following tick is not idle: it enters [update_prayer_times] again and
    sends another request. *)
Lemma api_error_keeps_stale_next_prayer :
  exists w1 w2 w3,
    update_prayer_times Sample.outage_at_dhuhr 1 Sample.world0 = Ret tt w1 /\
    update_countdown Sample.outage_at_dhuhr 1 w1 = Ret tt w2 /\
    next_prayer_label (self w2) = "Prayer API Error: Try again later" /\
    next_prayer (self w2) = Some "Dhuhr" /\
    next_prayer_time (self w2) = Some (mkQDateTime 100 46800000) /\
    update_countdown Sample.outage_at_dhuhr 1 w2 = Ret tt w3 /\
    refreshes w3 = S (refreshes w2) /\
    length (sent w3) = S (length (sent w2)).
Proof.
  eexists _, _, _.
  split; [vm_compute; reflexivity|].
  split; [vm_compute; reflexivity|].
  split; [vm_compute; reflexivity|].
  split; [vm_compute; reflexivity|].
  split; [vm_compute; reflexivity|].
  split; [vm_compute; reflexivity|].
  split; vm_compute; reflexivity.
Qed.

(** C6: the code at the boundary.  The first refresh stores Dhuhr, 13:00.
    The tick half a second before Dhuhr finds zero whole seconds left and
    enters [update_prayer_times]; that refresh reads the clock before
    13:00, finds Dhuhr still ahead and stores it again, and its countdown,
    again with zero seconds left, enters [update_prayer_times] a second
    time within the same tick.  Where the stack has room for the first of
    these entries only, the second one is made all the same and ends in
    the handler of the recursion error. *)
Lemma update_countdown_refreshes_twice :
  exists w1 w2 w3,
    update_prayer_times Sample.tick_before_dhuhr 1 Sample.world0
      = Ret tt w1 /\
    next_prayer_time (self w1) = Some (mkQDateTime 100 46800000) /\
    secsTo (fromMSecs (clock Sample.tick_before_dhuhr (reads w1)))
      (mkQDateTime 100 46800000) = 0 /\
    update_countdown Sample.tick_before_dhuhr 1 w1 = Ret tt w3 /\
    refreshes w3 = (2 + refreshes w1)%nat /\
    next_prayer_label (self w3) = "Error: Could not update prayer times" /\
    update_countdown Sample.tick_before_dhuhr 2 w1 = Ret tt w2 /\
    refreshes w2 = (2 + refreshes w1)%nat /\
    length (sent w2) = (4 + length (sent w1))%nat /\
    next_prayer (self w2) = Some "Asr".
Proof.
  eexists _, _, _.
  split; [vm_compute; reflexivity|].
  split; [vm_compute; reflexivity|].
  split; [vm_compute; reflexivity|].
  split; [vm_compute; reflexivity|].
  split; [vm_compute; reflexivity|].
  split; [vm_compute; reflexivity|].
  split; [vm_compute; reflexivity|].
  split; [vm_compute; reflexivity|].
  split; vm_compute; reflexivity.
Qed.

(** ** The label update *)

Lemma for_each_cons_ret {A} (x : A) (l : list A) (body : A -> M unit)
    (w w' : World) :
  body x w = Ret tt w' -> for_each (x :: l) body w = for_each l body w'.
Proof.
  intros Hx. cbn [for_each]. unfold mbind, M_bind. by rewrite Hx.
Qed.

Lemma for_each_paint (np : string) (items : list (string * QDateTime)) :
  forall (w : World),
    next_prayer (self w) = Some np ->
    for_each items (fun '(prayer, time) =>
        s ← get_self;
        match prayer_labels s !! prayer with
        | None => mret tt
        | Some _ =>
            let time_str := toString_hhmm time in
            modify (fun s => set_prayer_labels
                       (alter (setText time_str) prayer (prayer_labels s)) s);;
            s ← get_self;
            np ← subscript (next_prayer s);
            let style :=
              if String.eqb prayer np
              then "font-weight: bold; color: #2196F3;" else "" in
            modify (fun s => set_prayer_labels
                       (alter (setStyleSheet style) prayer (prayer_labels s)) s)
        end) w
    = Ret tt (with_self
                (set_prayer_labels (paint items np (prayer_labels (self w)))
                   (self w)) w).
Proof.
  induction items as [|[prayer time] items IH]; intros w Hnp.
  - destruct w as [[] ? ? ?]. reflexivity.
  - rewrite (for_each_cons_ret _ _ _ w
               (with_self
                  (set_prayer_labels
                     (paint_one np (prayer_labels (self w)) (prayer, time))
                     (self w)) w)).
    + rewrite IH by exact Hnp. reflexivity.
    + run. destruct (prayer_labels (self w) !! prayer) eqn:Hl; cbn.
      * rewrite Hnp. cbn. reflexivity.
      * assert (Ha : forall f : QLabel -> QLabel,
                  alter f prayer (prayer_labels (self w))
                  = prayer_labels (self w)).
        { intros f. apply alter_id. intros x Hx. congruence. }
        unfold paint_one. rewrite !Ha.
        destruct w as [[] ? ? ?]. reflexivity.
Qed.

Lemma update_prayer_displays_run (w : World)
    (items : list (string * QDateTime)) (np : string) :
  prayer_times (self w) = Some items ->
  next_prayer (self w) = Some np ->
  update_prayer_displays w =
    Ret tt (with_self
              (set_prayer_labels (paint items np (prayer_labels (self w)))
                 (self w)) w).
Proof.
  intros Hitems Hnp. unfold update_prayer_displays.
  unfold mbind at 1, M_bind at 1, get_self at 1. rewrite Hitems.
  by apply for_each_paint.
Qed.

(** Painting twice is painting once. *)
Lemma paint_lookup (np : string) (k : string)
    (items : list (string * QDateTime)) :
  forall labels,
    paint items np labels !! k =
    fold_left (fun o item =>
                 if String.eqb (fst item) k
                 then (fun l => {| text := toString_hhmm (snd item);
                                   styleSheet :=
                                     if String.eqb (fst item) np
                                     then "font-weight: bold; color: #2196F3;"
                                     else "" |}) <$> o
                 else o) items (labels !! k).
Proof.
  induction items as [|[prayer time] items IH]; intros labels; [reflexivity|].
  unfold paint in *. cbn [fold_left]. rewrite IH. f_equal.
  unfold paint_one. cbn [fst snd].
  destruct (String.eqb_spec prayer k) as [->|Hne].
  - rewrite !lookup_alter_eq. by destruct (labels !! k).
  - by rewrite !lookup_alter_ne.
Qed.

Lemma fold_label_shape (np k : string) (items : list (string * QDateTime)) :
  let h := fold_left (fun (o : option QLabel) (item : string * QDateTime) =>
                 if String.eqb (fst item) k
                 then (fun l => {| text := toString_hhmm (snd item);
                                   styleSheet :=
                                     if String.eqb (fst item) np
                                     then "font-weight: bold; color: #2196F3;"
                                     else "" |}) <$> o
                 else o) items in
  h None = None /\
  ((forall l, h (Some l) = Some l) \/ (exists c, forall l, h (Some l) = Some c)).
Proof.
  induction items as [|[prayer time] items [IHn IHs]]; cbn zeta.
  - split; [reflexivity|]. by left.
  - cbn [fold_left fst snd].
    destruct (String.eqb prayer k); cbn [fmap option_fmap option_map].
    + split; [exact IHn|]. right.
      destruct IHs as [Hid|[c Hc]]; eexists; intros l.
      * apply Hid.
      * apply Hc.
    + split; [exact IHn|]. exact IHs.
Qed.

Lemma paint_idempotent (items : list (string * QDateTime)) (np : string)
    (labels : gmap string QLabel) :
  paint items np (paint items np labels) = paint items np labels.
Proof.
  apply map_eq. intros k. rewrite (paint_lookup np k items (paint _ _ _)).
  rewrite (paint_lookup np k items labels).
  destruct (fold_label_shape np k items) as [Hn Hs]. cbn zeta in Hn, Hs.
  destruct (labels !! k) as [l|].
  - destruct Hs as [Hid|[c Hc]].
    + by rewrite !Hid.
    + by rewrite !Hc.
  - by rewrite !Hn.
Qed.

(** ** From the stored set to the labels *)

#[global] Arguments paint : simpl never.

Lemma update_countdown_with_run (E : Env) (refresh : M unit) (w : World)
    (t : QDateTime) :
  next_prayer_time (self w) = Some t ->
  let remaining := secsTo (fromMSecs (clock E (reads w))) t in
  update_countdown_with E refresh w =
    if 0 <? remaining
    then Ret tt (with_self
                   (set_countdown_label
                      ("Time Remaining: " +:+ countdown_text remaining)
                      (self w))
                   (advance 1 w))
    else refresh (advance 1 w).
Proof.
  intros Ht remaining. run. rewrite Ht. cbn. fold remaining.
  destruct (0 <? remaining); reflexivity.
Qed.

Lemma resolve_stored (E : Env) (refresh : M unit) (w : World)
    (items : list (string * QDateTime)) (p : string) (t : QDateTime) :
  prayer_times (self w) = Some items ->
  let w1 := with_self (stored p t (self w)) w in
  let remaining := secsTo (fromMSecs (clock E (reads w))) t in
  try_except
    (store_next_prayer E refresh (Some (p, t));; update_prayer_displays)
    prayer_times_failed w =
  if 0 <? remaining
  then Ret tt (with_self
                 (set_prayer_labels
                    (paint items p (prayer_labels (self w)))
                    (set_countdown_label
                       ("Time Remaining: " +:+ countdown_text remaining)
                       (self w1)))
                 (advance 1 w1))
  else try_except (refresh;; update_prayer_displays) prayer_times_failed
         (advance 1 w1).
Proof.
  intros Hitems w1 remaining.
  assert (Hstore : store_next_prayer E refresh (Some (p, t)) w
                   = update_countdown_with E refresh w1) by reflexivity.
  unfold try_except at 1. unfold mbind at 1, M_bind at 1. rewrite Hstore.
  rewrite (update_countdown_with_run E refresh w1 t eq_refl).
  cbv zeta. change (reads w1) with (reads w). fold remaining.
  destruct (0 <? remaining); [|reflexivity].
  erewrite update_prayer_displays_run; [reflexivity|exact Hitems|reflexivity].
Qed.

Lemma next_prayer_found (E : Env) (refresh : M unit) (w : World)
    (items : list (string * QDateTime)) (r : string * QDateTime) :
  prayer_times (self w) = Some items ->
  scan (fromMSecs (clock E (reads w))) items = Some r ->
  update_next_prayer_with E refresh w =
    store_next_prayer E refresh (Some r) (advance 1 w).
Proof.
  intros Hitems Hscan. unfold update_next_prayer_with. run.
  rewrite Hitems. cbn. rewrite Hscan. reflexivity.
Qed.

Lemma next_prayer_fetched (E : Env) (refresh : M unit) (w : World)
    (items : list (string * QDateTime)) (tm : gmap string string)
    (fajr_time : string) :
  prayer_times (self w) = Some items ->
  scan (fromMSecs (clock E (reads w))) items = None ->
  let tomorrow := addDays (date (fromMSecs (clock E (S (reads w))))) 1 in
  let req := prayer_params (config (self w)) false tomorrow in
  provider E (length (sent w)) req = Timings 200 tm ->
  tm !! "Fajr" = Some fajr_time ->
  update_next_prayer_with E refresh w =
    store_next_prayer E refresh
      (Some ("Fajr (Tomorrow)",
             QDateTime_make tomorrow (QTime_fromString fajr_time)))
      {| self := self w; reads := 2 + reads w; sent := sent w ++ [req];
         refreshes := refreshes w |}.
Proof.
  intros Hitems Hscan tomorrow req Hresp Hfajr.
  subst req tomorrow. cbn in Hresp.
  unfold update_next_prayer_with, fetch_tomorrow_fajr, requests_get. run.
  rewrite Hitems. cbn. rewrite Hscan. cbn.
  rewrite Hresp. cbn. rewrite Hfajr. reflexivity.
Qed.

Lemma stored_twice (p : string) (t : QDateTime)
    (v : option (list (string * QDateTime))) (s : Widget) :
  stored p t (set_prayer_times v (stored p t (set_prayer_times v s)))
  = stored p t (set_prayer_times v s).
Proof. reflexivity. Qed.

Lemma stored_labels (p : string) (t : QDateTime)
    (v : option (list (string * QDateTime))) (s : Widget) :
  prayer_labels (stored p t (set_prayer_times v s)) = prayer_labels s.
Proof. reflexivity. Qed.

(** ** A refresh under a fixed clock and a fixed provider *)

Section Fixed.

Variables (E : Env) (now : Z) (P : Request -> Response) (cfg : Config).

Hypothesis Hclock : forall k, clock E k = now.
Hypothesis Hprov : forall k r, provider E k r = P r.

Let today : Z := date (fromMSecs now).
Let tomorrow : Z := addDays today 1.

Variables (tm tm' tm'' : gmap string string).
Variables (fajr sunrise dhuhr asr maghrib isha midnight : string).
Variables (fajr' fajr'' : string).

Hypothesis Htoday : P (prayer_params cfg true today) = Timings 200 tm.
Hypothesis Hfajr : tm !! "Fajr" = Some fajr.
Hypothesis Hsunrise : tm !! "Sunrise" = Some sunrise.
Hypothesis Hdhuhr : tm !! "Dhuhr" = Some dhuhr.
Hypothesis Hasr : tm !! "Asr" = Some asr.
Hypothesis Hmaghrib : tm !! "Maghrib" = Some maghrib.
Hypothesis Hisha : tm !! "Isha" = Some isha.
Hypothesis Hmidnight : tm !! "Midnight" = Some midnight.
Hypothesis Htomorrow : P (prayer_params cfg true tomorrow) = Timings 200 tm'.
Hypothesis Hfajr' : tm' !! "Fajr" = Some fajr'.
Hypothesis Hfallback : P (prayer_params cfg false tomorrow) = Timings 200 tm''.
Hypothesis Hfajr'' : tm'' !! "Fajr" = Some fajr''.

Let mk (s : string) : QDateTime := QDateTime_make today (QTime_fromString s).
Let isha_time : QDateTime := mk isha.
Let tomorrow_fajr : QDateTime := QDateTime_make tomorrow (time (mk fajr')).

Let items : list (string * QDateTime) :=
  [("Fajr", mk fajr); ("Sunrise", mk sunrise); ("Dhuhr", mk dhuhr);
   ("Asr", mk asr); ("Maghrib", mk maghrib); ("Isha", isha_time);
   ("Midnight", addSecs isha_time (secsTo isha_time tomorrow_fajr / 2))].

Let found : option (string * QDateTime) := scan (fromMSecs now) items.

Let target : string * QDateTime :=
  match found with
  | Some r => r
  | None => ("Fajr (Tomorrow)",
             QDateTime_make tomorrow (QTime_fromString fajr''))
  end.

Let remaining : Z := secsTo (fromMSecs now) (snd target).

(** The world in which the countdown of the refresh has read the clock
    and compares it with the stored next prayer. *)
Let resolved (w : World) : World :=
  {| self := stored (fst target) (snd target)
               (set_prayer_times (Some items) (self w));
     reads := match found with Some _ => 12 | None => 13 end + reads w;
     sent := (let sent2 := (sent w ++ [prayer_params cfg true today])
                             ++ [prayer_params cfg true tomorrow] in
              match found with
              | Some _ => sent2
              | None => sent2 ++ [prayer_params cfg false tomorrow]
              end);
     refreshes := S (refreshes w) |}.

Lemma refresh_step (refresh : M unit) (w : World) :
  config (self w) = cfg ->
  update_prayer_times_with E refresh w =
    if 0 <? remaining
    then Ret tt (with_self
                   (set_prayer_labels
                      (paint items (fst target) (prayer_labels (self w)))
                      (set_countdown_label
                         ("Time Remaining: " +:+ countdown_text remaining)
                         (self (resolved w))))
                   (resolved w))
    else try_except (refresh;; update_prayer_displays) prayer_times_failed
           (resolved w).
Proof using All.
  intros Hcfg.
  rewrite (fetch_adjusted E refresh w tm fajr sunrise dhuhr asr maghrib isha
             midnight) with (tm' := tm') (fajr' := fajr');
    rewrite ?Hprov, ?Hclock, ?Hcfg; try assumption.
  cbv zeta. unfold parsed. rewrite ?Hclock, ?Hcfg.
  change (Some (dict_set _ _ _)) with (Some items).
  set (w0 := {| self := set_prayer_times (Some items) (self w);
                reads := 10 + reads w;
                sent := (sent w ++ [prayer_params cfg true today])
                          ++ [prayer_params cfg true tomorrow];
                refreshes := S (refreshes w) |}).
  assert (Hnext : exists w1,
            update_next_prayer_with E refresh w0 =
              store_next_prayer E refresh (Some (fst target, snd target)) w1 /\
            advance 1 (with_self (stored (fst target) (snd target) (self w1)) w1)
              = resolved w /\
            prayer_times (self w1) = Some items /\
            prayer_labels (self w1) = prayer_labels (self w)).
  { unfold resolved, target, found.
    destruct (scan (fromMSecs now) items) as [r|] eqn:Hfound.
    - exists (advance 1 w0). split; [|done].
      rewrite (next_prayer_found E refresh w0 items r eq_refl);
        [by destruct r|].
      rewrite Hclock. exact Hfound.
    - exists {| self := self w0; reads := 2 + reads w0;
                sent := sent w0 ++ [prayer_params cfg false tomorrow];
                refreshes := refreshes w0 |}. split; [|done].
      rewrite (next_prayer_fetched E refresh w0 items tm'' fajr'' eq_refl);
        rewrite ?Hclock, ?Hprov; cbn [self w0 config set_prayer_times];
        rewrite ?Hcfg; try assumption.
      reflexivity. }
  destruct Hnext as (w1 & Hnext & Hres & Hitems1 & Hlabels).
  assert (Hswap :
    try_except (update_next_prayer_with E refresh;; update_prayer_displays)
      prayer_times_failed w0 =
    try_except
      (store_next_prayer E refresh (Some (fst target, snd target));;
       update_prayer_displays) prayer_times_failed w1).
  { unfold try_except, mbind, M_bind. by rewrite Hnext. }
  match goal with
  | |- try_except ?b ?h _ = ?rhs => change (try_except b h w0 = rhs)
  end.
  rewrite Hswap.
  rewrite (resolve_stored E refresh w1 items (fst target) (snd target) Hitems1).
  cbv zeta. rewrite Hclock, Hres, Hlabels. fold remaining.
  destruct (0 <? remaining); [|reflexivity].
  f_equal. rewrite <- Hres. reflexivity.
Qed.

Let failed (s : Widget) : Widget :=
  set_countdown_label "--:--:--"
    (set_next_prayer_label "Error: Could not update prayer times" s).

(** What a refresh that the stack has room for leaves of [self]: the
    countdown when a whole second is left, and otherwise, after the
    refreshes have nested down to the limit, the error text. *)
Let settled (s : Widget) : Widget :=
  let s1 :=
    stored (fst target) (snd target) (set_prayer_times (Some items) s) in
  set_prayer_labels (paint items (fst target) (prayer_labels s))
    (if 0 <? remaining
     then set_countdown_label
            ("Time Remaining: " +:+ countdown_text remaining) s1
     else failed s1).

Let left_by (fuel : nat) (s : Widget) : Widget :=
  match fuel with O => failed s | S _ => settled s end.

Lemma self_resolved (w : World) :
  self (resolved w) =
    stored (fst target) (snd target) (set_prayer_times (Some items) (self w)).
Proof. reflexivity. Qed.

Lemma refresh_at_limit (w : World) :
  update_prayer_times E 0 w =
    Ret tt {| self := failed (self w); reads := S (reads w); sent := sent w;
              refreshes := S (refreshes w) |}.
Proof. reflexivity. Qed.

Lemma refresh_counts (refresh : M unit) (w : World) :
  config (self w) = cfg -> (0 <? remaining) = true ->
  exists w',
    update_prayer_times_with E refresh w = Ret tt w' /\
    self w' = settled (self w).
Proof using All.
  intros Hcfg Hpos. rewrite (refresh_step _ w Hcfg). unfold settled.
  rewrite Hpos. eexists. split; reflexivity.
Qed.

Lemma refresh_nests (refresh : M unit) (w : World) :
  config (self w) = cfg -> (0 <? remaining) = false ->
  (exists w1 labels,
     refresh (resolved w) = Ret tt w1 /\
     self w1 = set_prayer_labels labels (failed (self (resolved w))) /\
     paint items (fst target) labels
       = paint items (fst target) (prayer_labels (self w))) ->
  exists w',
    update_prayer_times_with E refresh w = Ret tt w' /\
    self w' = settled (self w).
Proof using All.
  intros Hcfg Hpos (w1 & labels & Hrun & Hself & Hpaint).
  rewrite (refresh_step _ w Hcfg). rewrite Hpos.
  unfold try_except, mbind, M_bind. rewrite Hrun. cbv beta iota.
  rewrite (update_prayer_displays_run w1 items (fst target))
    by (rewrite Hself; reflexivity).
  eexists. split; [reflexivity|]. cbn [self with_self].
  unfold settled. rewrite Hpos, Hself.
  cbn [prayer_labels set_prayer_labels]. rewrite Hpaint, self_resolved.
  generalize (paint items (fst target) (prayer_labels (self w))).
  generalize (failed (stored (fst target) (snd target)
                        (set_prayer_times (Some items) (self w)))).
  reflexivity.
Qed.

Lemma refresh_settles (n : nat) : forall w,
  config (self w) = cfg ->
  exists w',
    update_prayer_times E (S n) w = Ret tt w' /\ self w' = settled (self w).
Proof using All.
  induction n as [|n IH]; intros w Hcfg;
    change (update_prayer_times E (S ?m) w)
      with (update_prayer_times_with E (update_prayer_times E m) w);
    destruct (Sumbool.sumbool_of_bool (0 <? remaining)) as [Hpos|Hpos];
    try (by apply refresh_counts); apply refresh_nests; try assumption.
  - eexists _, _. split; [apply refresh_at_limit|]. split; reflexivity.
  - destruct (IH (resolved w) Hcfg) as (w1 & Hrun & Hself).
    exists w1, (paint items (fst target) (prayer_labels (self w))).
    split; [exact Hrun|]. split; [|apply paint_idempotent].
    rewrite Hself. unfold settled.
    by rewrite Hpos, self_resolved, stored_twice, stored_labels.
Qed.

Lemma refresh_leaves (fuel : nat) (w : World) :
  config (self w) = cfg ->
  exists w',
    update_prayer_times E fuel w = Ret tt w' /\
    self w' = left_by fuel (self w).
Proof using All.
  intros Hcfg. destruct fuel as [|n]; [|by apply refresh_settles].
  eexists. split; reflexivity.
Qed.

Lemma target_ahead : now < toMSecs (snd target).
Proof using All.
  unfold target, found.
  pose proof (scan_earliest (fromMSecs now) items) as Hscan.
  destruct (scan (fromMSecs now) items) as [[p t]|].
  - destruct Hscan as (_ & Hlt & _). by rewrite toMSecs_fromMSecs in Hlt.
  - cbn [snd].
    destruct (parsed_time tomorrow fajr'') as (k & Hk & ->).
    unfold toMSecs, tomorrow, today, addDays, fromMSecs, MSECS_PER_DAY.
    cbn [date time].
    pose proof (Z.div_mod now 86400000 ltac:(lia)).
    pose proof (Z.mod_pos_bound now 86400000 ltac:(lia)). lia.
Qed.

Lemma refresh_result (fuel : nat) (wa : World) :
  config (self wa) = cfg ->
  exists w1,
    update_prayer_times E fuel wa = Ret tt w1 /\
    same_but_prayer (self wa) (self w1) /\
    (fuel <> O ->
     next_prayer (self w1) = Some (fst target) /\
     next_prayer_time (self w1) = Some (snd target) /\
     now < toMSecs (snd target) /\
     next_prayer_label (self w1) =
       if 0 <? secsTo (fromMSecs now) (snd target)
       then "Next: " +:+ fst target
       else "Error: Could not update prayer times").
Proof using All.
  intros Hcfg.
  destruct (refresh_leaves fuel wa Hcfg) as (w1 & Hrun & Hself).
  exists w1. split; [exact Hrun|]. rewrite Hself.
  destruct fuel as [|n]; cbn [left_by]; [by split|].
  unfold settled. fold remaining.
  split; [by destruct (0 <? remaining)|]. intros _.
  pose proof target_ahead.
  destruct (0 <? remaining); done.
Qed.

Lemma refresh_twice (fuel : nat) (wa wb w1 : World) :
  config (self wa) = cfg -> config (self wb) = cfg ->
  update_prayer_times E fuel wa = Ret tt w1 ->
  prayer_part (self wb) = prayer_part (self w1) ->
  exists w2,
    update_prayer_times E fuel wb = Ret tt w2 /\
    prayer_part (self w2) = prayer_part (self w1) /\
    same_but_prayer (self wb) (self w2).
Proof using All.
  intros Hcfga Hcfgb Hrun Hpart.
  destruct (refresh_leaves fuel wa Hcfga) as (w1' & Hrun' & Hself).
  rewrite Hrun in Hrun'. injection Hrun' as <-.
  destruct (refresh_leaves fuel wb Hcfgb) as (w2 & Hrun2 & Hself2).
  exists w2. split; [exact Hrun2|]. rewrite Hself2.
  rewrite Hself in Hpart |- *.
  destruct fuel as [|n]; cbn [left_by] in *.
  - split; [|done]. unfold prayer_part, failed in *. cbn in *.
    by injection Hpart as -> -> -> _ _ ->.
  - unfold settled in *.
    assert (Hlabels : prayer_labels (self wb)
                      = paint items (fst target) (prayer_labels (self wa))).
    { unfold prayer_part in Hpart.
      destruct (0 <? remaining); cbn in Hpart; by injection Hpart. }
    split; [|by destruct (0 <? remaining)].
    unfold prayer_part. rewrite Hlabels.
    destruct (0 <? remaining); cbn; by rewrite paint_idempotent.
Qed.

End Fixed.

(** ** Verse and hadith *)

Lemma update_quran_verse_twice (E : Env) (P : Request -> Response)
    (wa wb w1 : World) :
  (forall k r, provider E k r = P r) ->
  update_quran_verse E wa = Ret tt w1 ->
  config (self wb) = config (self wa) ->
  quran_part (self wb) = quran_part (self w1) ->
  same_but_quran (self wa) (self w1) /\
  exists w2,
    update_quran_verse E wb = Ret tt w2 /\
    quran_part (self w2) = quran_part (self w1) /\
    same_but_quran (self wb) (self w2).
Proof.
  intros Hprov Hrun Hcfg Hq. revert Hrun Hq.
  unfold update_quran_verse, requests_get, try_except. run.
  rewrite !Hprov, Hcfg.
  unfold same_but_quran, quran_part, prayer_part, hadith_part, fixed_part.
  repeat (match goal with
          | |- context [match P ?r with _ => _ end] => destruct (P r)
          | |- context [if ?c =? 200 then _ else _] => destruct (c =? 200)
          | |- context [if show_arabic ?c then _ else _] =>
              destruct (show_arabic c)
          | |- context [if show_translation ?c then _ else _] =>
              destruct (show_translation c)
          end; cbn; rewrite ?Hprov, ?Hcfg);
    intros [= <-]; cbn; intros [= ? ? ?];
    (split; [done|]); eexists; (split; [reflexivity|]); cbn;
    repeat split; congruence.
Qed.

Lemma update_quran_verse_keeps (E : Env) (wa w1 : World) :
  update_quran_verse E wa = Ret tt w1 -> same_but_quran (self wa) (self w1).
Proof.
  unfold update_quran_verse, requests_get, try_except. run.
  unfold same_but_quran, quran_part, prayer_part, hadith_part, fixed_part.
  repeat (match goal with
          | |- context [match provider E ?k ?r with _ => _ end] =>
              destruct (provider E k r)
          | |- context [if ?c =? 200 then _ else _] => destruct (c =? 200)
          | |- context [if show_arabic ?c then _ else _] =>
              destruct (show_arabic c)
          | |- context [if show_translation ?c then _ else _] =>
              destruct (show_translation c)
          end; cbn);
    intros [= <-]; cbn; done.
Qed.

Lemma update_hadith_keeps (E : Env) (wa w1 : World) :
  update_hadith E wa = Ret tt w1 -> same_but_hadith (self wa) (self w1).
Proof.
  unfold update_hadith, requests_get, try_except, hadith_data. run.
  unfold same_but_hadith, quran_part, prayer_part, hadith_part, fixed_part.
  destruct (provider E _ _) as [| | | |d]; cbn;
    try destruct (decide (d = ∅)); cbn; intros [= <-]; cbn; done.
Qed.

Lemma update_hadith_twice (E : Env) (P : Request -> Response)
    (wa wb w1 : World) :
  (forall k r, provider E k r = P r) ->
  update_hadith E wa = Ret tt w1 ->
  config (self wb) = config (self wa) ->
  exists w2,
    update_hadith E wb = Ret tt w2 /\
    hadith_part (self w2) = hadith_part (self w1) /\
    same_but_hadith (self wb) (self w2).
Proof.
  intros Hprov Hrun Hcfg. revert Hrun.
  unfold update_hadith, requests_get, try_except, hadith_data. run.
  rewrite !Hprov, Hcfg.
  unfold same_but_hadith, quran_part, prayer_part, hadith_part, fixed_part.
  destruct (P _) as [| | | |d]; cbn;
    try destruct (decide (d = ∅)); cbn; intros [= <-]; cbn;
    eexists; (split; [reflexivity|]); cbn; repeat split; congruence.
Qed.

Lemma update_quran_verse_returns (E : Env) (w : World) :
  exists w', update_quran_verse E w = Ret tt w'.
Proof.
  unfold update_quran_verse, requests_get, try_except. run.
  repeat (match goal with
          | |- context [match provider E ?k ?r with _ => _ end] =>
              destruct (provider E k r)
          | |- context [if ?c =? 200 then _ else _] => destruct (c =? 200)
          | |- context [if show_arabic ?c then _ else _] =>
              destruct (show_arabic c)
          | |- context [if show_translation ?c then _ else _] =>
              destruct (show_translation c)
          end; cbn);
    eexists; reflexivity.
Qed.

Lemma update_hadith_returns (E : Env) (w : World) :
  exists w', update_hadith E w = Ret tt w'.
Proof.
  unfold update_hadith, requests_get, try_except, hadith_data. run.
  destruct (provider E _ _) as [| | | |d]; cbn;
    try destruct (decide (d = ∅)); cbn; eexists; reflexivity.
Qed.

Lemma update_data_returns (E : Env) (fuel : nat) (w : World) :
  exists w', update_data E fuel w = Ret tt w'.
Proof.
  unfold update_data, mbind, M_bind.
  destruct (update_prayer_times_returns E fuel w) as (a & ->).
  destruct (update_quran_verse_returns E a) as (b & ->). cbn [get_self].
  destruct (show_hadith (config (self b))).
  - apply update_hadith_returns.
  - by exists b.
Qed.

Lemma widget_parts_eq (s s' : Widget) :
  prayer_part s' = prayer_part s -> quran_part s' = quran_part s ->
  hadith_part s' = hadith_part s -> fixed_part s' = fixed_part s -> s' = s.
Proof.
  destruct s, s'. unfold prayer_part, quran_part, hadith_part, fixed_part.
  cbn. intros [= -> -> -> -> -> ->] [= -> -> ->] [= -> ->] [= -> -> ->].
  reflexivity.
Qed.

(** ** Refreshing twice *)

Lemma fixed_part_config (s s' : Widget) :
  fixed_part s' = fixed_part s -> config s' = config s.
Proof. unfold fixed_part. by intros [= -> _ _]. Qed.

Lemma prayer_part_labels (s s' : Widget) :
  prayer_part s' = prayer_part s -> prayer_labels s' = prayer_labels s.
Proof. unfold prayer_part. by intros [= _ _ _ _ _ ->]. Qed.

Lemma prayer_part_next (s s' : Widget) :
  prayer_part s' = prayer_part s ->
  next_prayer s' = next_prayer s /\ next_prayer_time s' = next_prayer_time s.
Proof. unfold prayer_part. by intros [= _ -> -> _ _ _]. Qed.

(** C9. Under a clock that stands still and a provider that answers a
    request the same way each time and every prayer request with status
    200 and all seven times, [update_data] returns, whatever room the
    stack has, a second run right after it returns as well, and it leaves
    every attribute of the widget, the next prayer and its timestamp among
    them, as the first run left it.  With room for an entry of
    [update_prayer_times], the next prayer that is stored is later than the
    clock; it is announced when a whole second is left to it, and
    otherwise, where the refreshes nest down to the recursion limit, the
    error text is what stays on the label. *)
Theorem update_data_idempotent (E : Env) (now : Z) (P : Request -> Response)
    (fuel : nat) (w : World) :
  (forall k, clock E k = now) ->
  (forall k r, provider E k r = P r) ->
  (forall r, url r = prayer_api (config (self w)) ->
             exists tm, P r = Timings 200 tm /\
                        forall n, n ∈ prayer_names -> is_Some (tm !! n)) ->
  exists w1 w2,
    update_data E fuel w = Ret tt w1 /\
    update_data E fuel w1 = Ret tt w2 /\
    self w2 = self w1 /\
    (fuel <> O ->
     exists p t,
       next_prayer (self w1) = Some p /\ next_prayer_time (self w1) = Some t /\
       next_prayer (self w2) = Some p /\ next_prayer_time (self w2) = Some t /\
       now < toMSecs t /\
       next_prayer_label (self w1) =
         if 0 <? secsTo (fromMSecs now) t then "Next: " +:+ p
         else "Error: Could not update prayer times").
Proof.
  intros Hclock Hprov Hok.
  set (cfg := config (self w)) in *.
  set (today := date (fromMSecs now)).
  destruct (Hok (prayer_params cfg true today) eq_refl) as (tm & Htm & Hk).
  destruct (Hok (prayer_params cfg true (addDays today 1)) eq_refl)
    as (tm' & Htm' & Hk').
  destruct (Hok (prayer_params cfg false (addDays today 1)) eq_refl)
    as (tm'' & Htm'' & Hk'').
  assert (Hnames : forall n, In n prayer_names -> n ∈ prayer_names)
    by (intros n; apply list_elem_of_In).
  destruct (Hk "Fajr") as [fajr Hfajr]; [apply Hnames; cbn; tauto|].
  destruct (Hk "Sunrise") as [sunrise Hsunrise]; [apply Hnames; cbn; tauto|].
  destruct (Hk "Dhuhr") as [dhuhr Hdhuhr]; [apply Hnames; cbn; tauto|].
  destruct (Hk "Asr") as [asr Hasr]; [apply Hnames; cbn; tauto|].
  destruct (Hk "Maghrib") as [maghrib Hmaghrib]; [apply Hnames; cbn; tauto|].
  destruct (Hk "Isha") as [isha Hisha]; [apply Hnames; cbn; tauto|].
  destruct (Hk "Midnight") as [midnight Hmidnight];
    [apply Hnames; cbn; tauto|].
  destruct (Hk' "Fajr") as [fajr' Hfajr']; [apply Hnames; cbn; tauto|].
  destruct (Hk'' "Fajr") as [fajr'' Hfajr'']; [apply Hnames; cbn; tauto|].
  pose proof (refresh_result E now P cfg Hclock Hprov tm tm' tm''
                fajr sunrise dhuhr asr maghrib isha midnight fajr' fajr''
                Htm Hfajr Hsunrise Hdhuhr Hasr Hmaghrib Hisha Hmidnight
                Htm' Hfajr' Htm'' Hfajr'') as Hres.
  pose proof (refresh_twice E now P cfg Hclock Hprov tm tm' tm''
                fajr sunrise dhuhr asr maghrib isha midnight fajr' fajr''
                Htm Hfajr Hsunrise Hdhuhr Hasr Hmaghrib Hisha Hmidnight
                Htm' Hfajr' Htm'' Hfajr'') as Htwice.
  cbv zeta in Hres, Htwice.
  destruct (Hres fuel w eq_refl) as (a & Hpt & (Ha2 & Ha3 & Ha0) & Hnext).
  destruct (update_data_returns E fuel w) as (w1 & Hrun).
  exists w1. revert Hrun. unfold update_data, mbind, M_bind. rewrite Hpt.
  destruct (update_quran_verse E a) as [[] b|b] eqn:Hqv; [|done].
  cbn [get_self]. intros Hh.
  destruct (update_quran_verse_keeps E a b Hqv) as (Hb1 & Hb3 & Hb0).
  assert (Hlast : prayer_part (self w1) = prayer_part (self b) /\
                  quran_part (self w1) = quran_part (self b) /\
                  fixed_part (self w1) = fixed_part (self b)).
  { destruct (show_hadith (config (self b))).
    - apply (update_hadith_keeps E b w1 Hh).
    - by injection Hh as <-. }
  destruct Hlast as (Hc1 & Hc2 & Hc0).
  apply fixed_part_config in Ha0 as Hcfga.
  apply fixed_part_config in Hb0 as Hcfgb.
  apply fixed_part_config in Hc0 as Hcfgc.
  assert (Hcfg1 : config (self w1) = cfg).
  { rewrite Hcfgc, Hcfgb, Hcfga. reflexivity. }
  assert (Hpart : prayer_part (self w1) = prayer_part (self a)).
  { rewrite Hc1. exact Hb1. }
  destruct (Htwice fuel w w1 a eq_refl Hcfg1 Hpt Hpart)
    as (a' & Hpt' & Ha1' & Ha2' & Ha3' & Ha0').
  rewrite Hpt'.
  apply fixed_part_config in Ha0' as Hcfga'.
  destruct (update_quran_verse_twice E P a a' b Hprov Hqv)
    as (_ & b' & Hqv' & Hb2' & Hb1' & Hb3' & Hb0').
  { rewrite Hcfga', Hcfgc, Hcfgb. reflexivity. }
  { rewrite Ha2'. exact Hc2. }
  rewrite Hqv'. cbn [get_self].
  apply fixed_part_config in Hb0' as Hcfgb'.
  assert (Hshow : config (self b') = config (self b)).
  { rewrite Hcfgb', Hcfga', Hcfgc. reflexivity. }
  rewrite Hshow.
  assert (Hend : exists w2,
            (if show_hadith (config (self b))
             then update_hadith E else mret tt) b' = Ret tt w2 /\
            self w2 = self w1).
  { destruct (show_hadith (config (self b))).
    - destruct (update_hadith_twice E P b b' w1 Hprov Hh Hshow)
        as (w2 & Hh' & Hw3 & Hw1 & Hw2 & Hw0).
      exists w2. split; [exact Hh'|].
      apply widget_parts_eq.
      + rewrite Hw1, Hb1', Ha1', Hc1, Hb1. reflexivity.
      + rewrite Hw2, Hb2', Hc2. reflexivity.
      + exact Hw3.
      + rewrite Hw0, Hb0', Ha0'. reflexivity.
    - injection Hh as <-. exists b'. split; [reflexivity|].
      apply widget_parts_eq.
      + rewrite Hb1', Ha1', Hb1. reflexivity.
      + exact Hb2'.
      + rewrite Hb3', Ha3'. reflexivity.
      + rewrite Hb0', Ha0'. reflexivity. }
  destruct Hend as (w2 & Hend & Heq).
  exists w2. split; [exact Hh|]. split; [exact Hend|].
  split; [exact Heq|].
  intros Hfuel. destruct (Hnext Hfuel) as (Hp & Ht & Hlt & Hlabel).
  destruct (prayer_part_next _ _ Hpart) as (Hn1 & Hn2).
  assert (Hl : next_prayer_label (self w1) = next_prayer_label (self a)).
  { unfold prayer_part in Hpart. by injection Hpart. }
  eexists _, _. rewrite Heq, Hn1, Hn2, Hl.
  split; [exact Hp|]. split; [exact Ht|].
  split; [exact Hp|]. split; [exact Ht|]. split; [exact Hlt|].
  exact Hlabel.
Qed.

Lemma update_data_idempotent_witness :
  exists w1 w2,
    update_data Sample.at_noon 1 Sample.world0 = Ret tt w1 /\
    update_data Sample.at_noon 1 w1 = Ret tt w2 /\
    next_prayer (self w1) = Some "Dhuhr" /\
    next_prayer (self w2) = Some "Dhuhr" /\
    self w2 = self w1.
Proof.
  destruct (update_data_idempotent Sample.at_noon (Sample.at_ 100 12 0 0 250)
              (Sample.good_provider 0) 1 Sample.world0)
    as (w1 & w2 & Hrun & Hrun2 & Heq & Hnext).
  - intros k. reflexivity.
  - intros k r. reflexivity.
  - intros r Hurl. exists Sample.day_timings. split.
    + unfold Sample.good_provider. cbn [config self Sample.world0
        Sample.widget0] in Hurl. rewrite Hurl. reflexivity.
    + intros n Hin. apply list_elem_of_In in Hin. cbn in Hin.
      destruct Hin as [<-|[<-|[<-|[<-|[<-|[<-|[<-|[]]]]]]]];
        eexists; vm_compute; reflexivity.
  - exists w1, w2. split; [exact Hrun|]. split; [exact Hrun2|].
    assert (Hname : next_prayer (self w1) = Some "Dhuhr").
    { vm_compute in Hrun. injection Hrun as <-. reflexivity. }
    split; [exact Hname|]. split; [|exact Heq].
    rewrite Heq. exact Hname.
Defined.


(** * Further properties of the methods *)

(** ** Relations every step keeps *)

Section Respects.

Variable R : World -> World -> Prop.
Hypothesis R_refl : forall w, R w w.
Hypothesis R_trans : forall w1 w2 w3, R w1 w2 -> R w2 w3 -> R w1 w3.

Lemma respects_ret {A} (a : A) : respects R (mret a).
Proof using R_refl. intros w. apply R_refl. Qed.

Lemma respects_raise {A} : respects R (@raise A).
Proof using R_refl. intros w. apply R_refl. Qed.

Lemma respects_bind {A B} (m : M A) (f : A -> M B) :
  respects R m -> (forall a, respects R (f a)) -> respects R (m ≫= f).
Proof using R_trans.
  intros Hm Hf w. specialize (Hm w). unfold mbind, M_bind.
  destruct (m w) as [a w1|w1]; [|exact Hm].
  specialize (Hf a w1). destruct (f a w1) as [b w2|w2].
  - by apply R_trans with w1.
  - by apply R_trans with w1.
Qed.

Lemma respects_try {A} (body handler : M A) :
  respects R body -> respects R handler ->
  respects R (try_except body handler).
Proof using R_trans.
  intros Hb Hh w. specialize (Hb w). unfold try_except.
  destruct (body w) as [a w1|w1]; [exact Hb|].
  specialize (Hh w1). destruct (handler w1) as [b w2|w2].
  - by apply R_trans with w1.
  - by apply R_trans with w1.
Qed.

Lemma respects_subscript {A} (o : option A) : respects R (subscript o).
Proof using R_refl.
  destruct o; [apply respects_ret|apply respects_raise].
Qed.

Lemma respects_get_self : respects R get_self.
Proof using R_refl. intros w. apply R_refl. Qed.

Lemma respects_for_each {A} (l : list A) (body : A -> M unit) :
  (forall x, respects R (body x)) -> respects R (for_each l body).
Proof using R_refl R_trans.
  intros Hbody. induction l as [|x l IH]; [apply respects_ret|].
  cbn [for_each]. apply respects_bind; [apply Hbody|intros _; exact IH].
Qed.

Lemma respects_mapM {A B} (f : A -> M B) (l : list A) :
  (forall x, respects R (f x)) -> respects R (mapM f l).
Proof using R_refl R_trans.
  intros Hf. induction l as [|x l IH]; [apply respects_ret|].
  cbn [mapM]. apply respects_bind; [apply Hf|intros b].
  apply respects_bind; [exact IH|intros bs; apply respects_ret].
Qed.

(** The steps of the methods: a clock reading, a request, the entry of a
    refresh and the assignments to [self]. *)
Variable E : Env.

Hypothesis R_tick : forall w, R w (advance 1 w).
Hypothesis R_send : forall r w,
  R w {| self := self w; reads := reads w; sent := sent w ++ [r];
         refreshes := refreshes w |}.
Hypothesis R_note : forall w,
  R w {| self := self w; reads := reads w; sent := sent w;
         refreshes := S (refreshes w) |}.
Hypothesis R_next_prayer_label : forall v w,
  R w (with_self (set_next_prayer_label v (self w)) w).
Hypothesis R_countdown_label : forall v w,
  R w (with_self (set_countdown_label v (self w)) w).
Hypothesis R_prayer_times : forall v w,
  R w (with_self (set_prayer_times v (self w)) w).
Hypothesis R_prayer_labels : forall f k w,
  R w (with_self
         (set_prayer_labels (alter f k (prayer_labels (self w))) (self w)) w).
Hypothesis R_stored : forall p t w,
  R w (with_self (stored p t (self w)) w).

Lemma respects_clock : respects R (QDateTime_currentDateTime E).
Proof using R_tick. intros w. apply R_tick. Qed.

Lemma respects_requests_get (r : Request) : respects R (requests_get E r).
Proof using R_send.
  intros w. unfold requests_get.
  destruct (provider E (length (sent w)) r); apply R_send.
Qed.

Ltac resp :=
  repeat first
    [ apply respects_ret | apply respects_raise | apply respects_subscript
    | apply respects_get_self | apply respects_clock
    | apply respects_requests_get
    | apply respects_bind; [|intros ?]
    | apply respects_try
    | match goal with
      | |- respects _ (if ?c then _ else _) => destruct c
      | |- respects _ (match ?x with _ => _ end) => destruct x
      | |- respects _ (let '(_, _) := ?x in _) => destruct x
      end
    | assumption ].

Lemma respects_time_to_datetime (s : string) :
  respects R (time_to_datetime E s).
Proof using R_refl R_trans R_tick.
  unfold time_to_datetime, QDate_currentDate. resp.
Qed.

Lemma respects_extract (tm : gmap string string) :
  respects R (extract_prayer_times E tm).
Proof using R_refl R_trans R_tick.
  unfold extract_prayer_times. apply respects_mapM. intros name.
  apply respects_bind; [apply respects_subscript|intros s].
  apply respects_bind; [apply respects_time_to_datetime|intros t].
  apply respects_ret.
Qed.

Lemma respects_displays : respects R update_prayer_displays.
Proof using R_refl R_trans R_prayer_labels.
  unfold update_prayer_displays.
  apply respects_bind; [apply respects_get_self|intros s].
  destruct (prayer_times s) as [items|]; [|apply respects_ret].
  apply respects_for_each. intros [prayer time].
  apply respects_bind; [apply respects_get_self|intros s'].
  destruct (prayer_labels s' !! prayer); [|apply respects_ret].
  apply respects_bind; [intros w; apply R_prayer_labels|intros _].
  apply respects_bind; [apply respects_get_self|intros s''].
  apply respects_bind; [apply respects_subscript|intros np].
  intros w. apply R_prayer_labels.
Qed.

Lemma respects_failed : respects R prayer_times_failed.
Proof using R_trans R_next_prayer_label R_countdown_label.
  unfold prayer_times_failed.
  apply respects_bind; [intros w; apply R_next_prayer_label|intros _].
  intros w. apply R_countdown_label.
Qed.

Lemma respects_fetch_tomorrow : respects R (fetch_tomorrow_fajr E).
Proof using R_refl R_trans R_tick R_send R_next_prayer_label.
  unfold fetch_tomorrow_fajr, QDate_currentDate, prayer_request.
  apply respects_bind; [resp|intros today].
  apply respects_bind; [resp|intros req].
  apply respects_try.
  - apply respects_bind; [resp|intros data].
    apply respects_bind; [resp|intros c].
    destruct (c =? 200); [resp|].
    apply respects_bind; [intros w; apply R_next_prayer_label|intros _].
    apply respects_ret.
  - apply respects_bind; [intros w; apply R_next_prayer_label|intros _].
    apply respects_ret.
Qed.

Section Knot.

Variable refresh : M unit.
Hypothesis R_refresh : respects R refresh.

Lemma respects_countdown_with : respects R (update_countdown_with E refresh).
Proof using R_refl R_trans R_tick R_countdown_label R_refresh.
  unfold update_countdown_with.
  apply respects_bind; [apply respects_get_self|intros s].
  destruct (next_prayer_time s) as [t|]; [|apply respects_ret].
  apply respects_bind; [apply respects_clock|intros now].
  destruct (0 <? secsTo now t); [|exact R_refresh].
  intros w. apply R_countdown_label.
Qed.

Lemma respects_store (found : option (string * QDateTime)) :
  respects R (store_next_prayer E refresh found).
Proof using R_refl R_trans R_tick R_countdown_label R_stored R_refresh.
  destruct found as [[p t]|]; [|apply respects_ret].
  intros w.
  assert (Heq : store_next_prayer E refresh (Some (p, t)) w
                = update_countdown_with E refresh
                    (with_self (stored p t (self w)) w)) by reflexivity.
  rewrite Heq.
  pose proof (respects_countdown_with (with_self (stored p t (self w)) w))
    as Hc.
  destruct (update_countdown_with E refresh _) as [a w1|w1];
    (eapply R_trans; [apply R_stored|exact Hc]).
Qed.

Lemma respects_next_prayer_with :
  respects R (update_next_prayer_with E refresh).
Proof using All.
  unfold update_next_prayer_with.
  apply respects_bind; [apply respects_clock|intros now].
  apply respects_bind; [apply respects_get_self|intros s].
  apply respects_bind; [apply respects_subscript|intros items].
  apply respects_bind; [|intros found; apply respects_store].
  destruct (scan now items); [apply respects_ret|].
  apply respects_fetch_tomorrow.
Qed.

Lemma respects_adjust_midnight (isha_time : QDateTime) (tomorrow : Z)
    (tm : gmap string string) :
  respects R (adjust_midnight E isha_time tomorrow tm).
Proof using R_refl R_trans R_tick R_prayer_times.
  unfold adjust_midnight.
  apply respects_bind; [apply respects_subscript|intros fajr].
  apply respects_bind; [apply respects_time_to_datetime|intros tf].
  apply respects_bind; [apply respects_get_self|intros s].
  apply respects_bind; [apply respects_subscript|intros items].
  intros w. apply R_prayer_times.
Qed.

Lemma respects_prayer_times_with :
  respects R (update_prayer_times_with E refresh).
Proof using All.
  unfold update_prayer_times_with, QDate_currentDate, prayer_request.
  apply respects_bind; [intros w; apply R_note|intros _].
  apply respects_try; [|apply respects_failed].
  apply respects_bind; [resp|intros today].
  apply respects_bind; [resp|intros req].
  apply respects_bind; [resp|intros data].
  apply respects_bind; [resp|intros c].
  destruct (c =? 200).
  - apply respects_bind; [resp|intros timings].
    apply respects_bind; [apply respects_extract|intros items].
    apply respects_bind; [intros w; apply R_prayer_times|intros _].
    apply respects_bind; [resp|intros isha_time].
    apply respects_bind; [resp|intros today'].
    apply respects_bind; [resp|intros req'].
    apply respects_bind; [resp|intros tomorrow_data].
    apply respects_bind; [resp|intros c'].
    apply respects_bind.
    + destruct (c' =? 200); [|apply respects_ret].
      apply respects_bind; [resp|intros tm].
      apply respects_adjust_midnight.
    + intros _. apply respects_bind;
        [apply respects_next_prayer_with|intros _; apply respects_displays].
  - apply respects_bind; [intros w; apply R_next_prayer_label|intros _].
    intros w. apply R_countdown_label.
Qed.

End Knot.

Lemma respects_update_prayer_times (fuel : nat) :
  respects R (update_prayer_times E fuel).
Proof using All.
  induction fuel as [|n IH]; cbn [update_prayer_times];
    [|by apply respects_prayer_times_with].
  unfold update_prayer_times_at_limit.
  apply respects_bind; [intros w; apply R_note|intros _].
  apply respects_try; [|apply respects_failed].
  apply respects_bind; [apply respects_clock|intros today].
  apply respects_bind; [|intros req; apply respects_raise].
  apply respects_bind; [apply respects_get_self|intros s; apply respects_ret].
Qed.

Lemma respects_update_countdown (fuel : nat) :
  respects R (update_countdown E fuel).
Proof using All.
  apply respects_countdown_with, respects_update_prayer_times.
Qed.

Lemma respects_update_next_prayer (fuel : nat) :
  respects R (update_next_prayer E fuel).
Proof using All.
  apply respects_next_prayer_with, respects_update_prayer_times.
Qed.

End Respects.

(** ** The daily timer *)

Lemma update_data_timers (E : Env) (fuel : nat) (w : World) :
  exists w',
    update_data E fuel w = Ret tt w' /\
    daily_timer (self w') = daily_timer (self w).
Proof.
  destruct (update_data_returns E fuel w) as (w' & Hrun).
  exists w'. split; [exact Hrun|]. revert Hrun.
  unfold update_data, mbind, M_bind.
  pose proof (respects_update_prayer_times
                (fun w w' => daily_timer (self w') = daily_timer (self w))
                ltac:(done) ltac:(intros ? ? ? H1 H2; exact (eq_trans H2 H1))
                E ltac:(done) ltac:(done) ltac:(done) ltac:(done)
                ltac:(done) ltac:(done) ltac:(done) ltac:(done) fuel w) as Hp.
  destruct (update_prayer_times E fuel w) as [[] a|a]; [|discriminate].
  destruct (update_quran_verse E a) as [[] b|b] eqn:Hq; [|discriminate].
  destruct (update_quran_verse_keeps E a b Hq) as (_ & _ & Hb).
  cbn [get_self]. intros Hh.
  assert (Hc : fixed_part (self w') = fixed_part (self b)).
  { destruct (show_hadith (config (self b))).
    - apply (update_hadith_keeps E b w' Hh).
    - by injection Hh as <-. }
  unfold fixed_part in Hb, Hc.
  injection Hb as _ _ Hb. injection Hc as _ _ Hc. congruence.
Qed.

(** C7, amended.  The first shot of the daily timer comes after the whole
    seconds from the current time of day, its milliseconds dropped, to
    00:00:00, with a day added when that difference is negative.  From the
    second second of the day on this is 86400 minus the whole seconds
    gone, and the shot falls on the next midnight plus the milliseconds
    that were dropped; at 23:59:50 it is 10 seconds.  During the first
    second of the day the difference is 0, no day is added, and the timer
    fires at once.  [daily_update] re-arms the timer with 86400 seconds
    and returns, provided the timer exists; before [setup_timers] has
    created it, the call raises after the data have been updated. *)
Theorem daily_timer_delays (E : Env) (w : World) :
  let ms := time (fromMSecs (clock E (reads w))) in
  let s := ms / 1000 in
  (exists w' delay,
     setup_timers E w = Ret tt w' /\
     daily_timer (self w') = Some (delay * 1000) /\
     delay = (let naive := 0 - s in
              if naive <? 0 then naive + 24 * 60 * 60 else naive) /\
     0 <= delay < 86400 /\
     (s = 0 -> delay = 0) /\
     (0 < s ->
      delay = 86400 - s /\
      ms + delay * 1000 = MSECS_PER_DAY + ms mod 1000) /\
     (s = (23 * 60 + 59) * 60 + 50 -> delay = 10)) /\
  (forall fuel,
     is_Some (daily_timer (self w)) ->
     exists w',
       daily_update E fuel w = Ret tt w' /\
       daily_timer (self w') = Some (86400 * 1000)) /\
  (forall fuel,
     daily_timer (self w) = None ->
     exists w',
       daily_update E fuel w = Exn w' /\ daily_timer (self w') = None).
Proof.
  cbv zeta.
  set (current_time := time (fromMSecs (clock E (reads w)))).
  assert (Hrange : 0 <= current_time < MSECS_PER_DAY).
  { subst current_time. unfold fromMSecs. cbn [time].
    apply Z.mod_pos_bound. reflexivity. }
  destruct (secs_until_midnight_spec current_time Hrange)
    as (Heq & Hbound & Hmod).
  pose proof (Z.div_mod current_time 1000 ltac:(lia)) as Hdm.
  set (s := current_time / 1000) in *.
  assert (Hs : 0 <= s < 86400).
  { subst s. unfold MSECS_PER_DAY in Hrange.
    split; [apply Z.div_pos; lia|apply Z.div_lt_upper_bound; lia]. }
  clearbody s.
  split; [|split].
  - eexists _, (secs_until_midnight current_time).
    split; [apply setup_timers_run|].
    split; [reflexivity|].
    split.
    { rewrite Heq. change (24 * 60 * 60) with 86400.
      destruct (Z.eqb_spec s 0) as [Hz|Hne]; [rewrite Hz; reflexivity|].
      replace (0 - s <? 0) with true by (symmetry; apply Z.ltb_lt; lia).
      lia. }
    split; [done|].
    split; [intros ->; by rewrite Heq|].
    split.
    { intros Hpos. rewrite Heq.
      destruct (Z.eqb_spec s 0) as [Hz|Hne]; [lia|].
      unfold MSECS_PER_DAY. lia. }
    intros Hs'. rewrite Heq, Hs'. reflexivity.
  - intros fuel [d Hd]. unfold daily_update, mbind, M_bind.
    destruct (update_data_timers E fuel w) as (w1 & -> & Ht).
    cbn [get_self]. rewrite Ht, Hd. eexists. split; reflexivity.
  - intros fuel Hnone. unfold daily_update, mbind, M_bind.
    destruct (update_data_timers E fuel w) as (w1 & -> & Ht).
    cbn [get_self]. rewrite Ht, Hnone. eexists. split; [reflexivity|].
    by rewrite Ht.
Qed.

Lemma daily_timer_delays_witness :
  (exists w', setup_timers Sample.before_midnight Sample.world0 = Ret tt w' /\
              daily_timer (self w') = Some 10000) /\
  (exists w', daily_update Sample.before_midnight 1 Sample.timers_started
                = Ret tt w' /\
              daily_timer (self w') = Some 86400000).
Proof.
  destruct (daily_timer_delays Sample.before_midnight Sample.world0)
    as ((w' & delay & Hrun & Htimer & _ & _ & _ & _ & Hten) & _ & _).
  split.
  - exists w'. split; [exact Hrun|].
    rewrite Htimer, Hten; [reflexivity|vm_compute; reflexivity].
  - destruct (daily_timer_delays Sample.before_midnight Sample.timers_started)
      as (_ & Hdaily & _).
    apply (Hdaily 1%nat). by eexists.
Defined.

(** C7 as stated fails in the first second of the day: at 00:00:00.900
    the whole seconds to 00:00:00 are 0, nothing is added, and the timer
    is started with 0 ms, although the next midnight is 86399.1 s away. *)
Lemma first_second_fires_at_once :
  exists w',
    setup_timers Sample.after_midnight Sample.world0 = Ret tt w' /\
    daily_timer (self w') = Some 0 /\
    Sample.at_ 101 0 0 0 0 - clock Sample.after_midnight (reads Sample.world0)
      = 86399100.
Proof.
  eexists. split; [vm_compute; reflexivity|].
  split; vm_compute; reflexivity.
Qed.

(** X1. Whatever the clock and the provider do, a prayer refresh and a
    countdown tick that come back leave the configuration, both timers,
    the verse labels and the hadith labels as they were, and neither add
    nor remove a prayer label. *)
Theorem prayer_methods_frame (E : Env) (fuel : nat) (w w' : World) :
  update_prayer_times E fuel w = Ret tt w' \/
  update_countdown E fuel w = Ret tt w' ->
  fixed_part (self w') = fixed_part (self w) /\
  quran_part (self w') = quran_part (self w) /\
  hadith_part (self w') = hadith_part (self w) /\
  dom (prayer_labels (self w')) = dom (prayer_labels (self w)).
Proof.
  set (R := fun w w' : World =>
    fixed_part (self w') = fixed_part (self w) /\
    quran_part (self w') = quran_part (self w) /\
    hadith_part (self w') = hadith_part (self w) /\
    dom (prayer_labels (self w')) = dom (prayer_labels (self w))).
  assert (Hrefl : forall v, R v v) by done.
  assert (Htrans : forall a b c, R a b -> R b c -> R a c).
  { intros a b c (H1 & H2 & H3 & H4) (H5 & H6 & H7 & H8).
    unfold R. by rewrite H5, H6, H7, H8. }
  assert (Hlabels : forall f k v,
            R v (with_self
                   (set_prayer_labels (alter f k (prayer_labels (self v)))
                      (self v)) v)).
  { intros f k v. unfold R. cbn. do 3 (split; [done|]). apply dom_alter_L. }
  intros [Hrun|Hrun].
  - pose proof (respects_update_prayer_times R Hrefl Htrans E
                  ltac:(done) ltac:(done) ltac:(done) ltac:(done)
                  ltac:(done) ltac:(done) Hlabels ltac:(done) fuel w) as H.
    by rewrite Hrun in H.
  - pose proof (respects_update_countdown R Hrefl Htrans E
                  ltac:(done) ltac:(done) ltac:(done) ltac:(done)
                  ltac:(done) ltac:(done) Hlabels ltac:(done) fuel w) as H.
    by rewrite Hrun in H.
Qed.

Lemma prayer_methods_frame_witness :
  exists w',
    update_prayer_times Sample.at_noon 1 Sample.world0 = Ret tt w' /\
    fixed_part (self w') = fixed_part (self Sample.world0) /\
    quran_arabic (self w') = "Loading verse...".
Proof.
  destruct (update_prayer_times Sample.at_noon 1 Sample.world0)
    as [[] w'|w'] eqn:Hrun; [|vm_compute in Hrun; discriminate].
  exists w'. split; [reflexivity|].
  destruct (prayer_methods_frame Sample.at_noon 1 Sample.world0 w'
              (or_introl Hrun)) as (Hf & Hq & _ & _).
  split; [exact Hf|].
  unfold quran_part in Hq. by injection Hq as -> _ _.
Defined.

(** X2. The name and the timestamp of the next prayer are assigned
    together and never removed: if both or neither were set before a
    refresh or a tick, the same holds after it, and a timestamp that was
    set is still set, also when the run ends in an error label. *)
Theorem next_prayer_never_unset (E : Env) (fuel : nat) (w w' : World) :
  update_prayer_times E fuel w = Ret tt w' \/
  update_countdown E fuel w = Ret tt w' ->
  ((is_Some (next_prayer (self w)) <-> is_Some (next_prayer_time (self w))) ->
   (is_Some (next_prayer (self w')) <-> is_Some (next_prayer_time (self w'))))
  /\
  (is_Some (next_prayer_time (self w)) ->
   is_Some (next_prayer_time (self w'))).
Proof.
  set (R := fun w w' : World =>
    ((is_Some (next_prayer (self w)) <-> is_Some (next_prayer_time (self w)))
     -> (is_Some (next_prayer (self w'))
         <-> is_Some (next_prayer_time (self w')))) /\
    (is_Some (next_prayer_time (self w)) ->
     is_Some (next_prayer_time (self w')))).
  assert (Hrefl : forall v, R v v) by done.
  assert (Htrans : forall a b c, R a b -> R b c -> R a c).
  { intros a b c [H1 H2] [H3 H4]. split; auto. }
  assert (Hstored : forall p t v, R v (with_self (stored p t (self v)) v)).
  { intros p t v. unfold R. cbn. split; intros _; [split|]; eauto. }
  intros [Hrun|Hrun].
  - pose proof (respects_update_prayer_times R Hrefl Htrans E
                  ltac:(done) ltac:(done) ltac:(done) ltac:(done)
                  ltac:(done) ltac:(done) ltac:(done) Hstored fuel w) as H.
    by rewrite Hrun in H.
  - pose proof (respects_update_countdown R Hrefl Htrans E
                  ltac:(done) ltac:(done) ltac:(done) ltac:(done)
                  ltac:(done) ltac:(done) ltac:(done) Hstored fuel w) as H.
    by rewrite Hrun in H.
Qed.

Lemma next_prayer_never_unset_witness :
  exists w',
    update_countdown Sample.down_after_dhuhr 1 Sample.dhuhr_stored
      = Ret tt w' /\
    next_prayer_label (self w') = "Prayer API Error: Try again later" /\
    is_Some (next_prayer_time (self w')).
Proof.
  destruct (update_countdown Sample.down_after_dhuhr 1 Sample.dhuhr_stored)
    as [[] w'|w'] eqn:Hrun; [|vm_compute in Hrun; discriminate].
  exists w'. split; [reflexivity|].
  destruct (next_prayer_never_unset Sample.down_after_dhuhr 1
              Sample.dhuhr_stored w' (or_intror Hrun)) as [_ Hkeep].
  split; [|apply Hkeep; by eexists].
  vm_compute in Hrun. by injection Hrun as <-.
Defined.

(** ** The scan: ties *)

Lemma first_earliest_step now seen acc item :
  first_earliest now seen acc ->
  first_earliest now (seen ++ [item]) (scan_step now acc item).
Proof.
  destruct item as [prayer time]. unfold scan_step.
  destruct (QDateTime_gt time now) eqn:Hgt.
  - apply QDateTime_gt_spec in Hgt.
    destruct acc as [[p t]|]; simpl.
    + intros (Hlt & before & after & -> & Hb & Ha).
      destruct (QDateTime_lt time t) eqn:Hlt'.
      * apply QDateTime_lt_spec in Hlt'. simpl. split; [done|].
        exists (before ++ (p, t) :: after), []. split; [done|].
        split; [|intros q u Hin; by apply elem_of_nil in Hin].
        intros q u [Hq|Hq]%elem_of_app Hu.
        -- specialize (Hb q u Hq Hu). lia.
        -- apply elem_of_cons in Hq as [[= -> ->]|Hq]; [lia|].
           specialize (Ha q u Hq Hu). lia.
      * assert (toMSecs t <= toMSecs time).
        { destruct (Z.ltb_spec (toMSecs time) (toMSecs t)); [|done].
          apply QDateTime_lt_spec in H. congruence. }
        simpl. split; [done|].
        exists before, (after ++ [(prayer, time)]).
        split; [by rewrite <- app_assoc|]. split; [exact Hb|].
        intros q u [Hq|Hq]%elem_of_app Hu; [by apply Ha with q|].
        apply list_elem_of_singleton in Hq. by injection Hq as -> ->.
    + intros Hnone. split; [done|]. exists seen, [].
      split; [done|]. split; [|intros q u Hin; by apply elem_of_nil in Hin].
      intros q u Hq Hu. specialize (Hnone q u Hq). lia.
  - assert (toMSecs time <= toMSecs now).
    { destruct (Z.ltb_spec (toMSecs now) (toMSecs time)); [|done].
      apply QDateTime_gt_spec in H. congruence. }
    destruct acc as [[p t]|]; simpl.
    + intros (Hlt & before & after & -> & Hb & Ha). split; [done|].
      exists before, (after ++ [(prayer, time)]).
      split; [by rewrite <- app_assoc|]. split; [exact Hb|].
      intros q u [Hq|Hq]%elem_of_app Hu; [by apply Ha with q|].
      apply list_elem_of_singleton in Hq. injection Hq as -> ->. lia.
    + intros Hnone q u [Hq|Hq]%elem_of_app; [by apply Hnone with q|].
      apply list_elem_of_singleton in Hq. by injection Hq as -> ->.
Qed.

Lemma first_earliest_fold now items : forall seen acc,
  first_earliest now seen acc ->
  first_earliest now (seen ++ items) (fold_left (scan_step now) items acc).
Proof.
  induction items as [|item items IH]; intros seen acc Hacc; simpl.
  - by rewrite app_nil_r.
  - replace (seen ++ item :: items) with ((seen ++ [item]) ++ items)
      by (by rewrite <- app_assoc).
    apply IH. by apply first_earliest_step.
Qed.

(** X3. Among the entries that share the earliest timestamp later than
    [now], the scan of [update_next_prayer] keeps the one that comes first
    in the dict: every entry before the selected one is past or strictly
    later, every entry after it is past or not earlier. *)
Theorem scan_first_of_ties (now : QDateTime)
    (items : list (string * QDateTime)) (p : string) (t : QDateTime) :
  scan now items = Some (p, t) ->
  toMSecs now < toMSecs t /\
  exists before after,
    items = before ++ (p, t) :: after /\
    (forall q u, (q, u) ∈ before -> toMSecs now < toMSecs u ->
                 toMSecs t < toMSecs u) /\
    (forall q u, (q, u) ∈ after -> toMSecs now < toMSecs u ->
                 toMSecs t <= toMSecs u).
Proof.
  intros Hscan.
  pose proof (first_earliest_fold now items [] None) as H.
  fold (scan now items) in H. rewrite Hscan in H. apply H.
  intros q u Hin. by apply elem_of_nil in Hin.
Qed.

Lemma scan_first_of_ties_witness :
  exists before after,
    [("Asr", mkQDateTime 100 59400000); ("Maghrib", mkQDateTime 100 59400000)]
      = before ++ ("Asr", mkQDateTime 100 59400000) :: after /\
    forall q u, (q, u) ∈ before ->
                toMSecs (mkQDateTime 100 59400000) < toMSecs u.
Proof.
  destruct (scan_first_of_ties (mkQDateTime 100 0)
              [("Asr", mkQDateTime 100 59400000);
               ("Maghrib", mkQDateTime 100 59400000)]
              "Asr" (mkQDateTime 100 59400000))
    as (_ & before & after & Heq & Hb & _); [vm_compute; reflexivity|].
  exists before, after. split; [exact Heq|].
  intros q u Hin. apply (Hb q u Hin).
  assert (Hu : (q, u) ∈ [("Asr", mkQDateTime 100 59400000);
                         ("Maghrib", mkQDateTime 100 59400000)]).
  { rewrite Heq. apply elem_of_app. by left. }
  apply elem_of_cons in Hu as [[= -> ->]|Hu]; [vm_compute; reflexivity|].
  apply list_elem_of_singleton in Hu. injection Hu as -> ->.
  vm_compute. reflexivity.
Defined.

(** ** Clock strings on the labels *)

Lemma toString_hhmm_minutes (d h m : Z) :
  0 <= h < 24 -> 0 <= m < 60 ->
  toString_hhmm (mkQDateTime d ((h * 60 + m) * 60000)) = clock_string h m.
Proof.
  intros Hh Hm. unfold toString_hhmm, clock_string. cbn [time].
  replace ((h * 60 + m) * 60000 / 3600000) with h
    by (apply (Z.div_unique _ _ h (m * 60000)); lia).
  replace ((h * 60 + m) * 60000 / 60000) with (h * 60 + m)
    by (apply (Z.div_unique _ _ (h * 60 + m) 0); lia).
  replace ((h * 60 + m) mod 60) with m
    by (apply (Z.mod_unique _ _ h m); lia).
  reflexivity.
Qed.

(** X4. A provider time "HH:mm" that [time_to_datetime] has parsed is
    written back by [toString('hh:mm')] as the same five characters: the
    label of an entry that was not recomputed shows the provider's
    string. *)
Theorem time_to_datetime_toString (E : Env) (w : World) (h m : Z) :
  0 <= h < 24 -> 0 <= m < 60 ->
  exists dt,
    time_to_datetime E (clock_string h m) w = Ret dt (advance 1 w) /\
    toString_hhmm dt = clock_string h m.
Proof.
  intros Hh Hm. exists (parsed E w 0 (clock_string h m)).
  split; [apply time_to_datetime_run|].
  unfold parsed. rewrite (QTime_fromString_clock_string h m Hh Hm).
  rewrite QDateTime_make_valid by (unfold MSECS_PER_DAY; lia).
  by apply toString_hhmm_minutes.
Qed.

Lemma time_to_datetime_toString_witness :
  exists dt,
    time_to_datetime Sample.at_noon "16:30" Sample.world0
      = Ret dt (advance 1 Sample.world0) /\
    toString_hhmm dt = "16:30".
Proof.
  destruct (time_to_datetime_toString Sample.at_noon Sample.world0 16 30)
    as (dt & Hrun & Hstr); [lia|lia|].
  exists dt. split; [exact Hrun|exact Hstr].
Defined.

(** ** When a tick refreshes *)

Lemma quot_1000_pos (x : Z) :
  (0 <? Z.quot x 1000) = (1000 <=? x) /\
  (1000 <= x -> Z.quot x 1000 = x / 1000).
Proof.
  destruct (Z.le_gt_cases 0 x) as [Hx|Hx].
  - rewrite Z.quot_div_nonneg by lia. split; [|done].
    destruct (Z.leb_spec 1000 x) as [Hb|Hb].
    + apply Z.ltb_lt. apply Z.div_str_pos. lia.
    + rewrite Z.div_small by lia. reflexivity.
  - split; [|lia].
    replace (1000 <=? x) with false by (symmetry; apply Z.leb_gt; lia).
    apply Z.ltb_ge.
    replace x with (- - x) by lia. rewrite Z.quot_opp_l by lia.
    pose proof (Z.quot_pos (- x) 1000 ltac:(lia) ltac:(lia)). lia.
Qed.

(** X5. A countdown tick with a next prayer stored shows the whole
    seconds that are left when the timestamp is at least 1000 ms ahead of
    the clock, and enters [update_prayer_times] otherwise: also when the
    prayer is still up to 999 ms ahead. *)
Theorem update_countdown_threshold (E : Env) (fuel : nat) (w : World)
    (t : QDateTime) :
  next_prayer_time (self w) = Some t ->
  let ahead := toMSecs t - clock E (reads w) in
  update_countdown E fuel w =
    if 1000 <=? ahead
    then Ret tt (with_self
                   (set_countdown_label
                      ("Time Remaining: " +:+ countdown_text (ahead / 1000))
                      (self w))
                   (advance 1 w))
    else update_prayer_times E fuel (advance 1 w).
Proof.
  intros Ht ahead. unfold update_countdown.
  rewrite (update_countdown_with_run E _ w t Ht). cbv zeta.
  unfold secsTo. rewrite toMSecs_fromMSecs. fold ahead.
  destruct (quot_1000_pos ahead) as [Hb Hq]. rewrite Hb.
  destruct (Z.leb_spec 1000 ahead) as [Hge|Hlt]; [|reflexivity].
  by rewrite Hq.
Qed.

Lemma update_countdown_threshold_witness :
  update_countdown Sample.down_after_dhuhr 1 Sample.dhuhr_stored
  = update_prayer_times Sample.down_after_dhuhr 1
      (advance 1 Sample.dhuhr_stored).
Proof.
  exact (update_countdown_threshold Sample.down_after_dhuhr 1
           Sample.dhuhr_stored (mkQDateTime 100 46800000) eq_refl).
Defined.

(** ** Tomorrow's Fajr *)

(** X6. What the fetch of tomorrow's Fajr hands over is named
    "Fajr (Tomorrow)", lies on the day after the clock reading the fetch
    makes, strictly after that reading and less than 48 hours after it. *)
Theorem fetch_tomorrow_fajr_ahead (E : Env) (w w' : World) (p : string)
    (t : QDateTime) :
  fetch_tomorrow_fajr E w = Ret (Some (p, t)) w' ->
  let now := clock E (reads w) in
  p = "Fajr (Tomorrow)" /\
  date t = date (fromMSecs now) + 1 /\
  now < toMSecs t /\
  toMSecs t - now < 2 * MSECS_PER_DAY.
Proof.
  intros Hrun now. revert Hrun.
  unfold fetch_tomorrow_fajr, requests_get. run. fold now.
  assert (Hmade : forall s,
    let dt := QDateTime_make (addDays (date (fromMSecs now)) 1)
                (QTime_fromString s) in
    date dt = date (fromMSecs now) + 1 /\ now < toMSecs dt /\
    toMSecs dt - now < 2 * MSECS_PER_DAY).
  { intros s. cbv zeta. unfold addDays.
    destruct (parsed_time (date (fromMSecs now) + 1) s) as (k & Hk & ->).
    unfold toMSecs, fromMSecs, MSECS_PER_DAY. cbn [date time].
    pose proof (Z.div_mod now 86400000 ltac:(lia)).
    pose proof (Z.mod_pos_bound now 86400000 ltac:(lia)). lia. }
  destruct (provider E _ _) as [|c tm|c ? ? ? ?|c ?|?]; cbn; try discriminate.
  - destruct (c =? 200); cbn; [|discriminate].
    destruct (tm !! "Fajr") as [s|]; cbn; [|discriminate].
    intros [= <- <- _]. split; [reflexivity|]. apply Hmade.
  - destruct (c =? 200); cbn; discriminate.
  - destruct (c =? 200); cbn; discriminate.
Qed.

Lemma fetch_tomorrow_fajr_ahead_witness :
  exists t w',
    fetch_tomorrow_fajr Sample.at_evening Sample.world0
      = Ret (Some ("Fajr (Tomorrow)", t)) w' /\
    toMSecs t - Sample.at_ 100 21 0 0 250 < 2 * MSECS_PER_DAY.
Proof.
  eexists _, _. split; [vm_compute; reflexivity|].
  refine (proj2 (proj2 (proj2
            (fetch_tomorrow_fajr_ahead Sample.at_evening Sample.world0 _
               "Fajr (Tomorrow)" _ _)))).
  vm_compute. reflexivity.
Defined.

(** ** The midpoint *)

Lemma dict_get_set {V} (k : string) (v : V) (d : list (string * V)) :
  dict_get (dict_set k v d) k = Some v.
Proof.
  induction d as [|[k' v'] d IH]; unfold dict_set; fold (@dict_set V);
    cbn [dict_get].
  - by rewrite String.eqb_refl.
  - destruct (String.eqb k k') eqn:Hk; cbn [dict_get]; rewrite Hk; [done|].
    exact IH.
Qed.

(** X7. The Midnight that the recomputation stores is the exact midpoint
    of Isha and tomorrow's Fajr: both are whole minutes, so halving the
    whole seconds between them loses nothing; when Isha is before that
    Fajr, Midnight lies strictly between the two, after Isha. *)
Theorem adjust_midnight_midpoint (E : Env) (w : World) (d tomorrow : Z)
    (isha fajr : string) (tm : gmap string string)
    (items : list (string * QDateTime)) :
  prayer_times (self w) = Some items ->
  tm !! "Fajr" = Some fajr ->
  let isha_time := QDateTime_make d (QTime_fromString isha) in
  let tomorrow_fajr := QDateTime_make tomorrow (QTime_fromString fajr) in
  exists mid,
    adjust_midnight E isha_time tomorrow tm w =
      Ret tt (with_self
                (set_prayer_times (Some (dict_set "Midnight" mid items))
                   (self w))
                (advance 1 w)) /\
    dict_get (dict_set "Midnight" mid items) "Midnight" = Some mid /\
    2 * toMSecs mid = toMSecs isha_time + toMSecs tomorrow_fajr /\
    (toMSecs isha_time < toMSecs tomorrow_fajr ->
     toMSecs isha_time < toMSecs mid < toMSecs tomorrow_fajr).
Proof.
  intros Hitems Hfajr isha_time tomorrow_fajr.
  set (mid := addSecs isha_time (secsTo isha_time tomorrow_fajr / 2)).
  exists mid. split.
  { unfold adjust_midnight. rewrite Hfajr. run. run. rewrite Hitems. cbn.
    rewrite QDateTime_make_time. reflexivity. }
  split; [apply dict_get_set|].
  assert (Hmid : 2 * toMSecs mid = toMSecs isha_time + toMSecs tomorrow_fajr).
  { subst mid. rewrite toMSecs_addSecs. unfold secsTo.
    subst isha_time tomorrow_fajr.
    destruct (parsed_time d isha) as (k & _ & ->).
    destruct (parsed_time tomorrow fajr) as (k' & _ & ->).
    unfold toMSecs, MSECS_PER_DAY. cbn [date time].
    replace (tomorrow * 86400000 + k' * 60000 - (d * 86400000 + k * 60000))
      with ((((tomorrow - d) * 1440 + (k' - k)) * 60) * 1000) by lia.
    rewrite Z.quot_mul by lia.
    replace (((tomorrow - d) * 1440 + (k' - k)) * 60)
      with (((tomorrow - d) * 1440 + (k' - k)) * 30 * 2) by lia.
    rewrite Z.div_mul by lia. lia. }
  split; [exact Hmid|]. lia.
Qed.

Lemma adjust_midnight_midpoint_witness :
  exists mid w',
    adjust_midnight Sample.at_noon (mkQDateTime 100 72000000) 101
      Sample.day_timings (Sample.world_with (Sample.raw_items 100))
      = Ret tt w' /\
    dict_get (default [] (prayer_times (self w'))) "Midnight" = Some mid /\
    2 * toMSecs mid
      = toMSecs (mkQDateTime 100 72000000) + toMSecs (mkQDateTime 101 18000000).
Proof.
  destruct (adjust_midnight_midpoint Sample.at_noon
              (Sample.world_with (Sample.raw_items 100)) 100 101
              "20:00" "05:00" Sample.day_timings (Sample.raw_items 100)
              eq_refl eq_refl) as (mid & Hrun & Hget & Hmid & _).
  exists mid. eexists. split; [exact Hrun|]. split; [exact Hget|exact Hmid].
Defined.

(** ** The fetch that fails *)

(** X8. When no stored time is later than [now] and the fetch of
    tomorrow's Fajr does not come back with code 200 and a Fajr entry,
    [update_next_prayer] returns at once, whatever the nesting left:
    it has sent the one request and written the next-prayer label, and
    nothing else of the widget; the stored next prayer and the countdown
    label stay what they were.  The label tells a code other than 200 from
    every other failure. *)
Theorem update_next_prayer_fetch_fails (E : Env) (fuel : nat) (w : World)
    (items : list (string * QDateTime)) (data : Response) :
  prayer_times (self w) = Some items ->
  scan (fromMSecs (clock E (reads w))) items = None ->
  let req := prayer_params (config (self w)) false
               (addDays (date (fromMSecs (clock E (S (reads w))))) 1) in
  provider E (length (sent w)) req = data ->
  (forall tm, data = Timings 200 tm -> tm !! "Fajr" = None) ->
  let msg := match data, response_code data with
             | ConnectionError, _ | _, None =>
                 "Error fetching tomorrow's prayer times"
             | _, Some c =>
                 if c =? 200 then "Error fetching tomorrow's prayer times"
                 else "Could not fetch tomorrow's prayer times"
             end in
  update_next_prayer E fuel w =
    Ret tt {| self := set_next_prayer_label msg (self w);
              reads := 2 + reads w;
              sent := sent w ++ [req];
              refreshes := refreshes w |}.
Proof.
  intros Hitems Hscan req Hdata Hnot msg.
  rewrite (update_next_prayer_fallback E fuel w items Hitems Hscan).
  unfold fetch_tomorrow_fajr, requests_get. run. fold req. rewrite Hdata.
  subst msg.
  destruct data as [|c tm|c ? ? ? ?|c ?|?]; cbn; try reflexivity.
  - destruct (c =? 200) eqn:Hc; cbn; [|reflexivity].
    apply Z.eqb_eq in Hc as ->. rewrite (Hnot tm eq_refl). reflexivity.
  - destruct (c =? 200); reflexivity.
  - destruct (c =? 200); reflexivity.
Qed.

Lemma update_next_prayer_fetch_fails_witness :
  exists w',
    update_next_prayer Sample.down_at_night 0
      (Sample.world_with (Sample.raw_items 100)) = Ret tt w' /\
    next_prayer_label (self w') = "Could not fetch tomorrow's prayer times".
Proof.
  eexists. split.
  - apply (update_next_prayer_fetch_fails Sample.down_at_night 0
             (Sample.world_with (Sample.raw_items 100))
             (Sample.raw_items 100) (Timings 500 ∅));
      [reflexivity|vm_compute; reflexivity|vm_compute; reflexivity|
       discriminate].
  - reflexivity.
Defined.

(** ** The refresh that raises *)

Lemma extract_prayer_times_raises (E : Env) (tm : gmap string string)
    (w : World) (name : string) :
  name ∈ prayer_names -> tm !! name = None ->
  exists w',
    extract_prayer_times E tm w = Exn w' /\
    self w' = self w /\ sent w' = sent w /\ refreshes w' = refreshes w.
Proof.
  intros Hin Hnone.
  assert (Hsome : forall s, tm !! name = Some s -> False) by
    (intros s Hs; rewrite Hs in Hnone; discriminate).
  unfold extract_prayer_times, prayer_names. cbn. run.
  destruct (tm !! "Fajr") as [fajr|] eqn:H1; cbn; [|by eexists].
  destruct (tm !! "Sunrise") as [sunrise|] eqn:H2; cbn; [|by eexists].
  destruct (tm !! "Dhuhr") as [dhuhr|] eqn:H3; cbn; [|by eexists].
  destruct (tm !! "Asr") as [asr|] eqn:H4; cbn; [|by eexists].
  destruct (tm !! "Maghrib") as [maghrib|] eqn:H5; cbn; [|by eexists].
  destruct (tm !! "Isha") as [isha|] eqn:H6; cbn; [|by eexists].
  destruct (tm !! "Midnight") as [midnight|] eqn:H7; cbn; [|by eexists].
  exfalso. unfold prayer_names in Hin.
  repeat (apply elem_of_cons in Hin as [->|Hin]; [by eauto|]).
  by apply elem_of_nil in Hin.
Qed.

(** X9. When the request for today's times raises, or its answer has
    code 200 but lacks one of the seven names, [update_prayer_times]
    returns with the error text and "--:--:--" on the two labels and has
    sent that one request: the dict of prayer times, the next prayer and
    its timestamp, and the seven time labels are what they were. *)
Theorem update_prayer_times_raises (E : Env) (fuel : nat) (w : World)
    (data : Response) :
  let req := prayer_params (config (self w)) true
               (date (fromMSecs (clock E (reads w)))) in
  provider E (length (sent w)) req = data ->
  (data = ConnectionError \/
   exists tm name, data = Timings 200 tm /\ name ∈ prayer_names /\
                   tm !! name = None) ->
  exists w',
    update_prayer_times E (S fuel) w = Ret tt w' /\
    self w' = set_countdown_label "--:--:--"
                (set_next_prayer_label "Error: Could not update prayer times"
                   (self w)) /\
    sent w' = sent w ++ [req] /\
    refreshes w' = S (refreshes w).
Proof.
  intros req Hdata Hcase.
  unfold update_prayer_times; fold update_prayer_times.
  unfold update_prayer_times_with, requests_get, prayer_times_failed. run.
  fold req. rewrite Hdata.
  destruct Hcase as [->|(tm & name & -> & Hin & Hnone)]; cbn.
  - by eexists.
  - match goal with
    | |- context [extract_prayer_times E tm ?w0] =>
        destruct (extract_prayer_times_raises E tm w0 name Hin Hnone)
          as (w1 & -> & Hself & Hsent & Hrefr)
    end.
    eexists. split; [reflexivity|]. cbn. rewrite Hself, Hsent, Hrefr. by cbn.
Qed.

Lemma update_prayer_times_raises_witness :
  exists w',
    update_prayer_times Sample.offline_at_noon 1
      (Sample.world_with (Sample.raw_items 100)) = Ret tt w' /\
    prayer_times (self w') = Some (Sample.raw_items 100) /\
    countdown_label (self w') = "--:--:--".
Proof.
  destruct (update_prayer_times_raises Sample.offline_at_noon 0
              (Sample.world_with (Sample.raw_items 100)) ConnectionError)
    as (w' & Hrun & Hself & _); [vm_compute; reflexivity|by left|].
  exists w'. split; [exact Hrun|]. rewrite Hself. by split.
Defined.

(** ** The time labels *)

(** X10. [update_prayer_displays] reads [self.next_prayer] only after it
    has written the time of the first entry that has a label: while no
    next prayer has ever been stored it raises there, with that one text
    written and the style sheets untouched. *)
Theorem update_prayer_displays_unset (w : World)
    (skipped rest : list (string * QDateTime)) (p : string) (t : QDateTime) :
  prayer_times (self w) = Some (skipped ++ (p, t) :: rest) ->
  (forall q u, (q, u) ∈ skipped -> prayer_labels (self w) !! q = None) ->
  is_Some (prayer_labels (self w) !! p) ->
  next_prayer (self w) = None ->
  update_prayer_displays w =
    Exn (with_self
           (set_prayer_labels
              (alter (setText (toString_hhmm t)) p (prayer_labels (self w)))
              (self w)) w).
Proof.
  intros Hitems Hskip [l Hl] Hnone.
  unfold update_prayer_displays. run. rewrite Hitems.
  clear Hitems. induction skipped as [|[q u] skipped IH].
  - cbn. run. rewrite Hl. cbn. rewrite Hnone. destruct w; reflexivity.
  - cbn. run. rewrite (Hskip q u) by (by left). cbn.
    apply IH. intros q' u' Hin. apply (Hskip q' u'). by right.
Qed.

Lemma update_prayer_displays_unset_witness :
  exists w',
    update_prayer_displays (Sample.world_with (Sample.raw_items 100))
      = Exn w' /\
    text <$> prayer_labels (self w') !! "Fajr" = Some "05:00" /\
    text <$> prayer_labels (self w') !! "Sunrise" = Some "--:--".
Proof.
  eexists. split.
  - apply (update_prayer_displays_unset
             (Sample.world_with (Sample.raw_items 100)) []
             (tail (Sample.raw_items 100)) "Fajr" (mkQDateTime 100 18000000));
      [reflexivity|intros q u Hin; by apply elem_of_nil in Hin|
       vm_compute; eauto|reflexivity].
  - split; vm_compute; reflexivity.
Defined.

Lemma fold_label_nodup (np k : string) (items : list (string * QDateTime)) :
  NoDup items.*1 ->
  forall l,
    fold_left (fun (o : option QLabel) (item : string * QDateTime) =>
                 if String.eqb (fst item) k
                 then (fun l => {| text := toString_hhmm (snd item);
                                   styleSheet :=
                                     if String.eqb (fst item) np
                                     then "font-weight: bold; color: #2196F3;"
                                     else "" |}) <$> o
                 else o) items (Some l) =
    Some (match dict_get items k with
          | Some t => {| text := toString_hhmm t;
                         styleSheet :=
                           if String.eqb k np
                           then "font-weight: bold; color: #2196F3;"
                           else "" |}
          | None => l
          end).
Proof.
  induction items as [|[q u] items IH]; intros Hnd l; [reflexivity|].
  apply NoDup_cons in Hnd as [Hq Hnd]. cbn [fold_left dict_get fst snd].
  rewrite (String.eqb_sym k q).
  destruct (String.eqb q k) eqn:Hk; [|by apply IH].
  apply String.eqb_eq in Hk as ->. cbn [fmap option_fmap option_map].
  rewrite (IH Hnd).
  replace (dict_get items k) with (@None QDateTime); [reflexivity|].
  symmetry. clear -Hq. induction items as [|[q' u'] items IH]; [done|].
  cbn [dict_get]. cbn in Hq. apply not_elem_of_cons in Hq as [Hne Hq].
  destruct (String.eqb k q') eqn:Hk; [by apply String.eqb_eq in Hk|].
  by apply IH.
Qed.

(** X11. With a next prayer stored, [update_prayer_displays] returns and
    changes the time labels only: a label whose name is a key of the dict
    shows the entry's time as hh:mm and is highlighted exactly when the
    name is the stored next prayer; every other label, and the set of
    labels, stay as they were. *)
Theorem update_prayer_displays_labels (w : World)
    (items : list (string * QDateTime)) (np : string) :
  prayer_times (self w) = Some items ->
  next_prayer (self w) = Some np ->
  NoDup items.*1 ->
  exists labels',
    update_prayer_displays w =
      Ret tt (with_self (set_prayer_labels labels' (self w)) w) /\
    forall k,
      labels' !! k =
        (fun l =>
           match dict_get items k with
           | Some t => {| text := toString_hhmm t;
                          styleSheet :=
                            if String.eqb k np
                            then "font-weight: bold; color: #2196F3;"
                            else "" |}
           | None => l
           end) <$> prayer_labels (self w) !! k.
Proof.
  intros Hitems Hnp Hnd.
  exists (paint items np (prayer_labels (self w))).
  split; [by apply update_prayer_displays_run|].
  intros k. rewrite paint_lookup.
  destruct (prayer_labels (self w) !! k) as [l|].
  - by rewrite fold_label_nodup.
  - apply (fold_label_shape np k items).
Qed.

Lemma update_prayer_displays_labels_witness :
  exists w',
    update_prayer_displays Sample.dhuhr_stored = Ret tt w' /\
    prayer_labels (self w') !! "Dhuhr" =
      Some {| text := "13:00";
              styleSheet := "font-weight: bold; color: #2196F3;" |} /\
    prayer_labels (self w') !! "Asr" =
      Some {| text := "16:30"; styleSheet := "" |}.
Proof.
  destruct (update_prayer_displays_labels Sample.dhuhr_stored
              (default [] (prayer_times (self Sample.dhuhr_stored))) "Dhuhr")
    as (labels' & Hrun & Hlabels);
    [reflexivity|reflexivity|
     apply (bool_decide_unpack _); vm_compute; reflexivity|].
  eexists. split; [exact Hrun|].
  cbn [self with_self prayer_labels set_prayer_labels].
  rewrite !Hlabels. split; vm_compute; reflexivity.
Defined.

(** ** The verse labels *)

(** X12. [update_quran_verse] returns whatever the provider does, and
    its labels do not mix two fetches silently: either the reference keeps
    naming the verse it named before and the translation label carries one
    of the three error texts, or both requests were answered with code
    200, the second one asked for the number of the verse the first one
    gave, the reference names that verse, and the Arabic and translation
    labels show its texts where the configuration enables them and are
    left alone where it does not. *)
Theorem update_quran_verse_outcome (E : Env) (w : World) :
  let first := {| url := quran_api (config (self w)); params := None |} in
  exists w',
    update_quran_verse E w = Ret tt w' /\
    ((verse_reference (self w') = verse_reference (self w) /\
      quran_translation (self w') ∈
        ["Could not load translation"; "API error";
         "Please check your internet connection"])
     \/
     exists arabic name n num t,
       let second :=
         {| url := "https://api.alquran.cloud/v1/ayah/" +:+ str num
                     +:+ "/en.sahih";
            params := None |} in
       provider E (length (sent w)) first = Verse 200 arabic name n num /\
       (provider E (S (length (sent w))) second = Translation 200 t \/
        exists name' n' num',
          provider E (S (length (sent w))) second = Verse 200 t name' n' num')
       /\
       sent w' = sent w ++ [first; second] /\
       verse_reference (self w') =
         "Surah " +:+ name +:+ " (" +:+ str n +:+ ")" /\
       quran_arabic (self w') =
         (if show_arabic (config (self w)) then arabic
          else quran_arabic (self w)) /\
       quran_translation (self w') =
         (if show_translation (config (self w)) then t
          else quran_translation (self w))).
Proof.
  intros first.
  assert (Herr : forall w',
    verse_reference (self w') = verse_reference (self w) ->
    quran_translation (self w') ∈
      ["Could not load translation"; "API error";
       "Please check your internet connection"] ->
    exists w0, Ret tt w' = Ret tt w0 /\
      ((verse_reference (self w0) = verse_reference (self w) /\
        quran_translation (self w0) ∈
          ["Could not load translation"; "API error";
           "Please check your internet connection"]) \/
       exists arabic name n num t,
         let second :=
           {| url := "https://api.alquran.cloud/v1/ayah/" +:+ str num
                       +:+ "/en.sahih";
              params := None |} in
         provider E (length (sent w)) first = Verse 200 arabic name n num /\
         (provider E (S (length (sent w))) second = Translation 200 t \/
          exists name' n' num',
            provider E (S (length (sent w))) second
              = Verse 200 t name' n' num') /\
         sent w0 = sent w ++ [first; second] /\
         verse_reference (self w0) =
           "Surah " +:+ name +:+ " (" +:+ str n +:+ ")" /\
         quran_arabic (self w0) =
           (if show_arabic (config (self w)) then arabic
            else quran_arabic (self w)) /\
         quran_translation (self w0) =
           (if show_translation (config (self w)) then t
            else quran_translation (self w)))).
  { intros w' Href Htr. exists w'. split; [reflexivity|]. left. by split. }
  assert (H1 : "Could not load translation" ∈
                 ["Could not load translation"; "API error";
                  "Please check your internet connection"]) by (by left).
  assert (H2 : "API error" ∈
                 ["Could not load translation"; "API error";
                  "Please check your internet connection"])
    by (right; by left).
  assert (H3 : "Please check your internet connection" ∈
                 ["Could not load translation"; "API error";
                  "Please check your internet connection"])
    by (right; right; by left).
  unfold update_quran_verse, requests_get, try_except. run. fold first.
  destruct (provider E (length (sent w)) first)
    as [|c tm|c arabic name n num|c t|d] eqn:Hfirst; cbn;
    try (by apply Herr).
  - destruct (c =? 200); cbn; by apply Herr.
  - destruct (c =? 200) eqn:Hc; cbn; [|by apply Herr].
    apply Z.eqb_eq in Hc as ->.
    rewrite length_app. cbn [length]. rewrite Nat.add_1_r.
    set (second := {| url := "https://api.alquran.cloud/v1/ayah/" +:+ str num
                               +:+ "/en.sahih";
                      params := None |}).
    destruct (provider E (S (length (sent w))) second)
      as [|c' tm'|c' t' name' n' num'|c' t'|d'] eqn:Hsecond; cbn;
      try (by apply Herr).
    + destruct (c' =? 200); cbn; by apply Herr.
    + destruct (c' =? 200) eqn:Hc'; cbn; [|by apply Herr].
      apply Z.eqb_eq in Hc' as ->.
      destruct (show_arabic (config (self w)));
        destruct (show_translation (config (self w))); cbn;
        (eexists; split; [reflexivity|]; right;
         exists arabic, name, n, num, t'; cbn; fold second;
         rewrite <- app_assoc; repeat split; eauto).
    + destruct (c' =? 200) eqn:Hc'; cbn; [|by apply Herr].
      apply Z.eqb_eq in Hc' as ->.
      destruct (show_arabic (config (self w)));
        destruct (show_translation (config (self w))); cbn;
        (eexists; split; [reflexivity|]; right;
         exists arabic, name, n, num, t'; cbn; fold second;
         rewrite <- app_assoc; repeat split; eauto).
  - destruct (c =? 200); cbn; by apply Herr.
Qed.

(** ** All three fetches *)

Lemma update_prayer_times_config (E : Env) (fuel : nat) (w w' : World) :
  update_prayer_times E fuel w = Ret tt w' ->
  config (self w') = config (self w) /\
  hadith_part (self w') = hadith_part (self w).
Proof.
  intros Hrun.
  set (R := fun w w' : World =>
    config (self w') = config (self w) /\
    hadith_part (self w') = hadith_part (self w)).
  assert (Hrefl : forall v, R v v) by done.
  assert (Htrans : forall a b c, R a b -> R b c -> R a c).
  { intros a b c [H1 H2] [H3 H4]. unfold R. by rewrite H3, H4. }
  pose proof (respects_update_prayer_times R Hrefl Htrans E
                ltac:(done) ltac:(done) ltac:(done) ltac:(done)
                ltac:(done) ltac:(done) ltac:(done) ltac:(done) fuel w) as H.
  by rewrite Hrun in H.
Qed.

(** X13. A run of [update_data] that comes back is a prayer refresh, then
    the verse, then the hadith when the configuration as it was at the
    start shows hadiths: the two methods before the test do not touch the
    configuration.  With hadiths switched off the run ends with the verse,
    and the hadith labels are what they were; switched on, the hadith
    request is the last one sent. *)
Theorem update_data_show_hadith (E : Env) (fuel : nat) (w w' : World) :
  update_data E fuel w = Ret tt w' ->
  exists w1 w2,
    update_prayer_times E fuel w = Ret tt w1 /\
    update_quran_verse E w1 = Ret tt w2 /\
    if show_hadith (config (self w))
    then update_hadith E w2 = Ret tt w' /\
         sent w' = sent w2 ++
                   [{| url := hadith_api (config (self w)); params := None |}]
    else w' = w2 /\ hadith_part (self w') = hadith_part (self w).
Proof.
  unfold update_data, mbind, M_bind.
  destruct (update_prayer_times E fuel w) as [[] w1|w1] eqn:Hp;
    [|discriminate].
  destruct (update_prayer_times_config E fuel w w1 Hp) as [Hcfg1 Hh1].
  destruct (update_quran_verse E w1) as [[] w2|w2] eqn:Hq;
    [|discriminate].
  destruct (update_quran_verse_keeps E w1 w2 Hq) as (_ & Hh2 & Hf2).
  apply fixed_part_config in Hf2. cbn [get_self].
  rewrite Hf2, Hcfg1.
  destruct (show_hadith (config (self w))) eqn:Hshow.
  - intros Hh. exists w1, w2. do 2 (split; [done|]).
    split; [exact Hh|]. revert Hh.
    unfold update_hadith, requests_get, try_except, hadith_data. run.
    rewrite Hf2, Hcfg1.
    destruct (provider E _ _) as [| | | |d]; cbn;
      try destruct (decide (d = ∅)); cbn; by intros [= <-].
  - intros [= <-]. exists w1, w2. do 2 (split; [done|]).
    split; [reflexivity|]. by rewrite Hh2, Hh1.
Qed.

Lemma update_data_show_hadith_witness :
  exists w1 w2 w',
    update_prayer_times Sample.at_noon 1 Sample.world0 = Ret tt w1 /\
    update_quran_verse Sample.at_noon w1 = Ret tt w2 /\
    update_hadith Sample.at_noon w2 = Ret tt w' /\
    length (sent w') = S (length (sent w2)).
Proof.
  destruct (update_data Sample.at_noon 1 Sample.world0)
    as [[] w'|w'] eqn:Hrun; [|vm_compute in Hrun; discriminate].
  destruct (update_data_show_hadith Sample.at_noon 1 Sample.world0 w' Hrun)
    as (w1 & w2 & Hp & Hq & Hh & Hsent).
  exists w1, w2, w'. do 3 (split; [assumption|]).
  rewrite Hsent, length_app. cbn [length]. by rewrite Nat.add_1_r.
Defined.

(** * The configuration file *)

Lemma dict_set_cons {V} (k k' : string) (v v' : V) (d : list (string * V)) :
  dict_set k v ((k', v') :: d) =
    if String.eqb k k' then (k', v) :: d else (k', v') :: dict_set k v d.
Proof. reflexivity. Qed.

Lemma dict_set_idem {V} (k : string) (v : V) (d : list (string * V)) :
  dict_set k v (dict_set k v d) = dict_set k v d.
Proof.
  induction d as [|[k' v'] d IH].
  - change (dict_set k v []) with [(k, v)].
    by rewrite dict_set_cons, String.eqb_refl.
  - rewrite dict_set_cons.
    destruct (String.eqb k k') eqn:Hk; rewrite dict_set_cons, Hk; [done|].
    by rewrite IH.
Qed.

Lemma load_config_cases (localzone : option string)
    (latitude longitude : ConfigFile.Json) (s : ConfigFile.State) :
  let tz := ConfigFile.JStr (ConfigFile.get_local_timezone localzone) in
  (ConfigFile.file s = ConfigFile.Missing /\
   ConfigFile.load_config localzone latitude longitude s =
     ConfigFile.Done
       {| ConfigFile.file :=
            ConfigFile.Holds (ConfigFile.DEFAULT_CONFIG localzone latitude
                                longitude);
          ConfigFile.config :=
            Some (ConfigFile.DEFAULT_CONFIG localzone latitude longitude) |})
  \/
  (ConfigFile.file s = ConfigFile.Garbled /\
   ConfigFile.load_config localzone latitude longitude s = ConfigFile.Raised s)
  \/
  (exists j,
     ConfigFile.file s = ConfigFile.Holds j /\
     (forall fields location,
        j = ConfigFile.JObj fields ->
        dict_get fields "location" <> Some (ConfigFile.JObj location)) /\
     ConfigFile.load_config localzone latitude longitude s =
       ConfigFile.Raised
         {| ConfigFile.file := ConfigFile.Holds j;
            ConfigFile.config := Some j |})
  \/
  (exists fields location v,
     ConfigFile.file s = ConfigFile.Holds (ConfigFile.JObj fields) /\
     dict_get fields "location" = Some (ConfigFile.JObj location) /\
     dict_get location "timezone" = Some v /\
     ConfigFile.truthy v = true /\
     ConfigFile.load_config localzone latitude longitude s =
       ConfigFile.Done
         {| ConfigFile.file := ConfigFile.Holds (ConfigFile.JObj fields);
            ConfigFile.config := Some (ConfigFile.JObj fields) |})
  \/
  (exists fields location,
     ConfigFile.file s = ConfigFile.Holds (ConfigFile.JObj fields) /\
     dict_get fields "location" = Some (ConfigFile.JObj location) /\
     (dict_get location "timezone" = None \/
      exists v, dict_get location "timezone" = Some v /\
                ConfigFile.truthy v = false) /\
     let c := ConfigFile.JObj
                (dict_set "location"
                   (ConfigFile.JObj (dict_set "timezone" tz location))
                   fields) in
     ConfigFile.load_config localzone latitude longitude s =
       ConfigFile.Done
         {| ConfigFile.file := ConfigFile.Holds c;
            ConfigFile.config := Some c |}).
Proof.
  intros tz. unfold ConfigFile.load_config.
  destruct (ConfigFile.file s) as [| |j] eqn:Hfile.
  - by left.
  - right; left. by destruct s.
  - do 2 right.
    assert (Hbad :
      (forall fields location,
         j = ConfigFile.JObj fields ->
         dict_get fields "location" <> Some (ConfigFile.JObj location)) ->
      exists j0,
        ConfigFile.Holds j = ConfigFile.Holds j0 /\
        (forall fields location,
           j0 = ConfigFile.JObj fields ->
           dict_get fields "location" <> Some (ConfigFile.JObj location)) /\
        ConfigFile.Raised
          {| ConfigFile.file := ConfigFile.Holds j;
             ConfigFile.config := Some j |} =
        ConfigFile.Raised
          {| ConfigFile.file := ConfigFile.Holds j0;
             ConfigFile.config := Some j0 |}) by (intros H; by exists j).
    destruct j as [|b|n|m e|str|arr|fields]; cbn;
      try (left; apply Hbad; intros; discriminate).
    destruct (dict_get fields "location") as [loc|] eqn:Hloc;
      [|left; apply Hbad; intros ? ? [= <-]; congruence].
    destruct loc as [|b|n|m e|str|arr|location];
      try (left; apply Hbad; intros ? ? [= <-]; congruence).
    right. destruct (dict_get location "timezone") as [v|] eqn:Htz.
    + destruct (ConfigFile.truthy v) eqn:Hv; cbn.
      * left. by exists fields, location, v.
      * right. exists fields, location. do 2 (split; [done|]).
        split; [right; by exists v|done].
    + right. exists fields, location. do 2 (split; [done|]).
      split; [by left|done].
Qed.

(** X14. When [load_config] returns, the file holds exactly the
    configuration that [self.config] holds, its location is a dict with a
    timezone, and that timezone is a truthy value or the local timezone
    that [get_local_timezone] gave.  A missing file has been created with
    the defaults; a file whose timezone was truthy is loaded as it is. *)
Theorem load_config_file_agrees (localzone : option string)
    (latitude longitude : ConfigFile.Json) (s s' : ConfigFile.State) :
  ConfigFile.load_config localzone latitude longitude s = ConfigFile.Done s' ->
  exists c location tz,
    ConfigFile.config s' = Some c /\
    ConfigFile.file s' = ConfigFile.Holds c /\
    ConfigFile.getitem c "location" = Some (ConfigFile.JObj location) /\
    dict_get location "timezone" = Some tz /\
    (ConfigFile.truthy tz = true \/
     tz = ConfigFile.JStr (ConfigFile.get_local_timezone localzone)) /\
    (ConfigFile.file s = ConfigFile.Missing ->
     c = ConfigFile.DEFAULT_CONFIG localzone latitude longitude) /\
    (forall j location0 tz0,
       ConfigFile.file s = ConfigFile.Holds j ->
       ConfigFile.getitem j "location" = Some (ConfigFile.JObj location0) ->
       dict_get location0 "timezone" = Some tz0 ->
       ConfigFile.truthy tz0 = true ->
       c = j).
Proof.
  intros Hrun.
  destruct (load_config_cases localzone latitude longitude s)
    as [[Hf H]|[[Hf H]|[(j & Hf & _ & H)
                       |[(fields & location & v & Hf & Hloc & Htz & Hv & H)
                        |(fields & location & Hf & Hloc & Hno & H)]]]];
    cbv zeta in H; rewrite H in Hrun; try discriminate;
    injection Hrun as <-.
  - eexists _, _, _. do 3 (split; [reflexivity|]). split; [reflexivity|].
    split; [by right|]. split; [done|]. intros ? ? ? Hj. congruence.
  - exists (ConfigFile.JObj fields), location, v. cbn.
    do 5 (split; [by eauto|]). split; [congruence|].
    intros ? ? ? Hj. congruence.
  - eexists _, _, _. do 2 (split; [reflexivity|]). cbn.
    split; [apply dict_get_set|]. split; [apply dict_get_set|].
    split; [by right|]. split; [congruence|].
    intros j location0 tz0 Hj Hloc0 Htz0 Hv0. exfalso.
    rewrite Hf in Hj. injection Hj as <-. cbn in Hloc0.
    rewrite Hloc in Hloc0. injection Hloc0 as <-.
    destruct Hno as [Hno|(v & Hv1 & Hv2)]; congruence.
Qed.

Lemma load_config_file_agrees_witness :
  exists c,
    ConfigFile.load_config None ConfigFile.JNull ConfigFile.JNull
      {| ConfigFile.file :=
           ConfigFile.Holds
             (ConfigFile.JObj
                [("location",
                  ConfigFile.JObj [("city", ConfigFile.JStr "Oslo");
                                   ("timezone", ConfigFile.JStr "")])]);
         ConfigFile.config := None |}
    = ConfigFile.Done
        {| ConfigFile.file := ConfigFile.Holds c;
           ConfigFile.config := Some c |} /\
    ConfigFile.getitem c "location" =
      Some (ConfigFile.JObj [("city", ConfigFile.JStr "Oslo");
                             ("timezone",
                              ConfigFile.JStr "America/New_York")]).
Proof.
  destruct (load_config_file_agrees None ConfigFile.JNull ConfigFile.JNull
              {| ConfigFile.file :=
                   ConfigFile.Holds
                     (ConfigFile.JObj
                        [("location",
                          ConfigFile.JObj
                            [("city", ConfigFile.JStr "Oslo");
                             ("timezone", ConfigFile.JStr "")])]);
                 ConfigFile.config := None |} _ eq_refl)
    as (c & location & tz & Hc & Hf & Hloc & Htz & Hv).
  exists c. injection Hc as <-. split; reflexivity.
Defined.

(** X15. Loading is idempotent: after a [load_config] that returned, a
    second one returns as well and changes neither the file nor
    [self.config], also when the local timezone it fills in is empty. *)
Theorem load_config_idempotent (localzone : option string)
    (latitude longitude : ConfigFile.Json) (s s' : ConfigFile.State) :
  ConfigFile.load_config localzone latitude longitude s = ConfigFile.Done s' ->
  ConfigFile.load_config localzone latitude longitude s' = ConfigFile.Done s'.
Proof.
  intros Hrun.
  destruct (load_config_cases localzone latitude longitude s)
    as [[_ H]|[[_ H]|[(j & _ & _ & H)|[(fields & location & v & _ & Hloc & Htz
                                         & Hv & H)
                                       |(fields & location & _ & Hloc & _
                                         & H)]]]];
    cbv zeta in H; rewrite H in Hrun; try discriminate;
    injection Hrun as <-.
  - unfold ConfigFile.load_config, ConfigFile.DEFAULT_CONFIG. cbn.
    destruct (String.eqb (ConfigFile.get_local_timezone localzone) "");
      reflexivity.
  - unfold ConfigFile.load_config. cbn. by rewrite Hloc, Htz, Hv.
  - unfold ConfigFile.load_config. cbn.
    rewrite !dict_get_set.
    destruct (negb (ConfigFile.truthy
                      (ConfigFile.JStr
                         (ConfigFile.get_local_timezone localzone))));
      [|reflexivity].
    cbn. by rewrite !dict_set_idem.
Qed.

Lemma load_config_idempotent_witness :
  exists s',
    ConfigFile.load_config (Some "Europe/Oslo") ConfigFile.JNull
      ConfigFile.JNull
      {| ConfigFile.file := ConfigFile.Missing; ConfigFile.config := None |}
    = ConfigFile.Done s' /\
    ConfigFile.load_config (Some "Europe/Oslo") ConfigFile.JNull
      ConfigFile.JNull s'
    = ConfigFile.Done s'.
Proof.
  eexists. split; [reflexivity|].
  apply (load_config_idempotent (Some "Europe/Oslo") ConfigFile.JNull
           ConfigFile.JNull
           {| ConfigFile.file := ConfigFile.Missing;
              ConfigFile.config := None |}).
  reflexivity.
Defined.

(** X16. [load_config] raises exactly when the file is not JSON or its
    value is not a dict whose location is a dict; the file is then what it
    was. *)
Theorem load_config_raises (localzone : option string)
    (latitude longitude : ConfigFile.Json) (s : ConfigFile.State) :
  ((exists s',
      ConfigFile.load_config localzone latitude longitude s
        = ConfigFile.Raised s')
   <->
   (ConfigFile.file s = ConfigFile.Garbled \/
    exists j,
      ConfigFile.file s = ConfigFile.Holds j /\
      forall fields location,
        j = ConfigFile.JObj fields ->
        dict_get fields "location" <> Some (ConfigFile.JObj location))) /\
  (forall s',
     ConfigFile.load_config localzone latitude longitude s
       = ConfigFile.Raised s' ->
     ConfigFile.file s' = ConfigFile.file s).
Proof.
  destruct (load_config_cases localzone latitude longitude s)
    as [[Hf H]|[[Hf H]|[(j & Hf & Hbad & H)
                       |[(fields & location & v & Hf & Hloc & Htz & Hv & H)
                        |(fields & location & Hf & Hloc & _ & H)]]]];
    cbv zeta in H; rewrite H; (split; [split|]).
  - by intros [s' Hs'].
  - intros [Hg|(j & Hj & _)]; congruence.
  - discriminate.
  - by left.
  - by eexists.
  - by intros s' [= <-].
  - right. by exists j.
  - by eexists.
  - by intros s' [= <-].
  - by intros [s' Hs'].
  - intros [Hg|(j & Hj & Hbad)]; [congruence|].
    rewrite Hf in Hj. injection Hj as <-.
    by destruct (Hbad fields location eq_refl).
  - discriminate.
  - by intros [s' Hs'].
  - intros [Hg|(j & Hj & Hbad)]; [congruence|].
    rewrite Hf in Hj. injection Hj as <-.
    by destruct (Hbad fields location eq_refl).
  - discriminate.
Qed.

Lemma load_config_raises_witness :
  exists s',
    ConfigFile.load_config None ConfigFile.JNull ConfigFile.JNull
      {| ConfigFile.file :=
           ConfigFile.Holds
             (ConfigFile.JObj [("location", ConfigFile.JStr "timezone")]);
         ConfigFile.config := None |}
    = ConfigFile.Raised s'.
Proof.
  apply (proj2 (proj1 (load_config_raises None ConfigFile.JNull
                         ConfigFile.JNull
                         {| ConfigFile.file :=
                              ConfigFile.Holds
                                (ConfigFile.JObj
                                   [("location", ConfigFile.JStr "timezone")]);
                            ConfigFile.config := None |}))).
  right. eexists. split; [reflexivity|].
  intros fields location [= <-]. discriminate.
Defined.

(** ** What a refresh leaves on the labels *)

Lemma NoDup_prayer_names : NoDup prayer_names.
Proof. apply (bool_decide_unpack _). vm_compute. reflexivity. Qed.

Lemma dict_get_elem {V} (d : list (string * V)) (k : string) (v : V) :
  NoDup d.*1 -> (k, v) ∈ d -> dict_get d k = Some v.
Proof.
  induction d as [|[k' v'] d IH]; intros Hnd Hin.
  - by apply elem_of_nil in Hin.
  - apply NoDup_cons in Hnd as [Hk' Hnd]. cbn [dict_get].
    apply elem_of_cons in Hin as [[= -> ->]|Hin].
    + by rewrite String.eqb_refl.
    + destruct (String.eqb k k') eqn:Hk; [|by apply IH].
      apply String.eqb_eq in Hk as ->. exfalso. apply Hk'.
      apply list_elem_of_fmap. by exists (k', v).
Qed.

Lemma fetch_tomorrow_fajr_after (E : Env) (w w' : World)
    (r : option (string * QDateTime)) :
  fetch_tomorrow_fajr E w = Ret r w' ->
  (r = None /\ next_prayer_label (self w') ∈ error_texts) \/
  (exists t, r = Some ("Fajr (Tomorrow)", t) /\ self w' = self w).
Proof.
  unfold fetch_tomorrow_fajr, requests_get, error_texts. run.
  destruct (provider E _ _) as [|c tm|c ? ? ? ?|c ?|?]; cbn;
    try (intros [= <- <-]; left; split; [done|]; cbn;
         rewrite !elem_of_cons; by auto).
  - destruct (c =? 200); cbn.
    + destruct (tm !! "Fajr") as [s|]; cbn.
      * intros [= <- <-]. right. by eexists.
      * intros [= <- <-]. left. split; [done|]. cbn.
        rewrite !elem_of_cons. by auto.
    + intros [= <- <-]. left. split; [done|]. cbn.
      rewrite !elem_of_cons. by auto.
  - destruct (c =? 200); cbn; intros [= <- <-]; left; (split; [done|]); cbn;
      rewrite !elem_of_cons; by auto.
  - destruct (c =? 200); cbn; intros [= <- <-]; left; (split; [done|]); cbn;
      rewrite !elem_of_cons; by auto.
Qed.

Lemma update_prayer_displays_label (w w' : World) :
  update_prayer_displays w = Ret tt w' ->
  next_prayer_label (self w') = next_prayer_label (self w).
Proof.
  intros Hrun.
  pose proof (respects_displays
                (fun w w' => next_prayer_label (self w')
                             = next_prayer_label (self w))
                ltac:(done) ltac:(intros ? ? ? H1 H2; exact (eq_trans H2 H1))
                ltac:(done) w) as H.
  by rewrite Hrun in H.
Qed.

Lemma update_prayer_displays_after (w w' : World) :
  (next_prayer_label (self w) ∈ error_texts \/
   exists p items, next_stored (self w) p items) ->
  update_prayer_displays w = Ret tt w' ->
  next_prayer_label (self w') ∈ error_texts \/
  exists p items,
    next_stored (self w') p items /\ labels_show (self w') p items.
Proof.
  intros [Herr|(p & items & Hnp & Hitems & Hkeys & Hlabel & Ht)] Hrun.
  - left. by rewrite (update_prayer_displays_label w w' Hrun).
  - right. exists p, items.
    rewrite (update_prayer_displays_run w items p Hitems Hnp) in Hrun.
    injection Hrun as <-. split; [done|].
    intros k l u. cbn. rewrite paint_lookup.
    destruct (prayer_labels (self w) !! k) as [l0|].
    + rewrite fold_label_nodup
        by (rewrite Hkeys; apply NoDup_prayer_names).
      intros [= <-] ->. reflexivity.
    + by rewrite (proj1 (fold_label_shape p k items)).
Qed.

Section Agree.

Variables (E : Env) (refresh : M unit).

Hypothesis refresh_after : forall w w',
  refresh w = Ret tt w' ->
  next_prayer_label (self w') ∈ error_texts \/
  exists p items,
    next_stored (self w') p items /\ labels_show (self w') p items.

Lemma store_next_prayer_after (w w' : World) (p : string) (t : QDateTime)
    (items : list (string * QDateTime)) :
  prayer_times (self w) = Some items ->
  items.*1 = prayer_names ->
  dict_get items p = Some t \/ p = "Fajr (Tomorrow)" ->
  store_next_prayer E refresh (Some (p, t)) w = Ret tt w' ->
  next_prayer_label (self w') ∈ error_texts \/
  exists p items, next_stored (self w') p items.
Proof using refresh_after.
  intros Hitems Hkeys Hp.
  unfold store_next_prayer, modify, mbind, M_bind. cbn [self reads].
  match goal with
  | |- update_countdown_with E refresh ?W = _ -> _ =>
      rewrite (update_countdown_with_run E refresh W t eq_refl)
  end.
  cbv zeta. destruct (0 <? _).
  - intros [= <-]. right. exists p, items. unfold next_stored. cbn.
    do 4 (split; [done|]). by exists t.
  - intros Hr. apply refresh_after in Hr as [Herr|(p' & items' & Hs & _)];
      [by left|right; eauto].
Qed.

Lemma update_next_prayer_with_after (w w' : World)
    (items : list (string * QDateTime)) :
  prayer_times (self w) = Some items ->
  items.*1 = prayer_names ->
  update_next_prayer_with E refresh w = Ret tt w' ->
  next_prayer_label (self w') ∈ error_texts \/
  exists p items, next_stored (self w') p items.
Proof using refresh_after.
  intros Hitems Hkeys.
  unfold update_next_prayer_with, QDateTime_currentDateTime, get_self,
    subscript, mbind, M_bind, mret, M_ret.
  cbn [self reads]. rewrite Hitems.
  pose proof (scan_earliest (fromMSecs (clock E (reads w))) items) as Hscan.
  destruct (scan (fromMSecs (clock E (reads w))) items) as [[p t]|].
  - destruct Hscan as (Hin & _ & _).
    apply store_next_prayer_after with (items := items); [done|done|].
    left. apply dict_get_elem; [|done].
    rewrite Hkeys. apply NoDup_prayer_names.
  - destruct (fetch_tomorrow_fajr E _) as [r w2|w2] eqn:Hfetch;
      [|discriminate].
    apply fetch_tomorrow_fajr_after in Hfetch
      as [[-> Herr]|(t & -> & Hself)].
    + intros [= <-]. by left.
    + apply store_next_prayer_after with (items := items);
        [by rewrite Hself|done|by right].
Qed.

Lemma refresh_tail_after (w w' : World) (items : list (string * QDateTime)) :
  prayer_times (self w) = Some items ->
  items.*1 = prayer_names ->
  try_except (update_next_prayer_with E refresh;; update_prayer_displays)
    prayer_times_failed w = Ret tt w' ->
  next_prayer_label (self w') ∈ error_texts \/
  exists p items,
    next_stored (self w') p items /\ labels_show (self w') p items.
Proof using refresh_after.
  intros Hitems Hkeys. unfold try_except, mbind, M_bind.
  destruct (update_next_prayer_with E refresh w) as [[] w1|w1] eqn:Hnext.
  - apply (update_next_prayer_with_after w w1 items Hitems Hkeys) in Hnext.
    destruct (update_prayer_displays w1) as [[] w2|w2] eqn:Hshow.
    + intros [= <-]. by apply (update_prayer_displays_after w1 w2).
    + unfold prayer_times_failed. run. intros [= <-]. left. cbn.
      unfold error_texts. rewrite !elem_of_cons. by auto.
  - unfold prayer_times_failed. run. intros [= <-]. left. cbn.
    unfold error_texts. rewrite !elem_of_cons. by auto.
Qed.

Lemma refresh_reaches_tail (w w' : World) :
  update_prayer_times_with E refresh w = Ret tt w' ->
  next_prayer_label (self w') ∈ error_texts \/
  exists w1 items,
    prayer_times (self w1) = Some items /\
    items.*1 = prayer_names /\
    try_except (update_next_prayer_with E refresh;; update_prayer_displays)
      prayer_times_failed w1 = Ret tt w'.
Proof.
  assert (Herr : forall w0 : World,
    next_prayer_label (self w0) ∈ error_texts ->
    Ret tt w0 = Ret tt w' ->
    next_prayer_label (self w') ∈ error_texts \/
    exists w1 items,
      prayer_times (self w1) = Some items /\
      items.*1 = prayer_names /\
      try_except (update_next_prayer_with E refresh;; update_prayer_displays)
        prayer_times_failed w1 = Ret tt w') by (intros w0 H [= <-]; by left).
  assert (H1 : "Error: Could not update prayer times" ∈ error_texts)
    by (unfold error_texts; rewrite !elem_of_cons; by auto).
  assert (H2 : "Prayer API Error: Try again later" ∈ error_texts)
    by (unfold error_texts; rewrite !elem_of_cons; by auto).
  unfold update_prayer_times_with, requests_get, prayer_times_failed,
    adjust_midnight, note_refresh, try_except, prayer_request,
    time_to_datetime, QDate_currentDate, QDateTime_currentDateTime, get_self,
    modify, subscript, raise, mbind, M_bind, mret, M_ret.
  cbn.
  match goal with
  | |- context [provider E ?k ?r] =>
      destruct (provider E k r) as [|c tm|c ? ? ? ?|c ?|?]
  end; cbn; try (by apply Herr).
  - destruct (c =? 200); cbn; [|by apply Herr].
    match goal with
    | |- context [extract_prayer_times E tm ?w0] =>
        destruct (extract_prayer_times E tm w0) as [items w1|w1] eqn:Hex
    end; cbn; [|by apply Herr].
    destruct (extract_prayer_times_inv E tm _ _ _ Hex)
      as (fajr & sunrise & dhuhr & asr & maghrib & isha & midnight
          & ? & ? & ? & ? & ? & ? & ?).
    rewrite (extract_prayer_times_run E tm _ fajr sunrise dhuhr asr maghrib
               isha midnight) in Hex by assumption.
    injection Hex as <- <-. cbn.
    match goal with
    | |- context [provider E ?k ?r] =>
        destruct (provider E k r) as [|c' tm'|c' ? ? ? ?|c' ?|?]
    end; cbn; try (by apply Herr).
    + destruct (c' =? 200); cbn.
      * destruct (tm' !! "Fajr") as [fajr'|]; cbn; [|by apply Herr].
        intros Hrun. right.
        lazymatch type of Hrun with
        | context [update_next_prayer_with E refresh ?W] => exists W
        end.
        eexists. split; [reflexivity|]. split; [reflexivity|exact Hrun].
      * intros Hrun. right.
        lazymatch type of Hrun with
        | context [update_next_prayer_with E refresh ?W] => exists W
        end.
        eexists. split; [reflexivity|]. split; [reflexivity|exact Hrun].
    + destruct (c' =? 200); cbn; [by apply Herr|].
      intros Hrun. right.
      lazymatch type of Hrun with
      | context [update_next_prayer_with E refresh ?W] => exists W
      end.
      eexists. split; [reflexivity|]. split; [reflexivity|exact Hrun].
    + destruct (c' =? 200); cbn; [by apply Herr|].
      intros Hrun. right.
      lazymatch type of Hrun with
      | context [update_next_prayer_with E refresh ?W] => exists W
      end.
      eexists. split; [reflexivity|]. split; [reflexivity|exact Hrun].
  - destruct (c =? 200); cbn; by apply Herr.
  - destruct (c =? 200); cbn; by apply Herr.
Qed.

End Agree.

(** X17. After a prayer refresh that came back, however deep the
    countdown made it nest, the next-prayer label carries one of the four
    error texts, or the widget is consistent: the label announces the
    stored next prayer, whose timestamp is its entry in the stored dict
    unless it is tomorrow's Fajr, the dict has the seven names, and every
    time label shows the stored time of its name and is highlighted
    exactly when its name is the next prayer; with "Fajr (Tomorrow)"
    stored, none is. *)
Theorem update_prayer_times_labels_agree (E : Env) (fuel : nat)
    (w w' : World) :
  update_prayer_times E fuel w = Ret tt w' ->
  next_prayer_label (self w') ∈ error_texts \/
  exists p items,
    next_stored (self w') p items /\ labels_show (self w') p items.
Proof.
  revert w w'. induction fuel as [|fuel IH]; intros w w' Hrun.
  { injection Hrun as <-. left. cbn. unfold error_texts.
    rewrite !elem_of_cons. by auto. }
  cbn [update_prayer_times] in Hrun.
  destruct (refresh_reaches_tail E _ w w' Hrun)
    as [Herr|(w1 & items & Hitems & Hkeys & Htail)]; [by left|].
  exact (refresh_tail_after E _ IH w1 w' items Hitems Hkeys Htail).
Qed.

Lemma update_prayer_times_labels_agree_witness :
  exists w',
    update_prayer_times Sample.at_evening 1 Sample.world0 = Ret tt w' /\
    exists p items,
      next_stored (self w') p items /\ labels_show (self w') p items.
Proof.
  destruct (update_prayer_times Sample.at_evening 1 Sample.world0)
    as [[] w'|w'] eqn:Hrun; [|vm_compute in Hrun; discriminate].
  exists w'. split; [reflexivity|].
  destruct (update_prayer_times_labels_agree Sample.at_evening 1
              Sample.world0 w' Hrun) as [Herr|Hok]; [|exact Hok].
  exfalso. vm_compute in Hrun. injection Hrun as <-.
  unfold error_texts in Herr. cbn in Herr.
  rewrite !elem_of_cons, elem_of_nil in Herr.
  destruct Herr as [H|[H|[H|[H|[]]]]]; discriminate H.
Defined.
